(** * ResNeXt3D (torchvision/models/video/resnext3d.py): a shallow embedding

    The module classes of [resnext3d.py] are embedded one Rocq module per
    Python class.  Constructors ([init]) run in a small state-and-exception
    monad whose state is the trace of module objects allocated so far;
    forward passes run in the exception monad and are generic in the tensor
    type: the tensor primitives of PyTorch (convolution, normalisation,
    pooling, ...) are an interface, instantiated below on tensor shapes and,
    for the classification head, on tensors of values. *)

From Stdlib Require Import ZArith List String Lia Bool.
From Stdlib Require QArith_base.
From stdpp Require Import base option list strings gmap pretty.

Local Open Scope nat_scope.

(** ** Python exceptions and the two monads *)

Inductive exn : Type :=
| ValueError (msg : string)
| AssertionError
| AttributeError (cls attr : string)
| IndexError
| KeyError (key : string)
| RuntimeError (msg : string).

Inductive result (A : Type) : Type :=
| Ok (a : A)
| Raise (e : exn).
Arguments Ok {A} a.
Arguments Raise {A} e.

#[global] Instance result_ret : MRet result := fun _ a => Ok a.
#[global] Instance result_bind : MBind result := fun _ _ f m =>
  match m with
  | Ok a => f a
  | Raise e => Raise e
  end.

#[global] Instance result_fmap : FMap result := fun _ _ f m =>
  match m with
  | Ok a => Ok (f a)
  | Raise e => Raise e
  end.

(** Names of the classes whose instances have been allocated, oldest first. *)
Definition trace : Type := list string.

(** A constructor: it may raise, and it extends the allocation trace. *)
Definition Build (A : Type) : Type := trace -> result A * trace.

#[global] Instance Build_ret : MRet Build := fun _ a tr => (Ok a, tr).
#[global] Instance Build_bind : MBind Build := fun _ _ f m tr =>
  match m tr with
  | (Ok a, tr') => f a tr'
  | (Raise e, tr') => (Raise e, tr')
  end.

#[global] Instance Build_fmap : FMap Build := fun _ _ f m tr =>
  match m tr with
  | (Ok a, tr') => (Ok (f a), tr')
  | (Raise e, tr') => (Raise e, tr')
  end.

(** [super().__init__()] of a module class: the object now exists. *)
Definition alloc (cls : string) : Build unit := fun tr => (Ok tt, tr ++ [cls]).

Definition raise {A : Type} (e : exn) : Build A := fun tr => (Raise e, tr).

(** The Python [assert] statement. *)
Definition assert (b : bool) : Build unit :=
  if b then mret tt else raise AssertionError.

(** [lst[i]] on a Python list and [d[key]] on a dict. *)
Definition getitem {A : Type} (lst : list A) (i : nat) : result A :=
  match lst !! i with
  | Some a => Ok a
  | None => Raise IndexError
  end.

Definition dict_getitem {A : Type} (d : gmap string A) (key : string) : result A :=
  match d !! key with
  | Some a => Ok a
  | None => Raise (KeyError key)
  end.

(** A computation that allocates nothing, inside a constructor. *)
Definition lift {A : Type} (r : result A) : Build A := fun tr => (r, tr).

Definition index {A : Type} (lst : list A) (i : nat) : Build A := lift (getitem lst i).

(** [lst * n] on a Python list: [n] copies of [lst], concatenated. *)
Definition list_mul {A : Type} (lst : list A) (n : nat) : list A :=
  concat (replicate n lst).

(** [for i in range(start, start + n): s = body(i, s)], in either monad. *)
Fixpoint for_loop {M : Type -> Type} `{MBind M, MRet M} {St : Type}
    (body : nat -> St -> M St) (start n : nat) (s : St) : M St :=
  match n with
  | 0 => mret s
  | S n' => s' ← body start s; for_loop body (S start) n' s'
  end.

(** ** Numbers
    Sizes, counts and strides are natural numbers; Python's [//] on them is
    [Nat.div] and [**] is [Nat.pow].  Decimal literals are exact rationals. *)

Abbreviation Q := QArith_base.Q.
Notation "n # d" := (QArith_base.Qmake n d) (at level 55, no associativity).

Definition triple : Type := (nat * nat * nat)%type.

(** [torch.nn.modules.utils._triple] on an [int]. *)
Definition _triple (n : nat) : triple := (n, n, n).

(** ** The PyTorch layers the file instantiates ([torch.nn])

    Only what the architecture code reads or sets is kept: the
    hyper-parameters that decide shapes, the ad hoc [final_transform_op]
    attribute, and, per parameter tensor, the initialiser last applied. *)

Inductive initializer : Type :=
| default_init                                    (* the layer's own reset_parameters() *)
| constant_ (val : Q)                             (* nn.init.constant_ *)
| kaiming_normal_ (mode nonlinearity : string)    (* nn.init.kaiming_normal_ *)
| normal_ (mean std : Q).                         (* nn.init.normal_ *)

Record Conv3d : Type := mkConv3d {
  in_channels : nat;
  out_channels : nat;
  kernel_size : triple;
  conv_stride : triple;
  conv_padding : triple;
  groups : nat;
  conv_weight : initializer;
  conv_bias : option initializer;        (* None for bias=False *)
  conv_final_transform_op : bool         (* hasattr(m, "final_transform_op") and m.final_transform_op *)
}.

Record BatchNorm3d : Type := mkBatchNorm3d {
  num_features : nat;
  eps : Q;
  momentum : Q;
  affine : bool;
  bn_weight : initializer;
  bn_bias : initializer;
  bn_final_transform_op : bool
}.

Record Linear : Type := mkLinear {
  in_features : nat;
  out_features : nat;
  lin_weight : initializer;
  lin_bias : initializer
}.

(** Layers that occur where the code stores layers of several classes in
    one attribute or one [nn.Sequential]. *)
Inductive Layer : Type :=
| L_BatchNorm3d (bn : BatchNorm3d)
| L_ReLU (inplace : bool)
| L_Identity.

Module nn.

(** [nn.Conv3d(...)]: [_ConvNd.__init__] rejects channel counts that the
    groups do not divide. *)
Definition Conv3d (cin cout : nat) (kernel stride padding : triple)
    (grp : nat) (bias : bool) : Build Conv3d :=
  _ ← alloc "Conv3d";
  if grp =? 0 then raise (ValueError "groups must be a positive integer")
  else if negb (cin mod grp =? 0) then
    raise (ValueError "in_channels must be divisible by groups")
  else if negb (cout mod grp =? 0) then
    raise (ValueError "out_channels must be divisible by groups")
  else
    mret (mkConv3d cin cout kernel stride padding grp default_init
            (if bias then Some default_init else None) false).

(** [nn.BatchNorm3d(num_features, eps=..., momentum=...)], affine. *)
Definition BatchNorm3d (features : nat) (bn_eps bn_mmt : Q) : Build BatchNorm3d :=
  _ ← alloc "BatchNorm3d";
  mret (mkBatchNorm3d features bn_eps bn_mmt true default_init default_init false).

Definition Linear (fin fout : nat) : Build Linear :=
  _ ← alloc "Linear";
  mret (mkLinear fin fout default_init default_init).

Definition ReLU (inplace : bool) : Build Layer :=
  _ ← alloc "ReLU"; mret (L_ReLU inplace).

Definition Identity : Build Layer :=
  _ ← alloc "Identity"; mret L_Identity.

End nn.

(** Defaults of the keyword arguments [bn_eps=1e-5], [bn_mmt=0.1]. *)
Definition default_bn_eps : Q := 1 # 100000.
Definition default_bn_mmt : Q := 1 # 10.

(** ** The tensor primitives, as an interface

    [training] is the [self.training] flag of the module that runs the
    primitive; [model.train()] and [model.eval()] set it on every
    sub-module alike, so one flag is passed down the forward pass. *)

Class BackboneOps (T : Type) : Type := {
  conv3d : Conv3d -> T -> result T;
  batch_norm3d : BatchNorm3d -> bool -> T -> result T;
  relu : T -> T;
  max_pool3d : triple -> triple -> triple -> T -> result T;
  avg_pool3d : triple -> triple -> T -> result T;
  adaptive_avg_pool3d : triple -> T -> result T;
  dropout : Q -> bool -> T -> T;
  add : T -> T -> result T
}.

Class HeadOps (T : Type) : Type := {
  permute : list nat -> T -> result T;
  linear : Linear -> T -> result T;
  softmax : nat -> T -> result T;
  mean : list nat -> T -> result T;
  flatten : nat -> T -> result T
}.

Definition Layer_forward {T : Type} `{BackboneOps T} (l : Layer) (training : bool)
    (x : T) : result T :=
  match l with
  | L_BatchNorm3d bn => batch_norm3d bn training x
  | L_ReLU _ => Ok (relu x)
  | L_Identity => Ok x
  end.

(** ** Strategy classes
    [skip_transformation] and [residual_transformation] are class objects
    of this file, passed as constructors. *)

Inductive skip_class : Type :=
| PostactivatedShortcutTransformation_cls
| PreactivatedShortcutTransformation_cls.

Inductive residual_class : Type :=
| PostactivatedBottleneckTransformation_cls
| PreactivatedBottleneckTransformation_cls.

#[global] Instance residual_class_eq_dec : EqDecision residual_class.
Proof. solve_decision. Defined.

(** The Python values that reach [isinstance(_, C)] for a residual class
    [C]: a class object, or an object constructed from a class. *)
Inductive pyobj : Type :=
| class_object (c : residual_class)
| instance_of (c : residual_class).

(** [isinstance(o, C)] asks whether [type(o)] is [C] or a subclass of it.
    The type of a class object is the metaclass [type], which is neither;
    the two residual classes are unrelated subclasses of [nn.Module]. *)
Definition isinstance (o : pyobj) (c : residual_class) : bool :=
  match o with
  | instance_of c' => bool_decide (c' = c)
  | class_object _ => false
  end.

Definition set_bn_final_transform_op (b : BatchNorm3d) (v : bool) : BatchNorm3d :=
  mkBatchNorm3d (num_features b) (eps b) (momentum b) (affine b)
    (bn_weight b) (bn_bias b) v.

Definition set_conv_final_transform_op (c : Conv3d) (v : bool) : Conv3d :=
  mkConv3d (in_channels c) (out_channels c) (kernel_size c) (conv_stride c)
    (conv_padding c) (groups c) (conv_weight c) (conv_bias c) v.

(** What [_init_parameter] does to each kind of layer it meets while it
    walks [self.modules()]; every class below says how the walk passes
    through its sub-modules ([visit]). *)
Record visitor : Type := mkVisitor {
  on_conv : Conv3d -> Conv3d;
  on_bn : BatchNorm3d -> BatchNorm3d;
  on_linear : Linear -> Linear
}.

Definition Layer_visit (v : visitor) (l : Layer) : Layer :=
  match l with
  | L_BatchNorm3d bn => L_BatchNorm3d (on_bn v bn)
  | L_ReLU i => L_ReLU i
  | L_Identity => L_Identity
  end.

Module PostactivatedBottleneckTransformation.

Record t : Type := mk {
  branch2a : Conv3d;
  branch2a_bn : BatchNorm3d;
  branch2a_relu : Layer;
  branch2b : Conv3d;
  branch2b_bn : BatchNorm3d;
  branch2b_relu : Layer;
  branch2c : Conv3d;
  branch2c_bn : BatchNorm3d
}.

Definition init (dim_in dim_out temporal_stride spatial_stride num_groups
    dim_inner temporal_kernel_size : nat)
    (temporal_conv_1x1 spatial_stride_1x1 inplace_relu : bool)
    (bn_eps bn_mmt : Q) : Build t :=
  _ ← alloc "PostactivatedBottleneckTransformation";
  let temporal_kernel_size_1x1 := if temporal_conv_1x1 then temporal_kernel_size else 1 in
  let temporal_kernel_size_3x3 := if temporal_conv_1x1 then 1 else temporal_kernel_size in
  (* MSRA -> stride=2 is on 1x1; TH/C2 -> stride=2 is on 3x3. *)
  let str1x1 := if spatial_stride_1x1 then spatial_stride else 1 in
  let str3x3 := if spatial_stride_1x1 then 1 else spatial_stride in
  (* Tx1x1 conv, BN, ReLU. *)
  a ← nn.Conv3d dim_in dim_inner (temporal_kernel_size_1x1, 1, 1)
        (1, str1x1, str1x1) (temporal_kernel_size_1x1 / 2, 0, 0) 1 false;
  a_bn ← nn.BatchNorm3d dim_inner bn_eps bn_mmt;
  a_relu ← nn.ReLU inplace_relu;
  (* Tx3x3 group conv, BN, ReLU. *)
  b ← nn.Conv3d dim_inner dim_inner (temporal_kernel_size_3x3, 3, 3)
        (temporal_stride, str3x3, str3x3) (temporal_kernel_size_3x3 / 2, 1, 1)
        num_groups false;
  b_bn ← nn.BatchNorm3d dim_inner bn_eps bn_mmt;
  b_relu ← nn.ReLU inplace_relu;
  (* 1x1x1 conv, BN. *)
  c ← nn.Conv3d dim_inner dim_out (1, 1, 1) (1, 1, 1) (0, 0, 0) 1 false;
  c_bn ← nn.BatchNorm3d dim_out bn_eps bn_mmt;
  mret (mk a a_bn a_relu b b_bn b_relu c (set_bn_final_transform_op c_bn true)).

Definition forward {T : Type} `{BackboneOps T} (self : t) (training : bool)
    (x : T) : result T :=
  (* Branch2a. *)
  x ← conv3d (branch2a self) x;
  x ← batch_norm3d (branch2a_bn self) training x;
  x ← Layer_forward (branch2a_relu self) training x;
  (* Branch2b. *)
  x ← conv3d (branch2b self) x;
  x ← batch_norm3d (branch2b_bn self) training x;
  x ← Layer_forward (branch2b_relu self) training x;
  (* Branch2c *)
  x ← conv3d (branch2c self) x;
  x ← batch_norm3d (branch2c_bn self) training x;
  mret x.

Definition visit (v : visitor) (self : t) : t :=
  mk (on_conv v (branch2a self)) (on_bn v (branch2a_bn self))
     (Layer_visit v (branch2a_relu self))
     (on_conv v (branch2b self)) (on_bn v (branch2b_bn self))
     (Layer_visit v (branch2b_relu self))
     (on_conv v (branch2c self)) (on_bn v (branch2c_bn self)).

End PostactivatedBottleneckTransformation.

Module PreactivatedBottleneckTransformation.

Record t : Type := mk {
  disable_pre_activation : bool;
  branch2a_bn : Layer;
  branch2a_relu : Layer;
  branch2a : Conv3d;
  branch2b_bn : BatchNorm3d;
  branch2b_relu : Layer;
  branch2b : Conv3d;
  branch2c_bn : BatchNorm3d;
  branch2c_relu : Layer;
  branch2c : Conv3d
}.

Definition init (dim_in dim_out temporal_stride spatial_stride num_groups
    dim_inner temporal_kernel_size : nat)
    (temporal_conv_1x1 spatial_stride_1x1 inplace_relu : bool)
    (bn_eps bn_mmt : Q) (disable : bool) : Build t :=
  _ ← alloc "PreactivatedBottleneckTransformation";
  let temporal_kernel_size_1x1 := if temporal_conv_1x1 then temporal_kernel_size else 1 in
  let temporal_kernel_size_3x3 := if temporal_conv_1x1 then 1 else temporal_kernel_size in
  let str1x1 := if spatial_stride_1x1 then spatial_stride else 1 in
  let str3x3 := if spatial_stride_1x1 then 1 else spatial_stride in
  a_bn ← (if negb disable
          then L_BatchNorm3d <$> nn.BatchNorm3d dim_in bn_eps bn_mmt
          else nn.Identity);
  a_relu ← (if negb disable then nn.ReLU inplace_relu else nn.Identity);
  a ← nn.Conv3d dim_in dim_inner (temporal_kernel_size_1x1, 1, 1)
        (1, str1x1, str1x1) (temporal_kernel_size_1x1 / 2, 0, 0) 1 false;
  (* Tx3x3 group conv, BN, ReLU. *)
  b_bn ← nn.BatchNorm3d dim_inner bn_eps bn_mmt;
  b_relu ← nn.ReLU inplace_relu;
  b ← nn.Conv3d dim_inner dim_inner (temporal_kernel_size_3x3, 3, 3)
        (temporal_stride, str3x3, str3x3) (temporal_kernel_size_3x3 / 2, 1, 1)
        num_groups false;
  (* 1x1x1 conv, BN. *)
  c_bn ← nn.BatchNorm3d dim_inner bn_eps bn_mmt;
  c_relu ← nn.ReLU inplace_relu;
  c ← nn.Conv3d dim_inner dim_out (1, 1, 1) (1, 1, 1) (0, 0, 0) 1 false;
  mret (mk disable a_bn a_relu a b_bn b_relu b c_bn c_relu
          (set_conv_final_transform_op c true)).

Definition forward {T : Type} `{BackboneOps T} (self : t) (training : bool)
    (x : T) : result T :=
  (* Branch2a *)
  x ← Layer_forward (branch2a_bn self) training x;
  x ← Layer_forward (branch2a_relu self) training x;
  x ← conv3d (branch2a self) x;
  (* Branch2b *)
  x ← batch_norm3d (branch2b_bn self) training x;
  x ← Layer_forward (branch2b_relu self) training x;
  x ← conv3d (branch2b self) x;
  (* Branch2c *)
  x ← batch_norm3d (branch2c_bn self) training x;
  x ← Layer_forward (branch2c_relu self) training x;
  x ← conv3d (branch2c self) x;
  mret x.

Definition visit (v : visitor) (self : t) : t :=
  mk (disable_pre_activation self)
     (Layer_visit v (branch2a_bn self)) (Layer_visit v (branch2a_relu self))
     (on_conv v (branch2a self))
     (on_bn v (branch2b_bn self)) (Layer_visit v (branch2b_relu self))
     (on_conv v (branch2b self))
     (on_bn v (branch2c_bn self)) (Layer_visit v (branch2c_relu self))
     (on_conv v (branch2c self)).

End PreactivatedBottleneckTransformation.

Module PostactivatedShortcutTransformation.

(** No [stride] attribute is set on this class. *)
Record t : Type := mk {
  branch1 : Conv3d;
  branch1_bn : BatchNorm3d
}.

Definition init (dim_in dim_out temporal_stride spatial_stride : nat)
    (bn_eps bn_mmt : Q) : Build t :=
  _ ← alloc "PostactivatedShortcutTransformation";
  (* Use skip connection with projection if dim or spatial/temporal res change. *)
  _ ← assert (negb (dim_in =? dim_out) || negb (spatial_stride =? 1)
              || negb (temporal_stride =? 1));
  b1 ← nn.Conv3d dim_in dim_out (_triple 1)
         (temporal_stride, spatial_stride, spatial_stride) (_triple 0) 1 false;
  b1_bn ← nn.BatchNorm3d dim_out bn_eps bn_mmt;
  mret (mk b1 b1_bn).

Definition forward {T : Type} `{BackboneOps T} (self : t) (training : bool)
    (x : T) : result T :=
  x ← conv3d (branch1 self) x;
  batch_norm3d (branch1_bn self) training x.

Definition visit (v : visitor) (self : t) : t :=
  mk (on_conv v (branch1 self)) (on_bn v (branch1_bn self)).

End PostactivatedShortcutTransformation.

Module PreactivatedShortcutTransformation.

(** [branch1_bn] and [branch1_relu] are attributes only when
    pre-activation is enabled ([hasattr]). *)
Record t : Type := mk {
  branch1_bn : option BatchNorm3d;
  branch1_relu : option Layer;
  branch1 : Conv3d;
  stride : triple
}.

Definition init (dim_in dim_out temporal_stride spatial_stride : nat)
    (inplace_relu : bool) (bn_eps bn_mmt : Q) (disable_pre_activation : bool)
    : Build t :=
  _ ← alloc "PreactivatedShortcutTransformation";
  (* Use skip connection with projection if dim or spatial/temporal res change. *)
  _ ← assert (negb (dim_in =? dim_out) || negb (spatial_stride =? 1)
              || negb (temporal_stride =? 1));
  b1_bn ← (if negb disable_pre_activation
           then Some <$> nn.BatchNorm3d dim_in bn_eps bn_mmt else mret None);
  b1_relu ← (if negb disable_pre_activation
             then Some <$> nn.ReLU inplace_relu else mret None);
  b1 ← nn.Conv3d dim_in dim_out (_triple 1)
         (temporal_stride, spatial_stride, spatial_stride) (_triple 0) 1 false;
  mret (mk b1_bn b1_relu b1 (temporal_stride, spatial_stride, spatial_stride)).

Definition forward {T : Type} `{BackboneOps T} (self : t) (training : bool)
    (x : T) : result T :=
  x ← match branch1_bn self, branch1_relu self with
      | Some bn, Some act =>
          x ← batch_norm3d bn training x; Layer_forward act training x
      | _, _ => Ok x
      end;
  conv3d (branch1 self) x.

Definition visit (v : visitor) (self : t) : t :=
  mk (on_bn v <$> branch1_bn self) (Layer_visit v <$> branch1_relu self)
     (on_conv v (branch1 self)) (stride self).

End PreactivatedShortcutTransformation.

Module ResBlock.

(** [self.skip] is an [nn.Identity] or an instance of the skip strategy. *)
Inductive skip_module : Type :=
| Skip_Identity
| Skip_Postactivated (m : PostactivatedShortcutTransformation.t)
| Skip_Preactivated (m : PreactivatedShortcutTransformation.t).

Inductive residual_module : Type :=
| Residual_Postactivated (m : PostactivatedBottleneckTransformation.t)
| Residual_Preactivated (m : PreactivatedBottleneckTransformation.t).

Record t : Type := mk {
  skip : skip_module;
  residual : residual_module;
  relu_layer : Layer                  (* the attribute [relu] *)
}.

(** [skip_transformation(dim_in, dim_out, temporal_stride, spatial_stride,
    bn_eps=..., bn_mmt=..., disable_pre_activation=...)]; the post-activated
    class swallows [disable_pre_activation] in its [**kwargs]. *)
Definition call_skip (skip_transformation : skip_class)
    (dim_in dim_out temporal_stride spatial_stride : nat) (bn_eps bn_mmt : Q)
    (disable_pre_activation : bool) : Build skip_module :=
  match skip_transformation with
  | PostactivatedShortcutTransformation_cls =>
      Skip_Postactivated <$>
        PostactivatedShortcutTransformation.init dim_in dim_out temporal_stride
          spatial_stride bn_eps bn_mmt
  | PreactivatedShortcutTransformation_cls =>
      Skip_Preactivated <$>
        PreactivatedShortcutTransformation.init dim_in dim_out temporal_stride
          spatial_stride true bn_eps bn_mmt disable_pre_activation
  end.

(** [residual_transformation(dim_in, dim_out, temporal_stride,
    spatial_stride, num_groups, dim_inner, temporal_kernel_size=...,
    temporal_conv_1x1=..., disable_pre_activation=...)]: the remaining
    keyword arguments keep their defaults. *)
Definition call_residual (residual_transformation : residual_class)
    (dim_in dim_out temporal_stride spatial_stride num_groups dim_inner
     temporal_kernel_size : nat) (temporal_conv_1x1 disable_pre_activation : bool)
    : Build residual_module :=
  match residual_transformation with
  | PostactivatedBottleneckTransformation_cls =>
      Residual_Postactivated <$>
        PostactivatedBottleneckTransformation.init dim_in dim_out temporal_stride
          spatial_stride num_groups dim_inner temporal_kernel_size
          temporal_conv_1x1 false true default_bn_eps default_bn_mmt
  | PreactivatedBottleneckTransformation_cls =>
      Residual_Preactivated <$>
        PreactivatedBottleneckTransformation.init dim_in dim_out temporal_stride
          spatial_stride num_groups dim_inner temporal_kernel_size
          temporal_conv_1x1 false true default_bn_eps default_bn_mmt
          disable_pre_activation
  end.

Definition init (dim_in dim_out dim_inner temporal_kernel_size : nat)
    (temporal_conv_1x1 : bool) (temporal_stride spatial_stride : nat)
    (skip_transformation : skip_class) (residual_transformation : residual_class)
    (num_groups : nat) (inplace_relu : bool) (bn_eps bn_mmt : Q)
    (disable_pre_activation : bool) : Build t :=
  _ ← alloc "ResBlock";
  sk ← (if negb (dim_in =? dim_out) || negb (spatial_stride =? 1)
           || negb (temporal_stride =? 1)
        then call_skip skip_transformation dim_in dim_out temporal_stride
               spatial_stride bn_eps bn_mmt disable_pre_activation
        else (_ ← nn.Identity; mret Skip_Identity));
  res ← call_residual residual_transformation dim_in dim_out temporal_stride
          spatial_stride num_groups dim_inner temporal_kernel_size
          temporal_conv_1x1 disable_pre_activation;
  act ← nn.ReLU inplace_relu;
  mret (mk sk res act).

Definition skip_forward {T : Type} `{BackboneOps T} (s : skip_module)
    (training : bool) (x : T) : result T :=
  match s with
  | Skip_Identity => Ok x
  | Skip_Postactivated m => PostactivatedShortcutTransformation.forward m training x
  | Skip_Preactivated m => PreactivatedShortcutTransformation.forward m training x
  end.

Definition residual_forward {T : Type} `{BackboneOps T} (r : residual_module)
    (training : bool) (x : T) : result T :=
  match r with
  | Residual_Postactivated m => PostactivatedBottleneckTransformation.forward m training x
  | Residual_Preactivated m => PreactivatedBottleneckTransformation.forward m training x
  end.

(** The attribute lookup [self.skip.stride] of the diagnostic
    [if not isinstance(self.skip, nn.Identity): print(self.skip.stride)]. *)
Definition skip_stride (s : skip_module) : result (option triple) :=
  match s with
  | Skip_Identity => Ok None
  | Skip_Postactivated _ =>
      Raise (AttributeError "PostactivatedShortcutTransformation" "stride")
  | Skip_Preactivated m => Ok (Some (PreactivatedShortcutTransformation.stride m))
  end.

(** The text written by the four [print] calls is not modelled, only the
    evaluation of their arguments. *)
Definition forward {T : Type} `{BackboneOps T} (self : t) (training : bool)
    (x : T) : result T :=
  skip_out ← skip_forward (skip self) training x;
  residual_out ← residual_forward (residual self) training x;
  _ ← skip_stride (skip self);
  x ← add skip_out residual_out;
  Layer_forward (relu_layer self) training x.

Definition visit (v : visitor) (self : t) : t :=
  mk (match skip self with
      | Skip_Identity => Skip_Identity
      | Skip_Postactivated m =>
          Skip_Postactivated (PostactivatedShortcutTransformation.visit v m)
      | Skip_Preactivated m =>
          Skip_Preactivated (PreactivatedShortcutTransformation.visit v m)
      end)
     (match residual self with
      | Residual_Postactivated m =>
          Residual_Postactivated (PostactivatedBottleneckTransformation.visit v m)
      | Residual_Preactivated m =>
          Residual_Preactivated (PreactivatedBottleneckTransformation.visit v m)
      end)
     (Layer_visit v (relu_layer self)).

End ResBlock.

Module ResStage.

(** An element of a pathway's [nn.Sequential]. *)
Inductive seq_item : Type :=
| Seq_ResBlock (b : ResBlock.t)
| Seq_Layer (l : Layer).

Record t : Type := mk {
  stage_idx : nat;
  num_blocks : list nat;
  num_pathways : nat;
  temporal_kernel_sizes : list (list nat);
  pathways : gmap string (list seq_item)
}.

Definition _pathway_name (pathway_idx : nat) : string :=
  "pathway" +:+ pretty pathway_idx.

Definition unequal_length_message : string :=
  "The following arguments should have equal legth: dim_in, dim_out, temporal_kernel_basis, temporal_conv_1x1, temporal_stride, spatial_stride, num_blocks, dim_inner, num_groups".

(** [[(temporal_kernel_basis[i] * num_blocks[i])[: num_blocks[i]]
     for i in range(len(temporal_kernel_basis))]] *)
Definition make_temporal_kernel_sizes (temporal_kernel_basis : list (list nat))
    (num_blocks : list nat) : Build (list (list nat)) :=
  for_loop (fun i acc =>
      basis ← index temporal_kernel_basis i;
      n ← index num_blocks i;
      mret (acc ++ [take n (list_mul basis n)]))
    0 (length temporal_kernel_basis) [].

Section Init.

Context (stage_idx : nat) (dim_in dim_out dim_inner : list nat)
  (temporal_kernel_basis : list (list nat)) (temporal_conv_1x1 : list bool)
  (temporal_stride spatial_stride num_blocks num_groups : list nat)
  (skip_transformation : skip_class) (residual_transformation : residual_class)
  (inplace_relu : bool) (bn_eps bn_mmt : Q)
  (disable_pre_activation final_stage : bool).

(** [len({len(dim_in), ..., len(num_groups)}) != 1] *)
Definition lengths : list nat :=
  [ length dim_in; length dim_out; length temporal_kernel_basis;
    length temporal_conv_1x1; length temporal_stride; length spatial_stride;
    length num_blocks; length dim_inner; length num_groups ].

Definition unequal_lengths : bool :=
  bool_decide (size (list_to_set lengths : gset nat) ≠ 1).

(** Body of [for i in range(self.num_blocks[p])]. *)
Definition block_body (temporal_kernel_sizes : list (list nat)) (p i : nat)
    (blocks : list seq_item) : Build (list seq_item) :=
  (* Construct the block. *)
  let block_disable_pre_activation := disable_pre_activation && (i =? 0) in
  b_dim_in ← index (if i =? 0 then dim_in else dim_out) p;
  b_dim_out ← index dim_out p;
  b_dim_inner ← index dim_inner p;
  sizes ← index temporal_kernel_sizes p;
  b_kernel ← index sizes i;
  b_conv_1x1 ← index temporal_conv_1x1 p;
  b_temporal_stride ← (if i =? 0 then index temporal_stride p else mret 1);
  b_spatial_stride ← (if i =? 0 then index spatial_stride p else mret 1);
  b_groups ← index num_groups p;
  res_block ← ResBlock.init b_dim_in b_dim_out b_dim_inner b_kernel
                b_conv_1x1 b_temporal_stride b_spatial_stride
                skip_transformation residual_transformation
                b_groups inplace_relu bn_eps bn_mmt
                block_disable_pre_activation;
  mret (blocks ++ [Seq_ResBlock res_block]).

(** The trailing normalisation and activation of the final stage. *)
Definition final_activation (p : nat) (blocks : list seq_item)
    : Build (list seq_item) :=
  if final_stage
     && isinstance (class_object residual_transformation)
          PreactivatedBottleneckTransformation_cls
  then
    (* For pre-activation residual transformation, we conduct
       activation in the final stage before continuing forward pass
       through the head *)
    d ← index dim_out p;
    activate_bn ← nn.BatchNorm3d d default_bn_eps default_bn_mmt;
    activate_relu ← nn.ReLU true;
    mret (blocks ++ [Seq_Layer (L_BatchNorm3d activate_bn)]
                 ++ [Seq_Layer activate_relu])
  else mret blocks.

(** Body of [for p in range(self.num_pathways)]. *)
Definition pathway_body (temporal_kernel_sizes : list (list nat)) (p : nat)
    (pathways : gmap string (list seq_item))
    : Build (gmap string (list seq_item)) :=
  nb ← index num_blocks p;
  blocks ← for_loop (block_body temporal_kernel_sizes p) 0 nb [];
  blocks ← final_activation p blocks;
  _ ← alloc "Sequential";
  mret (<[_pathway_name p := blocks]> pathways).

Definition init : Build t :=
  _ ← alloc "ResStage";
  if unequal_lengths
  then raise (ValueError unequal_length_message)
  else
    let num_pathways := length num_blocks in
    temporal_kernel_sizes ←
      make_temporal_kernel_sizes temporal_kernel_basis num_blocks;
    pathways ← for_loop (pathway_body temporal_kernel_sizes) 0 num_pathways ∅;
    mret (mk stage_idx num_blocks num_pathways temporal_kernel_sizes pathways).

End Init.

Definition seq_item_forward {T : Type} `{BackboneOps T} (m : seq_item)
    (training : bool) (x : T) : result T :=
  match m with
  | Seq_ResBlock b => ResBlock.forward b training x
  | Seq_Layer l => Layer_forward l training x
  end.

(** [nn.Sequential.forward]: the modules in order. *)
Fixpoint Sequential_forward {T : Type} `{BackboneOps T} (ms : list seq_item)
    (training : bool) (x : T) : result T :=
  match ms with
  | [] => Ok x
  | m :: ms' => y ← seq_item_forward m training x; Sequential_forward ms' training y
  end.

Definition forward {T : Type} `{BackboneOps T} (self : t) (training : bool)
    (inputs : list T) : result (list T) :=
  for_loop (fun p (output : list T) =>
      x ← getitem inputs p;
      pathway_module ← dict_getitem (pathways self) (_pathway_name p);
      y ← Sequential_forward pathway_module training x;
      mret (output ++ [y]))
    0 (num_pathways self) [].

Definition seq_item_visit (v : visitor) (m : seq_item) : seq_item :=
  match m with
  | Seq_ResBlock b => Seq_ResBlock (ResBlock.visit v b)
  | Seq_Layer l => Seq_Layer (Layer_visit v l)
  end.

Definition visit (v : visitor) (self : t) : t :=
  mk (stage_idx self) (num_blocks self) (num_pathways self)
     (temporal_kernel_sizes self) (map (seq_item_visit v) <$> pathways self).

End ResStage.

(** ** Python lists as heap objects
    The stem receives a list and assigns to its elements, so the list is
    an object in a store, named by a reference. *)

Definition ref : Type := nat.

Definition Mut (T A : Type) : Type :=
  gmap ref (list T) -> result A * gmap ref (list T).

#[global] Instance Mut_ret {T : Type} : MRet (Mut T) := fun _ a h => (Ok a, h).
#[global] Instance Mut_bind {T : Type} : MBind (Mut T) := fun _ _ f m h =>
  match m h with
  | (Ok a, h') => f a h'
  | (Raise e, h') => (Raise e, h')
  end.

(** A computation that leaves the store alone. *)
Definition pure_ {T A : Type} (r : result A) : Mut T A := fun h => (r, h).

Definition dangling : exn := RuntimeError "reference to no list".

(** [len(x)] *)
Definition list_len {T : Type} (x : ref) : Mut T nat := fun h =>
  match h !! x with
  | Some xs => (Ok (length xs), h)
  | None => (Raise dangling, h)
  end.

(** [x[p]] *)
Definition list_load {T : Type} (x : ref) (p : nat) : Mut T T := fun h =>
  match h !! x with
  | Some xs => (getitem xs p, h)
  | None => (Raise dangling, h)
  end.

(** [x[p] = v] *)
Definition list_store {T : Type} (x : ref) (p : nat) (v : T) : Mut T unit := fun h =>
  match h !! x with
  | Some xs =>
      if p <? length xs then (Ok tt, <[x := <[p := v]> xs]> h)
      else (Raise IndexError, h)
  | None => (Raise dangling, h)
  end.

Record MaxPool3d : Type := mkMaxPool3d {
  pool_kernel_size : triple;
  pool_stride : triple;
  pool_padding : triple
}.

Module ResNeXt3DStemSinglePathway.

Record t : Type := mk {
  kernel : triple;
  stride : triple;
  padding : triple;
  inplace_relu : bool;
  bn_eps : Q;
  bn_mmt : Q;
  maxpool : bool;
  conv : Conv3d;
  bn : BatchNorm3d;
  relu_layer : Layer;               (* the attribute [relu] *)
  pool_layer : option MaxPool3d     (* set only when [maxpool] *)
}.

Definition init (dim_in dim_out : nat) (kernel stride padding : triple)
    (maxpool inplace_relu : bool) (bn_eps bn_mmt : Q) : Build t :=
  _ ← alloc "ResNeXt3DStemSinglePathway";
  (* Construct the stem layer. *)
  cv ← nn.Conv3d dim_in dim_out kernel stride padding 1 false;
  b ← nn.BatchNorm3d dim_out bn_eps bn_mmt;
  act ← nn.ReLU inplace_relu;
  pool ← (if maxpool
          then (_ ← alloc "MaxPool3d";
                mret (Some (mkMaxPool3d (1, 3, 3) (1, 2, 2) (0, 1, 1))))
          else mret None);
  mret (mk kernel stride padding inplace_relu bn_eps bn_mmt maxpool cv b act pool).

Definition forward {T : Type} `{BackboneOps T} (self : t) (training : bool)
    (x : T) : result T :=
  x ← conv3d (conv self) x;
  x ← batch_norm3d (bn self) training x;
  x ← Layer_forward (relu_layer self) training x;
  if maxpool self then
    match pool_layer self with
    | Some pl => max_pool3d (pool_kernel_size pl) (pool_stride pl) (pool_padding pl) x
    | None => Raise (AttributeError "ResNeXt3DStemSinglePathway" "pool_layer")
    end
  else Ok x.

Definition visit (v : visitor) (self : t) : t :=
  mk (kernel self) (stride self) (padding self) (inplace_relu self) (bn_eps self)
     (bn_mmt self) (maxpool self) (on_conv v (conv self)) (on_bn v (bn self))
     (Layer_visit v (relu_layer self)) (pool_layer self).

End ResNeXt3DStemSinglePathway.

Module ResNeXt3DStemMultiPathway.

Record t : Type := mk {
  num_pathways : nat;
  kernel : list triple;
  stride : list triple;
  padding : list triple;
  inplace_relu : bool;
  bn_eps : Q;
  bn_mmt : Q;
  blocks : gmap string ResNeXt3DStemSinglePathway.t
}.

Definition _stem_name (path_idx : nat) : string := "stem-path" +:+ pretty path_idx.

Definition unequal_length_message : string :=
  "The following arguments should have equal legth: dim_in, dim_out, kernel, stride".

(** Body of [for p in range(len(dim_in))]. *)
Definition stem_body (dim_in dim_out : list nat) (kernel stride padding : list triple)
    (inplace_relu : bool) (bn_eps bn_mmt : Q) (p : nat)
    (blocks : gmap string ResNeXt3DStemSinglePathway.t)
    : Build (gmap string ResNeXt3DStemSinglePathway.t) :=
  d_in ← index dim_in p;
  d_out ← index dim_out p;
  k ← index kernel p;
  st ← index stride p;
  pad ← index padding p;
  stem ← ResNeXt3DStemSinglePathway.init d_in d_out k st pad true
           inplace_relu bn_eps bn_mmt;
  mret (<[_stem_name p := stem]> blocks).

Definition unequal_lengths (dim_in dim_out : list nat)
    (kernel stride padding : list triple) : bool :=
  negb (length dim_in =? length dim_out)
  || negb (length dim_in =? length kernel)
  || negb (length dim_in =? length stride)
  || negb (length dim_in =? length padding).

Definition init (dim_in dim_out : list nat) (kernel stride padding : list triple)
    (inplace_relu : bool) (bn_eps bn_mmt : Q) : Build t :=
  _ ← alloc "ResNeXt3DStemMultiPathway";
  if unequal_lengths dim_in dim_out kernel stride padding
  then raise (ValueError unequal_length_message)
  else
    (* Construct the stem layer. *)
    blocks ← for_loop (stem_body dim_in dim_out kernel stride padding
                         inplace_relu bn_eps bn_mmt) 0 (length dim_in) ∅;
    mret (mk (length dim_in) kernel stride padding inplace_relu bn_eps bn_mmt blocks).

(** Body of [for p in range(len(x))]. *)
Definition forward_body {T : Type} `{BackboneOps T} (self : t) (training : bool)
    (x : ref) (p : nat) (_ : unit) : Mut T unit :=
  stem_block ← pure_ (dict_getitem (blocks self) (_stem_name p));
  xp ← list_load x p;
  y ← pure_ (ResNeXt3DStemSinglePathway.forward stem_block training xp);
  list_store x p y.

(** [x] is the caller's list: its elements are assigned in place and the
    reference itself is returned. *)
Definition forward {T : Type} `{BackboneOps T} (self : t) (training : bool)
    (x : ref) : Mut T ref :=
  n ← list_len x;
  _ ← for_loop (forward_body self training x) 0 n tt;
  mret x.

Definition visit (v : visitor) (self : t) : t :=
  mk (num_pathways self) (kernel self) (stride self) (padding self)
     (inplace_relu self) (bn_eps self) (bn_mmt self)
     (ResNeXt3DStemSinglePathway.visit v <$> blocks self).

End ResNeXt3DStemMultiPathway.

Module ResNeXt3DStem.

Record t : Type := mk { stem : ResNeXt3DStemMultiPathway.t }.

(** [maxpool] is accepted and not used: the multi-pathway stem builds its
    single-pathway stems with their default [maxpool=True]. *)
Definition init (temporal_kernel spatial_kernel input_planes stem_planes : nat)
    (maxpool : bool) : Build t :=
  _ ← alloc "ResNeXt3DStem";
  st ← ResNeXt3DStemMultiPathway.init
         [input_planes]
         [stem_planes]
         [(temporal_kernel, spatial_kernel, spatial_kernel)]
         [(1, 2, 2)] (* stride *)
         [(temporal_kernel / 2, spatial_kernel / 2, spatial_kernel / 2)] (* padding *)
         true default_bn_eps default_bn_mmt;
  mret (mk st).

Definition forward {T : Type} `{BackboneOps T} (self : t) (training : bool)
    (x : ref) : Mut T ref :=
  ResNeXt3DStemMultiPathway.forward (stem self) training x.

Definition visit (v : visitor) (self : t) : t :=
  mk (ResNeXt3DStemMultiPathway.visit v (stem self)).

End ResNeXt3DStem.

Module FullyConvolutionalLinear.

Record t : Type := mk {
  projection : Linear;
  act : nat                 (* nn.Softmax(dim=act) *)
}.

Definition init (dim_in num_classes : nat) : Build t :=
  _ ← alloc "FullyConvolutionalLinear";
  (* Perform FC in a fully convolutional manner. The FC layer will be
     initialized with a different std comparing to convolutional layers. *)
  proj ← nn.Linear dim_in num_classes;
  (* Softmax for evaluation and testing. *)
  _ ← alloc "Softmax";
  mret (mk proj 4).

Definition forward {T : Type} `{HeadOps T} (self : t) (training : bool)
    (x : T) : result T :=
  (* (N, C, T, H, W) -> (N, T, H, W, C). *)
  x ← permute [0; 2; 3; 4; 1] x;
  x ← linear (projection self) x;
  (* Performs fully convlutional inference. *)
  x ← (if negb training
       then (x ← softmax (act self) x; mean [1; 2; 3] x)
       else Ok x);
  flatten 1 x.

Definition visit (v : visitor) (self : t) : t :=
  mk (on_linear v (projection self)) (act self).

End FullyConvolutionalLinear.

Module FullyConvolutionalLinearHead.

Inductive avgpool : Type :=
| AvgPool3d (kernel_size stride : triple)
| AdaptiveAvgPool3d (output_size : triple).

Record t : Type := mk {
  final_avgpool : avgpool;
  dropout_layer : option Q;        (* nn.Dropout(p), an attribute only if use_dropout *)
  head_fcl : FullyConvolutionalLinear.t
}.

Definition init (num_classes in_plane : nat) (pool_size : option triple)
    (use_dropout : option bool) (dropout_ratio : Q) : Build t :=
  _ ← alloc "FullyConvolutionalLinearHead";
  pool ← match pool_size with
         | Some ps => (_ ← alloc "AvgPool3d"; mret (AvgPool3d ps (_triple 1)))
         | None => (_ ← alloc "AdaptiveAvgPool3d"; mret (AdaptiveAvgPool3d (1, 1, 1)))
         end;
  drop ← match use_dropout with
         | Some true => (_ ← alloc "Dropout"; mret (Some dropout_ratio))
         | _ => mret None
         end;
  fcl ← FullyConvolutionalLinear.init in_plane num_classes;
  mret (mk pool drop fcl).

Definition forward {T : Type} `{BackboneOps T} `{HeadOps T} (self : t)
    (training : bool) (x : T) : result T :=
  out ← match final_avgpool self with
        | AvgPool3d k st => avg_pool3d k st x
        | AdaptiveAvgPool3d o => adaptive_avg_pool3d o x
        end;
  let out := match dropout_layer self with
             | Some p => dropout p training out
             | None => out
             end in
  FullyConvolutionalLinear.forward (head_fcl self) training out.

Definition visit (v : visitor) (self : t) : t :=
  mk (final_avgpool self) (dropout_layer self)
     (FullyConvolutionalLinear.visit v (head_fcl self)).

End FullyConvolutionalLinearHead.

Module ResNeXt3D.

(** The keyword arguments of the constructor.  [stem] is always the class
    [ResNeXt3DStem]; [temporal_conv_1x1], [stage_temporal_stride] and
    [stage_spatial_stride] are indexed per stage. *)
Record kwargs : Type := mkKwargs {
  input_planes : nat;
  clip_crop_size : nat;
  skip_transformation : skip_class;
  residual_transformation : residual_class;
  frames_per_clip : nat;
  num_blocks : list nat;
  stem_planes : nat;
  stem_temporal_kernel : nat;
  stem_spatial_kernel : nat;
  stem_maxpool : bool;
  stage_planes : nat;
  stage_temporal_kernel_basis : list (list nat);
  temporal_conv_1x1 : list bool;
  stage_temporal_stride : list nat;
  stage_spatial_stride : list nat;
  num_groups : nat;
  width_per_group : nat;
  zero_init_residual_transform : bool;
  head_pool_size : option triple;
  num_classes : nat
}.

(** The object; [head] is an attribute only once it has been assigned. *)
Record t : Type := mk {
  self_input_planes : nat;
  self_clip_crop_size : nat;
  self_frames_per_clip : nat;
  self_num_blocks : list nat;
  stem : ResNeXt3DStem.t;
  stages : list ResStage.t;
  head : option FullyConvolutionalLinearHead.t
}.

Definition set_head (self : t) (h : FullyConvolutionalLinearHead.t) : t :=
  mk (self_input_planes self) (self_clip_crop_size self) (self_frames_per_clip self)
     (self_num_blocks self) (stem self) (stages self) (Some h).

(** The body of the loop of [_init_parameter], per kind of layer. *)
Definition init_conv (zero_init_residual_transform : bool) (m : Conv3d) : Conv3d :=
  mkConv3d (in_channels m) (out_channels m) (kernel_size m) (conv_stride m)
    (conv_padding m) (groups m)
    (if conv_final_transform_op m && zero_init_residual_transform
     then constant_ (0 # 1)
     else kaiming_normal_ "fan_out" "relu")
    (match conv_bias m with
     | Some _ => Some (constant_ (0 # 1))
     | None => None
     end)
    (conv_final_transform_op m).

Definition init_bn (zero_init_residual_transform : bool) (m : BatchNorm3d)
    : BatchNorm3d :=
  if affine m then
    let batchnorm_weight : Q :=
      if bn_final_transform_op m && zero_init_residual_transform
      then 0 # 1 else 1 # 1 in
    mkBatchNorm3d (num_features m) (eps m) (momentum m) (affine m)
      (constant_ batchnorm_weight) (constant_ (0 # 1)) (bn_final_transform_op m)
  else m.

Definition init_linear (m : Linear) : Linear :=
  mkLinear (in_features m) (out_features m) (normal_ (0 # 1) (1 # 100))
    (constant_ (0 # 1)).

(** [for m in self.modules()]: the sub-modules registered on [self] at
    the time of the call. *)
Definition _init_parameter (self : t) (zero_init_residual_transform : bool) : t :=
  let v := mkVisitor (init_conv zero_init_residual_transform)
             (init_bn zero_init_residual_transform) init_linear in
  mk (self_input_planes self) (self_clip_crop_size self) (self_frames_per_clip self)
     (self_num_blocks self)
     (ResNeXt3DStem.visit v (stem self))
     (map (ResStage.visit v) (stages self))
     (FullyConvolutionalLinearHead.visit v <$> head self).

Definition out_planes (kw : kwargs) : list nat :=
  map (fun i => stage_planes kw * 2 ^ i) (seq 0 (length (num_blocks kw))).

Definition in_planes (kw : kwargs) : list nat :=
  [stem_planes kw] ++ removelast (out_planes kw).

Definition inner_planes (kw : kwargs) : list nat :=
  map (fun i => num_groups kw * width_per_group kw * 2 ^ i)
    (seq 0 (length (num_blocks kw))).

(** Body of [for s in range(num_stages)]. *)
Definition stage_body (kw : kwargs) (s : nat) (stages : list ResStage.t)
    : Build (list ResStage.t) :=
  let num_stages := length (num_blocks kw) in
  s_in ← index (in_planes kw) s;
  s_out ← index (out_planes kw) s;
  s_inner ← index (inner_planes kw) s;
  s_basis ← index (stage_temporal_kernel_basis kw) s;
  s_conv_1x1 ← index (temporal_conv_1x1 kw) s;
  s_temporal_stride ← index (stage_temporal_stride kw) s;
  s_spatial_stride ← index (stage_spatial_stride kw) s;
  s_blocks ← index (num_blocks kw) s;
  stage ← ResStage.init
            (s + 1) (* stem is viewed as stage 0, and following stages start from 1 *)
            [s_in] [s_out] [s_inner] [s_basis] [s_conv_1x1]
            [s_temporal_stride] [s_spatial_stride] [s_blocks]
            [num_groups kw]
            (skip_transformation kw) (residual_transformation kw)
            true default_bn_eps default_bn_mmt
            (s =? 0) (s =? num_stages - 1);
  mret (stages ++ [stage]).

Definition init (kw : kwargs) : Build t :=
  _ ← alloc "ResNeXt3D";
  stem ← ResNeXt3DStem.init (stem_temporal_kernel kw) (stem_spatial_kernel kw)
           (input_planes kw) (stem_planes kw) (stem_maxpool kw);
  let num_stages := length (num_blocks kw) in
  stages ← for_loop (stage_body kw) 0 num_stages [];
  _ ← alloc "ModuleList";
  let self := mk (input_planes kw) (clip_crop_size kw) (frames_per_clip kw)
                (num_blocks kw) stem stages None in
  let self := _init_parameter self (zero_init_residual_transform kw) in
  h ← FullyConvolutionalLinearHead.init (num_classes kw) 2048 (head_pool_size kw)
        (Some true) (1 # 2);
  mret (set_head self h).

(** [for stage in self.stages: out = stage(out)] *)
Fixpoint stages_forward {T : Type} `{BackboneOps T} (stages : list ResStage.t)
    (training : bool) (out : list T) : result (list T) :=
  match stages with
  | [] => Ok out
  | stage :: rest =>
      out ← ResStage.forward stage training out;
      stages_forward rest training out
  end.

(** [x] : video input with shape N x C x T x H x W.  The list [[x]] made
    for the stem is a fresh object: it lives in a store of its own. *)
Definition forward {T : Type} `{BackboneOps T} `{HeadOps T} (self : t)
    (training : bool) (x : T) : result T :=
  (* single pathway input (make list out of tensor input) *)
  let fresh : ref := 0 in
  let '(r, h) := ResNeXt3DStem.forward (stem self) training fresh {[fresh := [x]]} in
  out_ref ← r;
  out ← match h !! out_ref with
        | Some l => Ok l
        | None => Raise dangling
        end;
  out ← stages_forward (stages self) training out;
  (* single pathway output get first element from the list before head *)
  hd ← match head self with
       | Some hd => Ok hd
       | None => Raise (AttributeError "ResNeXt3D" "head")
       end;
  out0 ← getitem out 0;
  FullyConvolutionalLinearHead.forward hd training out0.

End ResNeXt3D.

(** [**kwargs] of the two factories can only add [num_classes]: every other
    parameter of the constructor is given explicitly. *)
Definition resnext3d_preact_i3d50 (num_classes : option nat) : Build ResNeXt3D.t :=
  ResNeXt3D.init (ResNeXt3D.mkKwargs
    3 (* input_planes *)
    224 (* clip_crop_size *)
    PreactivatedShortcutTransformation_cls
    PreactivatedBottleneckTransformation_cls
    8 (* frames_per_clip *)
    [3; 4; 6; 3] (* num_blocks *)
    32 (* stem_planes *)
    3 (* stem_temporal_kernel *)
    5 (* stem_spatial_kernel *)
    true (* stem_maxpool *)
    256 (* stage_planes *)
    [[3]; [3; 1]; [3; 1]; [1; 3]] (* stage_temporal_kernel_basis *)
    [true; true; true; true] (* temporal_conv_1x1 *)
    [1; 2; 1; 1] (* stage_temporal_stride *)
    [1; 2; 2; 2] (* stage_spatial_stride *)
    1 (* num_groups *)
    64 (* width_per_group *)
    true (* zero_init_residual_transform *)
    (Some (4, 7, 7)) (* head_pool_size *)
    (default 400 num_classes)).

Definition resnext3d_postact_i3d50 (num_classes : option nat) : Build ResNeXt3D.t :=
  ResNeXt3D.init (ResNeXt3D.mkKwargs
    3 (* input_planes *)
    224 (* clip_crop_size *)
    PostactivatedShortcutTransformation_cls
    PostactivatedBottleneckTransformation_cls
    8 (* frames_per_clip *)
    [3; 4; 6; 3] (* num_blocks *)
    64 (* stem_planes *)
    5 (* stem_temporal_kernel *)
    7 (* stem_spatial_kernel *)
    true (* stem_maxpool *)
    256 (* stage_planes *)
    [[3]; [3; 1]; [3; 1]; [1; 3]] (* stage_temporal_kernel_basis *)
    [true; true; true; true] (* temporal_conv_1x1 *)
    [1; 1; 1; 1] (* stage_temporal_stride *)
    [1; 2; 2; 2] (* stage_spatial_stride *)
    1 (* num_groups *)
    64 (* width_per_group *)
    true (* zero_init_residual_transform *)
    (Some (8, 7, 7)) (* head_pool_size *)
    (default 400 num_classes)).

(** ** The primitives on shapes
    A tensor is abstracted to its shape.  Each primitive follows the shape
    rule and the input checks of the PyTorch operator.  Convolution and
    pooling take a batched (N, C, D, H, W) or an unbatched (C, D, H, W)
    input and raise [RuntimeError] on every failed check; batch
    normalisation takes batched input only.  The string of an exception
    names the check that failed; the operator's own message also spells
    out the sizes it met. *)

Module Shape.

Abbreviation shape := (list nat).

(** One extent through a convolution or pooling window that fits:
    floor((d + 2p - k) / s) + 1, dilation 1, no ceil mode. *)
Definition window_out (d k s p : nat) : nat := (d + 2 * p - k) / s + 1.

(** The checks of a convolution: the strides, the weight (its first
    dimension, [out_channels], is at least [groups], so a layer without
    output channels is built but cannot run), the channels of the input,
    the padded input against the kernel, and the kernel itself. *)
Definition conv3d_extents (c : Conv3d) (ch d h w : nat) : result (nat * nat * nat) :=
  let '(kd, kh, kw) := kernel_size c in
  let '(sd, sh, sw) := conv_stride c in
  let '(pd, ph, pw) := conv_padding c in
  if (sd =? 0) || (sh =? 0) || (sw =? 0)
  then Raise (RuntimeError "non-positive stride is not supported")
  else if out_channels c <? groups c
  then Raise (RuntimeError "expected weight to be at least groups at dimension 0")
  else if negb (ch =? in_channels c)
  then Raise (RuntimeError "input channels do not match the weight")
  else if (d + 2 * pd <? kd) || (h + 2 * ph <? kh) || (w + 2 * pw <? kw)
  then Raise (RuntimeError "Kernel size can't be greater than actual input size")
  else if (kd =? 0) || (kh =? 0) || (kw =? 0)
  then Raise (RuntimeError "kernel size should be greater than zero")
  else Ok (window_out d kd sd pd, window_out h kh sh ph, window_out w kw sw pw).

Definition conv3d (c : Conv3d) (x : shape) : result shape :=
  match x with
  | [n; ch; d; h; w] =>
      '(d', h', w') ← conv3d_extents c ch d h w;
      mret [n; out_channels c; d'; h'; w']
  | [ch; d; h; w] =>
      '(d', h', w') ← conv3d_extents c ch d h w;
      mret [out_channels c; d'; h'; w']
  | _ => Raise (RuntimeError "Expected 4D (unbatched) or 5D (batched) input to conv3d")
  end.

Definition not_5d : exn := ValueError "expected 5D input".

Definition batch_norm3d (b : BatchNorm3d) (training : bool) (x : shape)
    : result shape :=
  match x with
  | [n; ch; d; h; w] =>
      if training && (n * (d * (h * w)) =? 1)
      then Raise (ValueError "Expected more than 1 value per channel when training")
      else if negb (ch =? num_features b)
      then Raise (RuntimeError "running_mean should contain as many elements as channels")
      else Ok x
  | _ => Raise not_5d
  end.

(** The checks of a pooling window.  Average pooling also wants the
    unpadded input no smaller than the window ([check_input_size]). *)
Definition pool3d_extents (check_input_size : bool) (kernel stride padding : triple)
    (ch d h w : nat) : result (nat * nat * nat) :=
  let '(kd, kh, kw) := kernel in
  let '(sd, sh, sw) := stride in
  let '(pd, ph, pw) := padding in
  if (sd =? 0) || (sh =? 0) || (sw =? 0)
  then Raise (RuntimeError "stride should not be zero")
  else if (kd / 2 <? pd) || (kh / 2 <? ph) || (kw / 2 <? pw)
  then Raise (RuntimeError "pad should be at most half of effective kernel size")
  else if (kd =? 0) || (kh =? 0) || (kw =? 0)
  then Raise (RuntimeError "kernel size should be greater than zero")
  else if (ch =? 0) || (d =? 0) || (h =? 0) || (w =? 0)
  then Raise (RuntimeError "Expected input's non-batch dimensions to have positive length")
  else if check_input_size && ((d <? kd) || (h <? kh) || (w <? kw))
  then Raise (RuntimeError "input image smaller than kernel size")
  else if (d + 2 * pd <? kd) || (h + 2 * ph <? kh) || (w + 2 * pw <? kw)
  then Raise (RuntimeError "Output size is too small")
  else Ok (window_out d kd sd pd, window_out h kh sh ph, window_out w kw sw pw).

Definition pool3d (check_input_size : bool) (kernel stride padding : triple)
    (x : shape) : result shape :=
  match x with
  | [n; ch; d; h; w] =>
      '(d', h', w') ← pool3d_extents check_input_size kernel stride padding ch d h w;
      mret [n; ch; d'; h'; w']
  | [ch; d; h; w] =>
      '(d', h', w') ← pool3d_extents check_input_size kernel stride padding ch d h w;
      mret [ch; d'; h'; w']
  | _ => Raise (RuntimeError "Expected 4D or 5D tensor for input")
  end.

Definition max_pool3d (kernel stride padding : triple) (x : shape) : result shape :=
  pool3d false kernel stride padding x.

Definition avg_pool3d (kernel stride : triple) (x : shape) : result shape :=
  pool3d true kernel stride (0, 0, 0) x.

Definition adaptive_avg_pool3d (output_size : triple) (x : shape) : result shape :=
  let '(od, oh, ow) := output_size in
  match x with
  | [n; ch; d; h; w] =>
      if (ch =? 0) || (d =? 0) || (h =? 0) || (w =? 0)
      then Raise (RuntimeError "Expected input to have non-zero size for non-batch dimensions")
      else Ok [n; ch; od; oh; ow]
  | [ch; d; h; w] =>
      if (d =? 0) || (h =? 0) || (w =? 0)
      then Raise (RuntimeError "Expected input to have non-zero size for non-batch dimensions")
      else Ok [ch; od; oh; ow]
  | _ => Raise (RuntimeError "Expected 4D or 5D tensor")
  end.

(** Broadcasting of two shapes, read from the last dimension. *)
Fixpoint broadcast_rev (a b : list nat) : result (list nat) :=
  match a, b with
  | [], _ => Ok b
  | _, [] => Ok a
  | m :: a', n :: b' =>
      r ← broadcast_rev a' b';
      if m =? n then Ok (m :: r)
      else if m =? 1 then Ok (n :: r)
      else if n =? 1 then Ok (m :: r)
      else Raise (RuntimeError "The size of tensor a must match the size of tensor b")
  end.

Definition add (a b : shape) : result shape :=
  r ← broadcast_rev (rev a) (rev b); mret (rev r).

(** [x.permute(dims)]: dimension [i] of the result is dimension [dims[i]]
    of [x]. *)
Definition permute (dims : list nat) (x : shape) : result shape :=
  if negb (length dims =? length x) || negb (bool_decide (NoDup dims))
  then Raise (RuntimeError "permute: dims do not match the input")
  else foldr (fun d acc => n ← getitem x d; r ← acc; mret (n :: r)) (Ok []) dims.

Definition linear (l : Linear) (x : shape) : result shape :=
  match rev x with
  | k :: rest =>
      if k =? in_features l then Ok (rev rest ++ [out_features l])
      else Raise (RuntimeError "mat1 and mat2 shapes cannot be multiplied")
  | [] => Raise (RuntimeError "linear: no dimension")
  end.

Definition softmax (dim : nat) (x : shape) : result shape :=
  if dim <? length x then Ok x else Raise IndexError.

(** [x.mean(dims)]: the listed dimensions disappear. *)
Fixpoint drop_dims (dims : list nat) (i : nat) (x : shape) : shape :=
  match x with
  | [] => []
  | n :: x' =>
      if existsb (Nat.eqb i) dims then drop_dims dims (S i) x'
      else n :: drop_dims dims (S i) x'
  end.

Definition mean (dims : list nat) (x : shape) : result shape :=
  if forallb (fun d => d <? length x) dims then Ok (drop_dims dims 0 x)
  else Raise IndexError.

(** [x.flatten(start_dim)]: the dimensions from [start_dim] on merge. *)
Definition flatten (start_dim : nat) (x : shape) : result shape :=
  if start_dim <? length x
  then Ok (take start_dim x ++ [foldr Nat.mul 1 (drop start_dim x)])
  else Raise IndexError.

#[global] Instance backbone_ops : BackboneOps shape :=
  Build_BackboneOps shape conv3d batch_norm3d (fun x => x) max_pool3d avg_pool3d
    adaptive_avg_pool3d (fun _ _ x => x) add.

#[global] Instance head_ops : HeadOps shape :=
  Build_HeadOps shape permute linear softmax mean flatten.

End Shape.

(** ** The primitives of the head on tensors of values
    A tensor is a shape and an entry for every index; the scalars, their
    arithmetic and the parameter values of the linear layers are left
    abstract.  Shapes and input checks are those of [Shape]. *)

Module Value.

Section Scalars.

Context {R : Type} (Rzero : R) (Radd Rmul Rdiv : R -> R -> R) (Rexp : R -> R)
  (Rofnat : nat -> R).
Context (weight : Linear -> nat -> nat -> R) (bias : Linear -> nat -> R).

Record tensor : Type := mk {
  shape : list nat;
  entry : list nat -> R
}.

(** The sum of [f 0], ..., [f (n - 1)]. *)
Fixpoint sum_upto (n : nat) (f : nat -> R) : R :=
  match n with
  | 0 => Rzero
  | S n' => Radd (sum_upto n' f) (f n')
  end.

Definition product (sh : list nat) : nat := foldr Nat.mul 1 sh.

(** Position of [j] in [dims]. *)
Fixpoint position (j : nat) (dims : list nat) : nat :=
  match dims with
  | [] => 0
  | d :: dims' => if d =? j then 0 else S (position j dims')
  end.

(** [x.permute(dims)]: entry [idx] of the result is the entry of [x] whose
    component [dims[i]] is [idx[i]]. *)
Definition permute (dims : list nat) (x : tensor) : result tensor :=
  s ← Shape.permute dims (shape x);
  mret (mk s (fun idx =>
    entry x (map (fun j => nth (position j dims) idx 0) (seq 0 (length dims))))).

(** [nn.Linear] on the last dimension: y[.., k] = sum_c x[.., c] * W[k, c] + b[k]. *)
Definition linear (l : Linear) (x : tensor) : result tensor :=
  s ← Shape.linear l (shape x);
  mret (mk s (fun idx =>
    let pre := removelast idx in
    let k := List.last idx 0 in
    Radd (sum_upto (in_features l)
            (fun c => Rmul (entry x (pre ++ [c])) (weight l k c)))
         (bias l k))).

(** [nn.Softmax(dim)]: exp(x[idx]) over the sum of exp along [dim]. *)
Definition softmax (dim : nat) (x : tensor) : result tensor :=
  s ← Shape.softmax dim (shape x);
  mret (mk s (fun idx =>
    Rdiv (Rexp (entry x idx))
         (sum_upto (nth dim (shape x) 0)
            (fun j => Rexp (entry x (<[dim := j]> idx)))))).

(** The sum of the entries of a tensor of shape [sh] whose kept components
    are read from [idx], over all values of the components listed in
    [dims]; [i] is the current dimension and [acc] the index built so far. *)
Fixpoint sum_over (dims : list nat) (i : nat) (sh idx acc : list nat)
    (f : list nat -> R) : R :=
  match sh with
  | [] => f acc
  | e :: sh' =>
      if existsb (Nat.eqb i) dims
      then sum_upto e (fun j => sum_over dims (S i) sh' idx (acc ++ [j]) f)
      else sum_over dims (S i) sh' (tail idx) (acc ++ [hd 0 idx]) f
  end.

(** Number of entries that one entry of [x.mean(dims)] averages. *)
Fixpoint count_over (dims : list nat) (i : nat) (sh : list nat) : nat :=
  match sh with
  | [] => 1
  | e :: sh' =>
      if existsb (Nat.eqb i) dims then e * count_over dims (S i) sh'
      else count_over dims (S i) sh'
  end.

Definition mean (dims : list nat) (x : tensor) : result tensor :=
  s ← Shape.mean dims (shape x);
  mret (mk s (fun idx =>
    Rdiv (sum_over dims 0 (shape x) idx [] (entry x))
         (Rofnat (count_over dims 0 (shape x))))).

(** Row-major digits of a flat index. *)
Fixpoint unravel (sh : list nat) (i : nat) : list nat :=
  match sh with
  | [] => []
  | _ :: sh' => (i / product sh') :: unravel sh' (i mod product sh')
  end.

(** [x.flatten(start_dim)] *)
Definition flatten (start_dim : nat) (x : tensor) : result tensor :=
  s ← Shape.flatten start_dim (shape x);
  mret (mk s (fun idx =>
    entry x (take start_dim idx
             ++ unravel (drop start_dim (shape x)) (nth start_dim idx 0)))).

Definition head_ops : HeadOps tensor :=
  Build_HeadOps tensor permute linear softmax mean flatten.

End Scalars.

End Value.

(** Run a constructor from the empty trace and keep the object. *)
Definition construct {A : Type} (c : Build A) : result A := fst (c []).

(** Construct, then run the forward pass on a shape. *)
Definition forward_shape (c : Build ResNeXt3D.t) (training : bool)
    (x : list nat) : result (list nat) :=
  m ← construct c; ResNeXt3D.forward m training x.

(** * Vocabulary of the statements *)

(** [raises_only P c]: whatever [c] raises satisfies [P]. *)
Definition raises_only {A : Type} (P : exn -> Prop) (c : Build A) : Prop :=
  forall tr e tr', c tr = (Raise e, tr') -> P e.

(** The exceptions of the layer constructors and of list indexing. *)
Inductive layer_error : exn -> Prop :=
| layer_error_groups : layer_error (ValueError "groups must be a positive integer")
| layer_error_in : layer_error (ValueError "in_channels must be divisible by groups")
| layer_error_out : layer_error (ValueError "out_channels must be divisible by groups")
| layer_error_index : layer_error IndexError.

Definition cycled (basis : list nat) (n : nat) : list nat := take n (list_mul basis n).

Section StageLengths.

Context (dim_in dim_out dim_inner : list nat)
  (temporal_kernel_basis : list (list nat)) (temporal_conv_1x1 : list bool)
  (temporal_stride spatial_stride num_blocks num_groups : list nat).

(** All nine per-pathway argument lists of a stage have one length. *)
Definition stage_lengths_equal : Prop :=
  length dim_out = length dim_in /\
  length temporal_kernel_basis = length dim_in /\
  length temporal_conv_1x1 = length dim_in /\
  length temporal_stride = length dim_in /\
  length spatial_stride = length dim_in /\
  length num_blocks = length dim_in /\
  length dim_inner = length dim_in /\
  length num_groups = length dim_in.

End StageLengths.

Definition stem_lengths_equal (dim_in dim_out : list nat)
    (kernel stride padding : list triple) : Prop :=
  length dim_out = length dim_in /\ length kernel = length dim_in /\
  length stride = length dim_in /\ length padding = length dim_in.

Definition is_ResBlock (m : ResStage.seq_item) : Prop :=
  exists b, m = ResStage.Seq_ResBlock b.

(** What the pathway loop leaves in the dictionary: one sequence per
    pathway index, made of that pathway's residual blocks only. *)
Definition pathway_ok (num_blocks : list nat) (p : nat)
    (blocks : list ResStage.seq_item) : Prop :=
  exists n, num_blocks !! p = Some n /\ length blocks = n /\ Forall is_ResBlock blocks.

(** The condition both skip constructors assert, and [ResBlock] tests. *)
Definition projection_needed (dim_in dim_out temporal_stride spatial_stride : nat)
    : bool :=
  negb (dim_in =? dim_out) || negb (spatial_stride =? 1) || negb (temporal_stride =? 1).

Definition is_projection (s : ResBlock.skip_module) : Prop :=
  match s with
  | ResBlock.Skip_Identity => False
  | ResBlock.Skip_Postactivated _ | ResBlock.Skip_Preactivated _ => True
  end.

(** Pathway [p] of the stem maps [xp] to [y]. *)
Definition stem_maps {T : Type} `{BackboneOps T} (self : ResNeXt3DStemMultiPathway.t)
    (training : bool) (p : nat) (xp y : T) : Prop :=
  exists stem_block,
    ResNeXt3DStemMultiPathway.blocks self !! ResNeXt3DStemMultiPathway._stem_name p
      = Some stem_block /\
    ResNeXt3DStemSinglePathway.forward stem_block training xp = Ok y.

(** The extent left of [d] by a window of odd size with half-size padding
    moved by stride [s]: [d / s] rounded up. *)
Definition shrink (d s : nat) : nat := (d - 1) / s + 1.

(** Batch normalisation in training mode wants more than one value per
    channel. *)
Definition bn_ok (training : bool) (n d h w : nat) : Prop :=
  training = true -> n * (d * (h * w)) <> 1.

(** A walk over the modules that leaves shapes alone. *)
Definition shape_preserving (v : visitor) : Prop :=
  (forall c, Shape.conv3d (on_conv v c) = Shape.conv3d c) /\
  (forall b, Shape.batch_norm3d (on_bn v b) = Shape.batch_norm3d b).

Section BlockBuilt.

Context (dim_in dim_out dim_inner : list nat) (temporal_conv_1x1 : list bool)
  (temporal_stride spatial_stride num_groups : list nat)
  (skip_transformation : skip_class) (residual_transformation : residual_class)
  (inplace_relu : bool) (bn_eps bn_mmt : Q) (disable_pre_activation : bool)
  (tks : list (list nat)) (p : nat).

(** Block [i] of pathway [p], as the loop builds it. *)
Definition block_built (i : nat) (a : ResStage.seq_item) : Prop :=
  exists b d_in d_out d_inner sizes k c1 ts ss g tr tr',
    a = ResStage.Seq_ResBlock b /\
    (if i =? 0 then dim_in else dim_out) !! p = Some d_in /\
    dim_out !! p = Some d_out /\
    dim_inner !! p = Some d_inner /\
    tks !! p = Some sizes /\ sizes !! i = Some k /\
    temporal_conv_1x1 !! p = Some c1 /\
    (if i =? 0 then temporal_stride !! p = Some ts else ts = 1) /\
    (if i =? 0 then spatial_stride !! p = Some ss else ss = 1) /\
    num_groups !! p = Some g /\
    ResBlock.init d_in d_out d_inner k c1 ts ss skip_transformation
      residual_transformation g inplace_relu bn_eps bn_mmt
      (disable_pre_activation && (i =? 0)) tr = (Ok b, tr').

End BlockBuilt.

(** Extents after the stem: the convolution halves height and width, and
    so does the max-pooling. *)
Definition stem_extent (thw : nat * nat * nat) : nat * nat * nat :=
  let '(t, h, w) := thw in (t, shrink (shrink h 2) 2, shrink (shrink w 2) 2).

(** The pooling window fits the feature map; in training mode, where the
    per-location logits are only flattened, it covers the map exactly. *)
Definition pool_fits (pool_size : option triple) (training : bool)
    (thw : nat * nat * nat) : Prop :=
  match pool_size with
  | None => True
  | Some (kt, kh, kw) =>
      let '(t, h, w) := thw in
      (1 <= kt <= t /\ 1 <= kh <= h /\ 1 <= kw <= w) /\
      (training = true -> kt = t /\ kh = h /\ kw = w)
  end.

(** Extents after stages [start], ..., [start + k - 1]: each stage shrinks
    time by its temporal stride and height and width by its spatial one. *)
Fixpoint extent_after_stages (tss sss : list nat) (start k t h w : nat)
    : nat * nat * nat :=
  match k with
  | 0 => (t, h, w)
  | S k' =>
      match tss !! start, sss !! start with
      | Some ts, Some ss =>
          extent_after_stages tss sss (S start) k' (shrink t ts) (shrink h ss)
            (shrink w ss)
      | _, _ => (t, h, w)
      end
  end.

(** Extents of the feature map that reaches the head. *)
Definition out_extent (kw : ResNeXt3D.kwargs) (t h w : nat) : nat * nat * nat :=
  let '(t1, h1, w1) := stem_extent (t, h, w) in
  extent_after_stages (ResNeXt3D.stage_temporal_stride kw)
    (ResNeXt3D.stage_spatial_stride kw) 0 (length (ResNeXt3D.num_blocks kw)) t1 h1 w1.

(** Channels entering stage [s]. *)
Definition planes_at (kw : ResNeXt3D.kwargs) (s : nat) : nat :=
  match s with
  | 0 => ResNeXt3D.stem_planes kw
  | S s' => ResNeXt3D.stage_planes kw * 2 ^ s'
  end.

(** Stage [s] of a model, as the loop of the constructor builds it. *)
Definition stage_built (kw : ResNeXt3D.kwargs) (s : nat) (st : ResStage.t) : Prop :=
  exists s_in s_out s_inner s_basis s_c1 s_ts s_ss s_nb tr tr',
    ResNeXt3D.in_planes kw !! s = Some s_in /\
    ResNeXt3D.out_planes kw !! s = Some s_out /\
    ResNeXt3D.inner_planes kw !! s = Some s_inner /\
    ResNeXt3D.stage_temporal_kernel_basis kw !! s = Some s_basis /\
    ResNeXt3D.stage_temporal_stride kw !! s = Some s_ts /\
    ResNeXt3D.stage_spatial_stride kw !! s = Some s_ss /\
    ResNeXt3D.num_blocks kw !! s = Some s_nb /\
    ResStage.init (s + 1) [s_in] [s_out] [s_inner] [s_basis] [s_c1] [s_ts] [s_ss]
      [s_nb] [ResNeXt3D.num_groups kw] (ResNeXt3D.skip_transformation kw)
      (ResNeXt3D.residual_transformation kw) true default_bn_eps default_bn_mmt
      (s =? 0) (s =? length (ResNeXt3D.num_blocks kw) - 1) tr = (Ok st, tr').

(** The hyper-parameters for which the forward pass is shown to return:
    the pre-activated skip strategy, at least one channel in the input, out
    of the stem and per group (a convolution without output channels is
    built but raises when it runs), at least one stage, at least one block
    per stage, odd kernel sizes, positive strides, and 2048 channels out
    of the last stage, the width the head is built for. *)
Record valid_hyperparameters (kw : ResNeXt3D.kwargs) : Prop := {
  valid_skip :
    ResNeXt3D.skip_transformation kw = PreactivatedShortcutTransformation_cls;
  valid_input_planes : 1 <= ResNeXt3D.input_planes kw;
  valid_stem_planes : 1 <= ResNeXt3D.stem_planes kw;
  valid_groups : 1 <= ResNeXt3D.num_groups kw;
  valid_width : 1 <= ResNeXt3D.width_per_group kw;
  valid_stages : 1 <= length (ResNeXt3D.num_blocks kw);
  valid_blocks : Forall (fun b => 1 <= b) (ResNeXt3D.num_blocks kw);
  valid_stem_temporal_kernel : ResNeXt3D.stem_temporal_kernel kw mod 2 = 1;
  valid_stem_spatial_kernel : ResNeXt3D.stem_spatial_kernel kw mod 2 = 1;
  valid_basis :
    Forall (Forall (fun k => k mod 2 = 1)) (ResNeXt3D.stage_temporal_kernel_basis kw);
  valid_temporal_stride : Forall (fun s => 1 <= s) (ResNeXt3D.stage_temporal_stride kw);
  valid_spatial_stride : Forall (fun s => 1 <= s) (ResNeXt3D.stage_spatial_stride kw);
  valid_planes :
    ResNeXt3D.stage_planes kw * 2 ^ (length (ResNeXt3D.num_blocks kw) - 1) = 2048
}.

(** Row-major flat index of [idx] in a tensor of shape [sh]. *)
Fixpoint ravel (sh idx : list nat) : nat :=
  match sh, idx with
  | _ :: sh', i :: idx' => i * Value.product sh' + ravel sh' idx'
  | _, _ => 0
  end.

Section HeadSpec.

Context {R : Type} (Rzero : R) (Radd Rmul Rdiv : R -> R -> R) (Rexp : R -> R)
  (Rofnat : nat -> R).
Context (weight : Linear -> nat -> nat -> R) (bias : Linear -> nat -> R).

Let sum := Value.sum_upto Rzero Radd.

(** The logit of class [k] at batch element [n] and location (t, h, w) of
    the pooled input [x]. *)
Definition logit (lin : Linear) (x : @Value.tensor R) (n t h w k : nat) : R :=
  Radd (sum (in_features lin)
          (fun c => Rmul (Value.entry x [n; c; t; h; w]) (weight lin k c)))
       (bias lin k).

(** The softmax over the class axis at one location. *)
Definition softmax_at (lin : Linear) (x : @Value.tensor R) (n t h w k : nat) : R :=
  Rdiv (Rexp (logit lin x n t h w k))
       (sum (out_features lin) (fun j => Rexp (logit lin x n t h w j))).

(** Its average over all locations. *)
Definition averaged (lin : Linear) (x : @Value.tensor R) (T H W n k : nat) : R :=
  Rdiv (sum T (fun t => sum H (fun h => sum W (fun w => softmax_at lin x n t h w k))))
       (Rofnat (T * H * W)).

End HeadSpec.

(** ** Instances used as examples *)

Definition preact_final_stage : Build ResStage.t :=
  ResStage.init 4 [1024] [2048] [512] [[1; 3]] [true] [1] [2] [3] [1]
    PreactivatedShortcutTransformation_cls PreactivatedBottleneckTransformation_cls
    true default_bn_eps default_bn_mmt false true.

Definition stage_3_1_5 : Build ResStage.t :=
  ResStage.init 1 [64] [256] [64] [[3; 1]] [true] [1] [1] [5] [1]
    PostactivatedShortcutTransformation_cls PostactivatedBottleneckTransformation_cls
    true default_bn_eps default_bn_mmt true false.

Definition identity_block : Build ResBlock.t :=
  ResBlock.init 256 256 64 3 true 1 1 PostactivatedShortcutTransformation_cls
    PostactivatedBottleneckTransformation_cls 1 true default_bn_eps default_bn_mmt
    false.

(** A two-pathway stem, as a slow and a fast stream would use. *)
Definition two_pathway_stem : Build ResNeXt3DStemMultiPathway.t :=
  ResNeXt3DStemMultiPathway.init [3; 3] [64; 8] [(1, 7, 7); (5, 7, 7)]
    [(1, 2, 2); (1, 2, 2)] [(0, 3, 3); (2, 3, 3)] true default_bn_eps default_bn_mmt.

(** A projection from 2 channels to 3 classes over natural numbers, on a
    pooled input with two time positions. *)
Definition nat_head_ops : HeadOps (@Value.tensor nat) :=
  Value.head_ops 0 Nat.add Nat.mul Nat.div (Nat.pow 2) (fun n => n)
    (fun _ k c => k + c) (fun _ k => k).

Definition two_positions : @Value.tensor nat :=
  Value.mk [1; 2; 2; 1; 1] (fun idx => foldr Nat.add 0 idx).

(** ** Further vocabulary: constructors, loops and initialisers *)

(** [returns c]: from every trace, the constructor [c] returns an object. *)
Definition returns {A : Type} (c : Build A) : Prop :=
  forall tr, exists a tr', c tr = (Ok a, tr').

Definition is_IndexError (e : exn) : Prop := e = IndexError.

(** Temporal kernel sizes of the two temporal convolutions of a block's
    residual branch: (branch2a, branch2b). *)
Definition block_temporal_kernels (b : ResBlock.t) : nat * nat :=
  match ResBlock.residual b with
  | ResBlock.Residual_Postactivated rm =>
      (fst (fst (kernel_size (PostactivatedBottleneckTransformation.branch2a rm))),
       fst (fst (kernel_size (PostactivatedBottleneckTransformation.branch2b rm))))
  | ResBlock.Residual_Preactivated rm =>
      (fst (fst (kernel_size (PreactivatedBottleneckTransformation.branch2a rm))),
       fst (fst (kernel_size (PreactivatedBottleneckTransformation.branch2b rm))))
  end.

Section PathwayBuilt.

Context (dim_in dim_out dim_inner : list nat) (temporal_conv_1x1 : list bool)
  (temporal_stride spatial_stride num_blocks num_groups : list nat)
  (skip_transformation : skip_class) (residual_transformation : residual_class)
  (inplace_relu : bool) (bn_eps bn_mmt : Q) (disable_pre_activation : bool).

(** Pathway [p] of a stage: as many items as [num_blocks[p]], item [i]
    being block [i] as the loop builds it. *)
Definition pathway_built (tks : list (list nat)) (p : nat)
    (blocks : list ResStage.seq_item) : Prop :=
  exists n, num_blocks !! p = Some n /\ length blocks = n /\
            forall i a, blocks !! i = Some a ->
              block_built dim_in dim_out dim_inner temporal_conv_1x1 temporal_stride
                spatial_stride num_groups skip_transformation residual_transformation
                inplace_relu bn_eps bn_mmt disable_pre_activation tks p i a.

End PathwayBuilt.

(** Every pathway that has a block has a kernel basis to draw from and a
    group count that divides its inner width. *)
Definition pathways_buildable (dim_inner : list nat)
    (temporal_kernel_basis : list (list nat)) (num_blocks num_groups : list nat)
    : Prop :=
  forall p n, num_blocks !! p = Some n -> 1 <= n ->
    exists basis g d_inner,
      temporal_kernel_basis !! p = Some basis /\ basis <> [] /\
      num_groups !! p = Some g /\ dim_inner !! p = Some d_inner /\
      g <> 0 /\ d_inner mod g = 0.

(** What one round of the loop of [ResStage.forward] appends. *)
Definition pathway_forward {T : Type} `{BackboneOps T} (self : ResStage.t)
    (training : bool) (inputs : list T) (p : nat) : result T :=
  x ← getitem inputs p;
  pathway_module ← dict_getitem (ResStage.pathways self) (ResStage._pathway_name p);
  ResStage.Sequential_forward pathway_module training x.

(** The single-pathway stem of pathway [p], as the loop of the
    multi-pathway stem builds it. *)
Definition stem_built (dim_in dim_out : list nat) (kernel stride padding : list triple)
    (inplace_relu : bool) (bn_eps bn_mmt : Q) (p : nat)
    (stem : ResNeXt3DStemSinglePathway.t) : Prop :=
  exists d_in d_out k st pad tr tr',
    dim_in !! p = Some d_in /\ dim_out !! p = Some d_out /\
    kernel !! p = Some k /\ stride !! p = Some st /\ padding !! p = Some pad /\
    ResNeXt3DStemSinglePathway.init d_in d_out k st pad true inplace_relu bn_eps bn_mmt
      tr = (Ok stem, tr').

(** The per-stage lists reach as far as [num_blocks], and every stage that
    has a block has a kernel basis to draw from and a positive group
    count. *)
Definition constructible (kw : ResNeXt3D.kwargs) : Prop :=
  let n := length (ResNeXt3D.num_blocks kw) in
  n <= length (ResNeXt3D.stage_temporal_kernel_basis kw) /\
  n <= length (ResNeXt3D.temporal_conv_1x1 kw) /\
  n <= length (ResNeXt3D.stage_temporal_stride kw) /\
  n <= length (ResNeXt3D.stage_spatial_stride kw) /\
  forall s nb basis,
    ResNeXt3D.num_blocks kw !! s = Some nb -> 1 <= nb ->
    ResNeXt3D.stage_temporal_kernel_basis kw !! s = Some basis ->
    basis <> [] /\ ResNeXt3D.num_groups kw <> 0.

Definition kaiming : initializer := kaiming_normal_ "fan_out" "relu".

(** The initialisers [_init_parameter] leaves on a residual branch: every
    weight Kaiming-normal or one, every bias zero, except the weight of the
    final transform, zero under the flag. *)
Definition residual_initialised (zero : bool) (r : ResBlock.residual_module) : Prop :=
  match r with
  | ResBlock.Residual_Postactivated rm =>
      conv_weight (PostactivatedBottleneckTransformation.branch2a rm) = kaiming /\
      conv_weight (PostactivatedBottleneckTransformation.branch2b rm) = kaiming /\
      conv_weight (PostactivatedBottleneckTransformation.branch2c rm) = kaiming /\
      bn_weight (PostactivatedBottleneckTransformation.branch2a_bn rm)
        = constant_ (1 # 1) /\
      bn_weight (PostactivatedBottleneckTransformation.branch2b_bn rm)
        = constant_ (1 # 1) /\
      bn_weight (PostactivatedBottleneckTransformation.branch2c_bn rm)
        = constant_ (if zero then 0 # 1 else 1 # 1) /\
      bn_bias (PostactivatedBottleneckTransformation.branch2a_bn rm)
        = constant_ (0 # 1) /\
      bn_bias (PostactivatedBottleneckTransformation.branch2b_bn rm)
        = constant_ (0 # 1) /\
      bn_bias (PostactivatedBottleneckTransformation.branch2c_bn rm)
        = constant_ (0 # 1)
  | ResBlock.Residual_Preactivated rm =>
      conv_weight (PreactivatedBottleneckTransformation.branch2a rm) = kaiming /\
      conv_weight (PreactivatedBottleneckTransformation.branch2b rm) = kaiming /\
      conv_weight (PreactivatedBottleneckTransformation.branch2c rm)
        = (if zero then constant_ (0 # 1) else kaiming) /\
      bn_weight (PreactivatedBottleneckTransformation.branch2b_bn rm)
        = constant_ (1 # 1) /\
      bn_weight (PreactivatedBottleneckTransformation.branch2c_bn rm)
        = constant_ (1 # 1) /\
      bn_bias (PreactivatedBottleneckTransformation.branch2b_bn rm)
        = constant_ (0 # 1) /\
      bn_bias (PreactivatedBottleneckTransformation.branch2c_bn rm)
        = constant_ (0 # 1) /\
      (forall bn, PreactivatedBottleneckTransformation.branch2a_bn rm = L_BatchNorm3d bn ->
         bn_weight bn = constant_ (1 # 1) /\ bn_bias bn = constant_ (0 # 1))
  end.

(** The same on a skip path: the projection is never a final transform. *)
Definition skip_initialised (s : ResBlock.skip_module) : Prop :=
  match s with
  | ResBlock.Skip_Identity => True
  | ResBlock.Skip_Postactivated pm =>
      conv_weight (PostactivatedShortcutTransformation.branch1 pm) = kaiming /\
      bn_weight (PostactivatedShortcutTransformation.branch1_bn pm) = constant_ (1 # 1) /\
      bn_bias (PostactivatedShortcutTransformation.branch1_bn pm) = constant_ (0 # 1)
  | ResBlock.Skip_Preactivated pm =>
      conv_weight (PreactivatedShortcutTransformation.branch1 pm) = kaiming /\
      (forall bn, PreactivatedShortcutTransformation.branch1_bn pm = Some bn ->
         bn_weight bn = constant_ (1 # 1) /\ bn_bias bn = constant_ (0 # 1))
  end.

(** Locations left by the head's pooling window, which moves by 1. *)
Definition pooled_positions (pool_size : option triple) (thw : nat * nat * nat) : nat :=
  match pool_size with
  | None => 1
  | Some (kt, kh, kw) =>
      let '(t, h, w) := thw in (t - kt + 1) * ((h - kh + 1) * (w - kw + 1))
  end.

(** The pooling window is not empty and not larger than the feature map. *)
Definition pool_in_range (pool_size : option triple) (thw : nat * nat * nat) : Prop :=
  match pool_size with
  | None => True
  | Some (kt, kh, kw) =>
      let '(t, h, w) := thw in 1 <= kt <= t /\ 1 <= kh <= h /\ 1 <= kw <= w
  end.

(** [valid_hyperparameters] without its conditions on the number of
    stages and on the width out of the last stage, which only has to be
    positive. *)
Record valid_backbone (kw : ResNeXt3D.kwargs) : Prop := {
  backbone_skip :
    ResNeXt3D.skip_transformation kw = PreactivatedShortcutTransformation_cls;
  backbone_input_planes : 1 <= ResNeXt3D.input_planes kw;
  backbone_stem_planes : 1 <= ResNeXt3D.stem_planes kw;
  backbone_stage_planes : 1 <= ResNeXt3D.stage_planes kw;
  backbone_groups : 1 <= ResNeXt3D.num_groups kw;
  backbone_width : 1 <= ResNeXt3D.width_per_group kw;
  backbone_blocks : Forall (fun b => 1 <= b) (ResNeXt3D.num_blocks kw);
  backbone_stem_temporal_kernel : ResNeXt3D.stem_temporal_kernel kw mod 2 = 1;
  backbone_stem_spatial_kernel : ResNeXt3D.stem_spatial_kernel kw mod 2 = 1;
  backbone_basis :
    Forall (Forall (fun k => k mod 2 = 1)) (ResNeXt3D.stage_temporal_kernel_basis kw);
  backbone_temporal_stride :
    Forall (fun s => 1 <= s) (ResNeXt3D.stage_temporal_stride kw);
  backbone_spatial_stride :
    Forall (fun s => 1 <= s) (ResNeXt3D.stage_spatial_stride kw)
}.

(** ** Further instances used as examples *)

(** A block that projects, built with the post-activated strategies. *)
Definition postact_projection_block : Build ResBlock.t :=
  ResBlock.init 64 256 64 3 true 1 1 PostactivatedShortcutTransformation_cls
    PostactivatedBottleneckTransformation_cls 1 true default_bn_eps default_bn_mmt
    false.

(** A stage whose only pathway has an empty kernel basis. *)
Definition stage_empty_basis : Build ResStage.t :=
  ResStage.init 1 [64] [256] [64] [[]] [true] [1] [1] [3] [1]
    PreactivatedShortcutTransformation_cls PreactivatedBottleneckTransformation_cls
    true default_bn_eps default_bn_mmt true false.


(** The pre-activated reference hyper-parameters with one spatial stride
    too few for the four stages. *)
Definition short_stride_kwargs : ResNeXt3D.kwargs :=
  ResNeXt3D.mkKwargs 3 224 PreactivatedShortcutTransformation_cls
    PreactivatedBottleneckTransformation_cls 8 [3; 4; 6; 3] 32 3 5 true 256
    [[3]; [3; 1]; [3; 1]; [1; 3]] [true; true; true; true] [1; 2; 1; 1] [1; 2; 2]
    1 64 true (Some (4, 7, 7)) 400.

(** The pre-activated reference hyper-parameters at half the width, which
    leaves 1024 channels for a head built for 2048. *)
Definition half_width_kwargs : ResNeXt3D.kwargs :=
  ResNeXt3D.mkKwargs 3 224 PreactivatedShortcutTransformation_cls
    PreactivatedBottleneckTransformation_cls 8 [3; 4; 6; 3] 32 3 5 true 128
    [[3]; [3; 1]; [3; 1]; [1; 3]] [true; true; true; true] [1; 2; 1; 1] [1; 2; 2; 2]
    1 64 true (Some (4, 7, 7)) 400.

(** The pre-activated reference hyper-parameters with a stem without
    output channels. *)
Definition no_stem_planes_kwargs : ResNeXt3D.kwargs :=
  ResNeXt3D.mkKwargs 3 224 PreactivatedShortcutTransformation_cls
    PreactivatedBottleneckTransformation_cls 8 [3; 4; 6; 3] 0 3 5 true 256
    [[3]; [3; 1]; [3; 1]; [1; 3]] [true; true; true; true] [1; 2; 1; 1] [1; 2; 2; 2]
    1 64 true (Some (4, 7, 7)) 400.

(** * Proofs *)

(** ** Running constructors *)

Section BuildLemmas.

Context {A B : Type}.

Lemma Build_bind_run (m : Build A) (f : A -> Build B) (tr : trace) :
  (m ≫= f) tr =
  match m tr with
  | (Ok a, tr') => f a tr'
  | (Raise e, tr') => (Raise e, tr')
  end.
Proof. reflexivity. Qed.

Lemma Build_bind_Ok (m : Build A) (f : A -> Build B) (tr tr' : trace) (b : B) :
  (m ≫= f) tr = (Ok b, tr') ->
  exists a tr1, m tr = (Ok a, tr1) /\ f a tr1 = (Ok b, tr').
Proof.
  rewrite Build_bind_run. destruct (m tr) as [[a|e] tr1]; [eauto | discriminate].
Qed.

Lemma Build_bind_Raise (m : Build A) (f : A -> Build B) (tr tr' : trace) (e : exn) :
  (m ≫= f) tr = (Raise e, tr') ->
  m tr = (Raise e, tr') \/
  exists a tr1, m tr = (Ok a, tr1) /\ f a tr1 = (Raise e, tr').
Proof.
  rewrite Build_bind_run. destruct (m tr) as [[a|e0] tr1]; [eauto |].
  intros [= -> ->]. by left.
Qed.

Lemma Build_fmap_run (m : Build A) (f : A -> B) (tr : trace) :
  (f <$> m) tr =
  match m tr with
  | (Ok a, tr') => (Ok (f a), tr')
  | (Raise e, tr') => (Raise e, tr')
  end.
Proof. reflexivity. Qed.

End BuildLemmas.

Section RaisesOnly.

Context (P : exn -> Prop).

Lemma raises_only_mret {A : Type} (a : A) : raises_only P (mret a).
Proof. intros tr e tr' [=]. Qed.

Lemma raises_only_alloc (cls : string) : raises_only P (alloc cls).
Proof. intros tr e tr' [=]. Qed.

Lemma raises_only_raise {A : Type} (e : exn) : P e -> raises_only P (@raise A e).
Proof. intros HP tr e' tr' [= <- _]. exact HP. Qed.

Lemma raises_only_bind {A B : Type} (m : Build A) (f : A -> Build B) :
  raises_only P m -> (forall a, raises_only P (f a)) -> raises_only P (m ≫= f).
Proof.
  intros Hm Hf tr e tr' Hrun.
  apply Build_bind_Raise in Hrun as [Hrun | (a & tr1 & _ & Hrun)].
  - exact (Hm _ _ _ Hrun).
  - exact (Hf _ _ _ _ Hrun).
Qed.

Lemma raises_only_fmap {A B : Type} (m : Build A) (f : A -> B) :
  raises_only P m -> raises_only P (f <$> m).
Proof.
  intros Hm tr e tr'. rewrite Build_fmap_run.
  destruct (m tr) as [[a|e0] tr1] eqn:Hrun; [discriminate |].
  intros [= <- <-]. exact (Hm _ _ _ Hrun).
Qed.

Lemma raises_only_index {A : Type} (l : list A) (i : nat) :
  P IndexError -> raises_only P (index l i).
Proof.
  intros HP tr e tr'. unfold index, lift, getitem.
  destruct (l !! i); intros [=]. by subst.
Qed.

Lemma raises_only_if {A : Type} (b : bool) (c1 c2 : Build A) :
  raises_only P c1 -> raises_only P c2 -> raises_only P (if b then c1 else c2).
Proof. by destruct b. Qed.

Lemma raises_only_for_loop {St : Type} (body : nat -> St -> Build St) :
  (forall i s, raises_only P (body i s)) ->
  forall n start s, raises_only P (for_loop body start n s).
Proof.
  intros Hbody n. induction n as [|n IH]; intros start s; simpl.
  - apply raises_only_mret.
  - apply raises_only_bind; [apply Hbody | intros s'; apply IH].
Qed.

End RaisesOnly.

(** A loop invariant for [for_loop] in a constructor. *)
Lemma for_loop_Build_inv {St : Type} (I : nat -> St -> Prop)
    (body : nat -> St -> Build St) :
  (forall i s tr s' tr', I i s -> body i s tr = (Ok s', tr') -> I (S i) s') ->
  forall n start s tr r tr',
    I start s -> for_loop body start n s tr = (Ok r, tr') -> I (start + n) r.
Proof.
  intros Hstep n. induction n as [|n IH]; intros start s tr r tr' HI Hrun; simpl in Hrun.
  - injection Hrun as <- _. by rewrite Nat.add_0_r.
  - apply Build_bind_Ok in Hrun as (s1 & tr1 & Hb & Hrun).
    replace (start + S n) with (S start + n) by lia.
    eapply IH; [| exact Hrun]. eapply Hstep; eauto.
Qed.

(** ** Temporal kernel sizes *)

Lemma length_list_mul {A : Type} (l : list A) (n : nat) :
  length (list_mul l n) = n * length l.
Proof.
  unfold list_mul. induction n as [|n IH]; simpl; [done |].
  rewrite length_app, IH. lia.
Qed.

Lemma list_mul_add {A : Type} (l : list A) (j k : nat) :
  list_mul l (j + k) = list_mul l j ++ list_mul l k.
Proof.
  unfold list_mul. induction j as [|j IH]; simpl; [done |].
  by rewrite IH, app_assoc.
Qed.

(** Any number of copies that covers [n] entries gives the same prefix. *)
Lemma take_list_mul {A : Type} (l : list A) (n j k : nat) :
  n <= j * length l -> n <= k * length l ->
  take n (list_mul l j) = take n (list_mul l k).
Proof.
  assert (Hle : forall a b, a <= b -> n <= a * length l ->
            take n (list_mul l b) = take n (list_mul l a)).
  { intros a b Hab Hn. replace b with (a + (b - a)) by lia.
    rewrite list_mul_add. apply take_app_le. by rewrite length_list_mul. }
  intros Hj Hk. destruct (Nat.le_ge_cases j k) as [Hjk|Hkj].
  - symmetry. by apply Hle.
  - by apply Hle.
Qed.

Lemma index_run {A : Type} (l : list A) (i : nat) (a : A) (tr : trace) :
  l !! i = Some a -> index l i tr = (Ok a, tr).
Proof. intros Hl. unfold index, lift, getitem. by rewrite Hl. Qed.

Lemma make_temporal_kernel_sizes_loop (tkb : list (list nat)) (nb : list nat)
    (tr : trace) (n start : nat) (acc : list (list nat)) :
  start + n = length tkb -> length tkb <= length nb ->
  for_loop (fun i acc =>
      basis ← index tkb i; m ← index nb i; mret (acc ++ [take m (list_mul basis m)]))
    start n acc tr
  = (Ok (acc ++ zip_with cycled (drop start tkb) (drop start nb)), tr).
Proof.
  revert start acc. induction n as [|n IH]; intros start acc Hlen Hnb; cbn [for_loop].
  - rewrite drop_ge by lia. simpl. by rewrite app_nil_r.
  - destruct (lookup_lt_is_Some_2 tkb start) as [b Hb]; [lia |].
    destruct (lookup_lt_is_Some_2 nb start) as [m Hm]; [lia |].
    rewrite Build_bind_run, Build_bind_run, (index_run _ _ _ _ Hb).
    rewrite Build_bind_run, (index_run _ _ _ _ Hm).
    unfold mret, Build_ret.
    rewrite IH by lia.
    rewrite (drop_S _ _ _ Hb), (drop_S _ _ _ Hm). simpl.
    by rewrite <- app_assoc.
Qed.

Lemma make_temporal_kernel_sizes_run (tkb : list (list nat)) (nb : list nat)
    (tr : trace) :
  length tkb <= length nb ->
  ResStage.make_temporal_kernel_sizes tkb nb tr = (Ok (zip_with cycled tkb nb), tr).
Proof.
  intros Hlen. unfold ResStage.make_temporal_kernel_sizes.
  by rewrite make_temporal_kernel_sizes_loop.
Qed.

(** ** The length validation of [ResStage] *)

Lemma size_list_to_set_1 (x : nat) (l : list nat) :
  size (list_to_set (x :: l) : gset nat) = 1 <-> Forall (fun y => y = x) l.
Proof.
  split.
  - intros Hsize. apply Forall_forall. intros y Hy.
    apply (size_singleton_inv (list_to_set (x :: l) : gset nat)); [done | |].
    + apply elem_of_list_to_set. by right.
    + apply elem_of_list_to_set. by left.
  - intros Hall.
    assert (Heq : (list_to_set (x :: l) : gset nat) = {[x]}).
    { apply set_eq. intros y. rewrite elem_of_list_to_set, elem_of_singleton.
      split; [| intros ->; by left].
      intros [->|Hy]%elem_of_cons; [done |].
      by apply (proj1 (Forall_forall _ _) Hall). }
    rewrite Heq. apply size_singleton.
Qed.

Section StageValidation.

Context (dim_in dim_out dim_inner : list nat)
  (temporal_kernel_basis : list (list nat)) (temporal_conv_1x1 : list bool)
  (temporal_stride spatial_stride num_blocks num_groups : list nat).

Lemma unequal_lengths_false :
  ResStage.unequal_lengths dim_in dim_out dim_inner temporal_kernel_basis
    temporal_conv_1x1 temporal_stride spatial_stride num_blocks num_groups = false
  <-> (stage_lengths_equal dim_in dim_out dim_inner temporal_kernel_basis
       temporal_conv_1x1 temporal_stride spatial_stride num_blocks num_groups).
Proof.
  unfold ResStage.unequal_lengths, ResStage.lengths, stage_lengths_equal.
  rewrite bool_decide_eq_false, size_list_to_set_1.
  split.
  - intros Hnn. apply dec_stable in Hnn.
    repeat match goal with
           | H : Forall _ (_ :: _) |- _ => apply Forall_cons_1 in H as [? H]
           end.
    tauto.
  - intros (? & ? & ? & ? & ? & ? & ? & ?) Hne. apply Hne.
    repeat constructor; done.
Qed.

Lemma unequal_lengths_true :
  ResStage.unequal_lengths dim_in dim_out dim_inner temporal_kernel_basis
    temporal_conv_1x1 temporal_stride spatial_stride num_blocks num_groups = true
  <-> ~ (stage_lengths_equal dim_in dim_out dim_inner temporal_kernel_basis
       temporal_conv_1x1 temporal_stride spatial_stride num_blocks num_groups).
Proof.
  rewrite <- unequal_lengths_false. by destruct (ResStage.unequal_lengths _ _ _ _ _ _ _ _ _).
Qed.

End StageValidation.

(** Take a successful run of a sequence of binds apart. *)
Ltac build_inv H :=
  repeat (let a := fresh "a" in let tr := fresh "tr" in let Ha := fresh "Hrun" in
          apply Build_bind_Ok in H as (a & tr & Ha & H)).

Lemma mret_run {A : Type} (a b : A) (tr tr' : trace) :
  (mret a : Build A) tr = (Ok b, tr') -> a = b /\ tr = tr'.
Proof. by intros [= -> ->]. Qed.

Section StageInit.

Context (stage_idx : nat) (dim_in dim_out dim_inner : list nat)
  (temporal_kernel_basis : list (list nat)) (temporal_conv_1x1 : list bool)
  (temporal_stride spatial_stride num_blocks num_groups : list nat)
  (skip_transformation : skip_class) (residual_transformation : residual_class)
  (inplace_relu : bool) (bn_eps bn_mmt : Q)
  (disable_pre_activation final_stage : bool).

Let unequal : bool :=
  ResStage.unequal_lengths dim_in dim_out dim_inner temporal_kernel_basis
    temporal_conv_1x1 temporal_stride spatial_stride num_blocks num_groups.

Let block_body := ResStage.block_body dim_in dim_out dim_inner temporal_conv_1x1
  temporal_stride spatial_stride num_groups skip_transformation
  residual_transformation inplace_relu bn_eps bn_mmt disable_pre_activation.

Let pathway_body := ResStage.pathway_body dim_in dim_out dim_inner temporal_conv_1x1
  temporal_stride spatial_stride num_blocks num_groups skip_transformation
  residual_transformation inplace_relu bn_eps bn_mmt disable_pre_activation
  final_stage.

Let init := ResStage.init stage_idx dim_in dim_out dim_inner temporal_kernel_basis
  temporal_conv_1x1 temporal_stride spatial_stride num_blocks num_groups
  skip_transformation residual_transformation inplace_relu bn_eps bn_mmt
  disable_pre_activation final_stage.

Lemma ResStage_init_run (tr : trace) :
  init tr =
  if unequal then (Raise (ValueError ResStage.unequal_length_message), tr ++ ["ResStage"])
  else
    match ResStage.make_temporal_kernel_sizes temporal_kernel_basis num_blocks
            (tr ++ ["ResStage"]) with
    | (Ok tks, tr1) =>
        match for_loop (pathway_body tks) 0 (length num_blocks) ∅ tr1 with
        | (Ok pws, tr2) =>
            (Ok (ResStage.mk stage_idx num_blocks (length num_blocks) tks pws), tr2)
        | (Raise e, tr2) => (Raise e, tr2)
        end
    | (Raise e, tr1) => (Raise e, tr1)
    end.
Proof.
  unfold init, ResStage.init. rewrite Build_bind_run. unfold alloc at 1.
  fold unequal. destruct unequal; reflexivity.
Qed.

(** A stage that was built has equal-length arguments, the cycled
    temporal kernel sizes, and the pathways of the loop. *)
Lemma ResStage_init_Ok (tr tr' : trace) (st : ResStage.t) :
  init tr = (Ok st, tr') ->
  stage_lengths_equal dim_in dim_out dim_inner temporal_kernel_basis
    temporal_conv_1x1 temporal_stride spatial_stride num_blocks num_groups /\
  exists pws tr1,
    let tks := zip_with cycled temporal_kernel_basis num_blocks in
    for_loop (pathway_body tks) 0 (length num_blocks) ∅ tr1 = (Ok pws, tr') /\
    st = ResStage.mk stage_idx num_blocks (length num_blocks) tks pws.
Proof.
  rewrite ResStage_init_run. destruct unequal eqn:Hun; [discriminate |].
  apply unequal_lengths_false in Hun. intros Hrun. split; [exact Hun |].
  rewrite make_temporal_kernel_sizes_run in Hrun
    by (unfold stage_lengths_equal in Hun; lia).
  destruct (@for_loop Build _ _ _ _ _ _ _ _) as [[pws|e] tr2] eqn:Hloop;
    [| discriminate].
  injection Hrun as <- <-. by exists pws, (tr ++ ["ResStage"]).
Qed.

(** The class object handed to the stage is never an instance of the
    pre-activated bottleneck class, so nothing is appended. *)
Lemma final_activation_run (p : nat) (blocks : list ResStage.seq_item) :
  ResStage.final_activation dim_out residual_transformation final_stage p blocks
  = mret blocks.
Proof.
  unfold ResStage.final_activation. simpl isinstance.
  by rewrite andb_false_r.
Qed.

Lemma block_body_appends (tks : list (list nat)) (p i : nat)
    (blocks blocks' : list ResStage.seq_item) (tr tr' : trace) :
  block_body tks p i blocks tr = (Ok blocks', tr') ->
  exists b, blocks' = blocks ++ [ResStage.Seq_ResBlock b].
Proof.
  unfold block_body, ResStage.block_body. intros Hrun. build_inv Hrun.
  apply mret_run in Hrun as [<- _]. eauto.
Qed.

Lemma block_loop_blocks (tks : list (list nat)) (p n : nat)
    (blocks : list ResStage.seq_item) (tr tr' : trace) :
  for_loop (block_body tks p) 0 n [] tr = (Ok blocks, tr') ->
  length blocks = n /\ Forall is_ResBlock blocks.
Proof.
  intros Hrun.
  apply (for_loop_Build_inv
           (fun i bs => length bs = i /\ Forall is_ResBlock bs)) in Hrun;
    [exact Hrun | | by split].
  intros i s tr0 s' tr0' [Hlen Hall] Hbody.
  apply block_body_appends in Hbody as [b ->]. split.
  - rewrite length_app. simpl. lia.
  - apply Forall_app. split; [done |]. constructor; [by exists b | constructor].
Qed.

Lemma pathway_body_inserts (tks : list (list nat)) (p : nat)
    (pws pws' : gmap string (list ResStage.seq_item)) (tr tr' : trace) :
  pathway_body tks p pws tr = (Ok pws', tr') ->
  exists n blocks,
    num_blocks !! p = Some n /\ length blocks = n /\ Forall is_ResBlock blocks /\
    pws' = <[ResStage._pathway_name p := blocks]> pws.
Proof.
  unfold pathway_body, ResStage.pathway_body. intros Hrun.
  apply Build_bind_Ok in Hrun as (n & tr1 & Hn & Hrun).
  apply Build_bind_Ok in Hrun as (blocks & tr2 & Hblocks & Hrun).
  apply Build_bind_Ok in Hrun as (blocks' & tr3 & Hfinal & Hrun).
  apply Build_bind_Ok in Hrun as (u & tr4 & _ & Hrun).
  apply mret_run in Hrun as [<- _].
  rewrite final_activation_run in Hfinal. apply mret_run in Hfinal as [<- _].
  apply block_loop_blocks in Hblocks as [Hlen Hall].
  unfold index, lift, getitem in Hn.
  destruct (num_blocks !! p) as [m|] eqn:Hm; [| discriminate].
  injection Hn as <- _. by exists m, blocks.
Qed.

#[local] Instance pathway_name_inj : Inj (=) (=) ResStage._pathway_name.
Proof.
  intros p q Hpq. unfold ResStage._pathway_name in Hpq.
  apply String.app_inj in Hpq. by apply pretty_nat_inj in Hpq.
Qed.

Lemma pathway_loop_pathways (tks : list (list nat)) (n : nat)
    (pws : gmap string (list ResStage.seq_item)) (tr tr' : trace) :
  for_loop (pathway_body tks) 0 n ∅ tr = (Ok pws, tr') ->
  (forall p, p < n ->
     exists blocks, pws !! ResStage._pathway_name p = Some blocks /\ pathway_ok num_blocks p blocks) /\
  (forall name blocks, pws !! name = Some blocks ->
     exists p, p < n /\ name = ResStage._pathway_name p /\ pathway_ok num_blocks p blocks).
Proof.
  intros Hrun.
  apply (for_loop_Build_inv (fun i (m : gmap string (list ResStage.seq_item)) =>
           (forall p, p < i ->
              exists blocks, m !! ResStage._pathway_name p = Some blocks
                             /\ pathway_ok num_blocks p blocks) /\
           (forall name blocks, m !! name = Some blocks ->
              exists p, p < i /\ name = ResStage._pathway_name p
                        /\ pathway_ok num_blocks p blocks))) in Hrun;
    [exact Hrun | |].
  - intros i m tr0 m' tr0' [Hall Honly] Hbody.
    apply pathway_body_inserts in Hbody as (k & blocks & Hk & Hlen & Hblocks & ->).
    assert (Hok : pathway_ok num_blocks i blocks) by (by exists k).
    split.
    + intros p Hp. destruct (decide (p = i)) as [->|Hne].
      * exists blocks. by rewrite lookup_insert_eq.
      * rewrite lookup_insert_ne by (intros Heq; by apply pathway_name_inj in Heq).
        apply Hall. lia.
    + intros name bs. destruct (decide (name = ResStage._pathway_name i)) as [->|Hne].
      * rewrite lookup_insert_eq. intros [= <-]. exists i. split; [lia | done].
      * rewrite lookup_insert_ne by done. intros Hlook.
        destruct (Honly _ _ Hlook) as (p & Hp & Hname & Hokp).
        exists p. split; [lia | done].
  - split; [lia |]. intros name blocks. by rewrite lookup_empty.
Qed.

End StageInit.

(** C3.  What the code does where the claim expects a trailing
    normalisation and activation: every stage that was built, also one
    built with [final_stage = true] and the pre-activated bottleneck class
    as its residual strategy, holds for every pathway exactly that
    pathway's residual blocks and nothing after them.  [isinstance] is
    asked of the class object itself, which is an instance of no residual
    class. *)
Theorem stage_pathways_hold_blocks_only
    (stage_idx : nat) (dim_in dim_out dim_inner : list nat)
    (temporal_kernel_basis : list (list nat)) (temporal_conv_1x1 : list bool)
    (temporal_stride spatial_stride num_blocks num_groups : list nat)
    (skip_transformation : skip_class) (residual_transformation : residual_class)
    (inplace_relu : bool) (bn_eps bn_mmt : Q)
    (disable_pre_activation final_stage : bool) (tr tr' : trace) (st : ResStage.t) :
  ResStage.init stage_idx dim_in dim_out dim_inner temporal_kernel_basis
    temporal_conv_1x1 temporal_stride spatial_stride num_blocks num_groups
    skip_transformation residual_transformation inplace_relu
    bn_eps bn_mmt disable_pre_activation final_stage tr = (Ok st, tr') ->
  forall p n, num_blocks !! p = Some n ->
    exists blocks,
      ResStage.pathways st !! ResStage._pathway_name p = Some blocks /\
      length blocks = n /\ Forall is_ResBlock blocks.
Proof.
  intros Hrun p n Hn.
  apply ResStage_init_Ok in Hrun as (_ & pws & tr1 & Hloop & ->).
  apply pathway_loop_pathways in Hloop as [Hall _].
  destruct (Hall p) as (blocks & Hlook & k & Hk & Hlen & Hblocks).
  { by apply lookup_lt_Some in Hn. }
  exists blocks. simpl. rewrite Hk in Hn. injection Hn as <-. done.
Qed.

Lemma final_preactivated_stage_witness :
  exists st blocks,
    construct preact_final_stage = Ok st /\
    ResStage.pathways st !! ResStage._pathway_name 0 = Some blocks /\
    length blocks = 3 /\ Forall is_ResBlock blocks.
Proof.
  destruct (preact_final_stage []) as [[st|e] tr'] eqn:Hrun.
  - assert (Hst : construct preact_final_stage = Ok st)
      by (unfold construct; by rewrite Hrun).
    unfold preact_final_stage in Hrun.
    destruct (stage_pathways_hold_blocks_only _ _ _ _ _ _ _ _ _ _ _ _ _ _ _
                _ _ _ _ _ Hrun 0 3 eq_refl) as (blocks & Hlook & Hlen & Hall).
    by exists st, blocks.
  - exfalso. vm_compute in Hrun. discriminate.
Defined.

(** C7.  For every pathway of a stage that was built, the per-block
    temporal kernel sizes are the basis repeated any number [k] of times
    that covers the blocks, cut to the first [num_blocks] entries. *)
Theorem temporal_kernel_sizes_cycle
    (stage_idx : nat) (dim_in dim_out dim_inner : list nat)
    (temporal_kernel_basis : list (list nat)) (temporal_conv_1x1 : list bool)
    (temporal_stride spatial_stride num_blocks num_groups : list nat)
    (skip_transformation : skip_class) (residual_transformation : residual_class)
    (inplace_relu : bool) (bn_eps bn_mmt : Q)
    (disable_pre_activation final_stage : bool) (tr tr' : trace) (st : ResStage.t)
    (p n k : nat) (basis : list nat) :
  ResStage.init stage_idx dim_in dim_out dim_inner temporal_kernel_basis
    temporal_conv_1x1 temporal_stride spatial_stride num_blocks num_groups
    skip_transformation residual_transformation inplace_relu bn_eps bn_mmt
    disable_pre_activation final_stage tr = (Ok st, tr') ->
  temporal_kernel_basis !! p = Some basis ->
  num_blocks !! p = Some n ->
  n <= k * length basis ->
  ResStage.temporal_kernel_sizes st !! p = Some (take n (list_mul basis k)).
Proof.
  intros Hrun Hbasis Hn Hk.
  apply ResStage_init_Ok in Hrun as (_ & pws & tr1 & _ & ->). simpl.
  rewrite lookup_zip_with, Hbasis. simpl. rewrite Hn. simpl.
  f_equal. unfold cycled. apply take_list_mul; [| done].
  destruct basis as [|b basis]; simpl in *; [lia | nia].
Qed.

Lemma temporal_kernel_sizes_cycle_witness :
  exists st, construct stage_3_1_5 = Ok st /\
             ResStage.temporal_kernel_sizes st !! 0 = Some [3; 1; 3; 1; 3].
Proof.
  destruct (stage_3_1_5 []) as [[st|e] tr'] eqn:Hrun.
  - exists st. split; [unfold construct; by rewrite Hrun |].
    clear -Hrun. unfold stage_3_1_5 in Hrun.
    apply (temporal_kernel_sizes_cycle _ _ _ _ _ _ _ _ _ _ _ _ _ _ _ _ _ _ _ _
             0 5 3 [3; 1] Hrun); [reflexivity | reflexivity | simpl; lia].
  - exfalso. vm_compute in Hrun. discriminate.
Defined.

(** ** What the constructors can raise *)

Lemma raises_only_weaken {A : Type} (P R : exn -> Prop) (c : Build A) :
  (forall e, P e -> R e) -> raises_only P c -> raises_only R c.
Proof. intros HPR Hc tr e tr' Hrun. apply HPR. exact (Hc _ _ _ Hrun). Qed.

Lemma nn_Conv3d_raises (cin cout : nat) (k st pad : triple) (grp : nat) (bias : bool) :
  raises_only layer_error (nn.Conv3d cin cout k st pad grp bias).
Proof.
  unfold nn.Conv3d. apply raises_only_bind; [apply raises_only_alloc | intros _].
  repeat apply raises_only_if;
    first [ apply raises_only_mret | apply raises_only_raise; constructor ].
Qed.

Lemma nn_BatchNorm3d_raises (P : exn -> Prop) (n : nat) (e m : Q) :
  raises_only P (nn.BatchNorm3d n e m).
Proof.
  unfold nn.BatchNorm3d.
  apply raises_only_bind; [apply raises_only_alloc | intros _; apply raises_only_mret].
Qed.

Lemma nn_ReLU_raises (P : exn -> Prop) (i : bool) : raises_only P (nn.ReLU i).
Proof.
  unfold nn.ReLU.
  apply raises_only_bind; [apply raises_only_alloc | intros _; apply raises_only_mret].
Qed.

Lemma nn_Identity_raises (P : exn -> Prop) : raises_only P nn.Identity.
Proof.
  unfold nn.Identity.
  apply raises_only_bind; [apply raises_only_alloc | intros _; apply raises_only_mret].
Qed.

(** One step of the routine argument: a bind, a branch, or a constructor
    whose exceptions are known. *)
Ltac raises_step :=
  lazymatch goal with
  | |- raises_only _ (mret _) => apply raises_only_mret
  | |- raises_only _ (alloc _) => apply raises_only_alloc
  | |- raises_only _ (nn.Conv3d _ _ _ _ _ _ _) => apply nn_Conv3d_raises
  | |- raises_only _ (nn.BatchNorm3d _ _ _) => apply nn_BatchNorm3d_raises
  | |- raises_only _ (nn.ReLU _) => apply nn_ReLU_raises
  | |- raises_only _ nn.Identity => apply nn_Identity_raises
  | |- raises_only _ (index _ _) => apply raises_only_index; constructor
  | |- raises_only _ (_ <$> _) => apply raises_only_fmap
  | |- raises_only _ (if _ then _ else _) => apply raises_only_if
  | |- raises_only _ (_ ≫= _) => apply raises_only_bind; [| intros ?]
  end.

Ltac raises_auto := repeat raises_step.

Lemma PostactivatedBottleneckTransformation_raises
    (dim_in dim_out ts ss grp dim_inner k : nat) (c1 s1 ir : bool) (e m : Q) :
  raises_only layer_error
    (PostactivatedBottleneckTransformation.init dim_in dim_out ts ss grp dim_inner k
       c1 s1 ir e m).
Proof. unfold PostactivatedBottleneckTransformation.init. raises_auto. Qed.

Lemma PreactivatedBottleneckTransformation_raises
    (dim_in dim_out ts ss grp dim_inner k : nat) (c1 s1 ir : bool) (e m : Q)
    (disable : bool) :
  raises_only layer_error
    (PreactivatedBottleneckTransformation.init dim_in dim_out ts ss grp dim_inner k
       c1 s1 ir e m disable).
Proof. unfold PreactivatedBottleneckTransformation.init. raises_auto. Qed.

Lemma projection_needed_false (dim_in dim_out ts ss : nat) :
  projection_needed dim_in dim_out ts ss = false <->
  dim_in = dim_out /\ ss = 1 /\ ts = 1.
Proof.
  unfold projection_needed.
  destruct (Nat.eqb_spec dim_in dim_out), (Nat.eqb_spec ss 1), (Nat.eqb_spec ts 1);
    simpl; split; intros; try discriminate; try done; tauto.
Qed.

Lemma assert_true_raises (P : exn -> Prop) (b : bool) :
  b = true -> raises_only P (assert b).
Proof. intros ->. apply raises_only_mret. Qed.

Lemma PostactivatedShortcutTransformation_raises (dim_in dim_out ts ss : nat) (e m : Q) :
  projection_needed dim_in dim_out ts ss = true ->
  raises_only layer_error
    (PostactivatedShortcutTransformation.init dim_in dim_out ts ss e m).
Proof.
  intros Hneed. unfold PostactivatedShortcutTransformation.init.
  apply raises_only_bind; [apply raises_only_alloc | intros _].
  apply raises_only_bind; [by apply assert_true_raises | intros _].
  raises_auto.
Qed.

Lemma PreactivatedShortcutTransformation_raises (dim_in dim_out ts ss : nat)
    (ir : bool) (e m : Q) (disable : bool) :
  projection_needed dim_in dim_out ts ss = true ->
  raises_only layer_error
    (PreactivatedShortcutTransformation.init dim_in dim_out ts ss ir e m disable).
Proof.
  intros Hneed. unfold PreactivatedShortcutTransformation.init.
  apply raises_only_bind; [apply raises_only_alloc | intros _].
  apply raises_only_bind; [by apply assert_true_raises | intros _].
  raises_auto.
Qed.

Lemma ResBlock_init_raises (dim_in dim_out dim_inner k : nat) (c1 : bool)
    (ts ss : nat) (sk : skip_class) (rs : residual_class) (grp : nat) (ir : bool)
    (e m : Q) (disable : bool) :
  raises_only layer_error
    (ResBlock.init dim_in dim_out dim_inner k c1 ts ss sk rs grp ir e m disable).
Proof.
  unfold ResBlock.init. fold (projection_needed dim_in dim_out ts ss).
  apply raises_only_bind; [apply raises_only_alloc | intros _].
  apply raises_only_bind; [| intros ?].
  - destruct (projection_needed dim_in dim_out ts ss) eqn:Hneed.
    + destruct sk; simpl; apply raises_only_fmap.
      * by apply PostactivatedShortcutTransformation_raises.
      * by apply PreactivatedShortcutTransformation_raises.
    + raises_auto.
  - apply raises_only_bind; [| intros ?; raises_auto].
    destruct rs; simpl; apply raises_only_fmap.
    + apply PostactivatedBottleneckTransformation_raises.
    + apply PreactivatedBottleneckTransformation_raises.
Qed.

Lemma make_temporal_kernel_sizes_raises (tkb : list (list nat)) (nb : list nat) :
  raises_only layer_error (ResStage.make_temporal_kernel_sizes tkb nb).
Proof.
  unfold ResStage.make_temporal_kernel_sizes.
  apply raises_only_for_loop. intros i acc. raises_auto.
Qed.

Lemma ResStage_block_body_raises (dim_in dim_out dim_inner : list nat)
    (c1 : list bool) (ts ss grp : list nat) (sk : skip_class) (rs : residual_class)
    (ir : bool) (e m : Q) (disable : bool) (tks : list (list nat)) (p i : nat)
    (blocks : list ResStage.seq_item) :
  raises_only layer_error
    (ResStage.block_body dim_in dim_out dim_inner c1 ts ss grp sk rs ir e m disable
       tks p i blocks).
Proof.
  unfold ResStage.block_body. repeat (raises_step; try apply ResBlock_init_raises).
Qed.

Lemma ResStage_pathway_body_raises (dim_in dim_out dim_inner : list nat)
    (c1 : list bool) (ts ss nb grp : list nat) (sk : skip_class) (rs : residual_class)
    (ir : bool) (e m : Q) (disable final : bool) (tks : list (list nat)) (p : nat)
    (pws : gmap string (list ResStage.seq_item)) :
  raises_only layer_error
    (ResStage.pathway_body dim_in dim_out dim_inner c1 ts ss nb grp sk rs ir e m
       disable final tks p pws).
Proof.
  unfold ResStage.pathway_body.
  raises_step; [raises_auto |].
  raises_step.
  { apply raises_only_for_loop. intros i blocks. apply ResStage_block_body_raises. }
  raises_step; [| raises_auto].
  rewrite final_activation_run. raises_auto.
Qed.

Lemma ResStage_init_raises (stage_idx : nat) (dim_in dim_out dim_inner : list nat)
    (tkb : list (list nat)) (c1 : list bool) (ts ss nb grp : list nat)
    (sk : skip_class) (rs : residual_class) (ir : bool) (e m : Q)
    (disable final : bool) :
  raises_only
    (fun x => layer_error x \/
              (x = ValueError ResStage.unequal_length_message /\
               ~ stage_lengths_equal dim_in dim_out dim_inner tkb c1 ts ss nb grp))
    (ResStage.init stage_idx dim_in dim_out dim_inner tkb c1 ts ss nb grp sk rs ir
       e m disable final).
Proof.
  unfold ResStage.init. raises_step; [raises_auto |].
  destruct (ResStage.unequal_lengths _ _ _ _ _ _ _ _ _) eqn:Hun.
  - apply raises_only_raise. right. split; [done |]. by apply unequal_lengths_true.
  - apply (raises_only_weaken layer_error); [by left |].
    raises_step; [apply make_temporal_kernel_sizes_raises |].
    raises_step; [| raises_auto].
    apply raises_only_for_loop. intros p pws. apply ResStage_pathway_body_raises.
Qed.

Lemma layer_error_not_assertion (e : exn) : layer_error e -> e <> AssertionError.
Proof. by destruct 1. Qed.

Lemma layer_error_not_stage_message (e : exn) :
  layer_error e -> e <> ValueError ResStage.unequal_length_message.
Proof. by destruct 1. Qed.

Lemma layer_error_not_stem_message (e : exn) :
  layer_error e -> e <> ValueError ResNeXt3DStemMultiPathway.unequal_length_message.
Proof. by destruct 1. Qed.

(** The outcome of a constructor, whatever the trace it starts from. *)
Lemma raises_only_fst {A : Type} (P : exn -> Prop) (c : Build A) (tr : trace) (e : exn) :
  raises_only P c -> fst (c tr) = Raise e -> P e.
Proof.
  intros Hc Hfst. destruct (c tr) as [r tr'] eqn:Hrun. simpl in Hfst. subst r.
  exact (Hc _ _ _ Hrun).
Qed.

(** C9.  Each skip constructor fails its assertion exactly when no
    projection is needed; a residual block, which calls the constructor
    only under that very condition, never raises the assertion error, and
    so neither does a stage, whose blocks it builds. *)
Theorem skip_assertion_unreachable_from_ResStage :
  (forall dim_in dim_out ts ss bn_eps bn_mmt tr,
     fst (PostactivatedShortcutTransformation.init dim_in dim_out ts ss bn_eps bn_mmt tr)
       = Raise AssertionError
     <-> (dim_in = dim_out /\ ss = 1 /\ ts = 1)) /\
  (forall dim_in dim_out ts ss inplace_relu bn_eps bn_mmt disable tr,
     fst (PreactivatedShortcutTransformation.init dim_in dim_out ts ss inplace_relu
            bn_eps bn_mmt disable tr) = Raise AssertionError
     <-> (dim_in = dim_out /\ ss = 1 /\ ts = 1)) /\
  (forall dim_in dim_out dim_inner k c1 ts ss sk rs grp inplace_relu bn_eps bn_mmt
          disable tr,
     fst (ResBlock.init dim_in dim_out dim_inner k c1 ts ss sk rs grp inplace_relu
            bn_eps bn_mmt disable tr) <> Raise AssertionError) /\
  (forall stage_idx dim_in dim_out dim_inner tkb c1 ts ss nb grp sk rs inplace_relu
          bn_eps bn_mmt disable final tr,
     fst (ResStage.init stage_idx dim_in dim_out dim_inner tkb c1 ts ss nb grp sk rs
            inplace_relu bn_eps bn_mmt disable final tr) <> Raise AssertionError).
Proof.
  split; [| split; [| split]].
  - intros dim_in dim_out ts ss bn_eps bn_mmt tr. split.
    + intros Hfst. apply projection_needed_false.
      destruct (projection_needed dim_in dim_out ts ss) eqn:Hneed; [| done].
      apply (raises_only_fst layer_error) in Hfst;
        [by apply layer_error_not_assertion in Hfst
        | by apply PostactivatedShortcutTransformation_raises].
    + intros Hno%projection_needed_false.
      unfold PostactivatedShortcutTransformation.init.
      fold (projection_needed dim_in dim_out ts ss).
      rewrite !Build_bind_run. unfold alloc. by rewrite Hno.
  - intros dim_in dim_out ts ss inplace_relu bn_eps bn_mmt disable tr. split.
    + intros Hfst. apply projection_needed_false.
      destruct (projection_needed dim_in dim_out ts ss) eqn:Hneed; [| done].
      apply (raises_only_fst layer_error) in Hfst;
        [by apply layer_error_not_assertion in Hfst
        | by apply PreactivatedShortcutTransformation_raises].
    + intros Hno%projection_needed_false.
      unfold PreactivatedShortcutTransformation.init.
      fold (projection_needed dim_in dim_out ts ss).
      rewrite !Build_bind_run. unfold alloc. by rewrite Hno.
  - intros dim_in dim_out dim_inner k c1 ts ss sk rs grp inplace_relu bn_eps bn_mmt
      disable tr Hfst.
    apply (raises_only_fst layer_error) in Hfst; [| apply ResBlock_init_raises].
    by apply layer_error_not_assertion in Hfst.
  - intros stage_idx dim_in dim_out dim_inner tkb c1 ts ss nb grp sk rs inplace_relu
      bn_eps bn_mmt disable final tr Hfst.
    eapply raises_only_fst in Hfst; [| apply ResStage_init_raises].
    destruct Hfst as [Herr | [Herr _]]; [| discriminate].
    by apply layer_error_not_assertion in Herr.
Qed.

(** ** The length validation of the multi-pathway stem *)

Lemma stem_unequal_lengths_false (dim_in dim_out : list nat)
    (kernel stride padding : list triple) :
  ResNeXt3DStemMultiPathway.unequal_lengths dim_in dim_out kernel stride padding = false
  <-> stem_lengths_equal dim_in dim_out kernel stride padding.
Proof.
  unfold ResNeXt3DStemMultiPathway.unequal_lengths, stem_lengths_equal.
  rewrite !orb_false_iff, !negb_false_iff, !Nat.eqb_eq. intuition congruence.
Qed.

Lemma ResNeXt3DStemSinglePathway_raises (dim_in dim_out : nat) (k st pad : triple)
    (maxpool ir : bool) (e m : Q) :
  raises_only layer_error
    (ResNeXt3DStemSinglePathway.init dim_in dim_out k st pad maxpool ir e m).
Proof. unfold ResNeXt3DStemSinglePathway.init. raises_auto. Qed.

Lemma ResNeXt3DStemMultiPathway_raises (dim_in dim_out : list nat)
    (kernel stride padding : list triple) (ir : bool) (e m : Q) :
  raises_only
    (fun x => layer_error x \/
              (x = ValueError ResNeXt3DStemMultiPathway.unequal_length_message /\
               ~ stem_lengths_equal dim_in dim_out kernel stride padding))
    (ResNeXt3DStemMultiPathway.init dim_in dim_out kernel stride padding ir e m).
Proof.
  unfold ResNeXt3DStemMultiPathway.init. raises_step; [raises_auto |].
  destruct (ResNeXt3DStemMultiPathway.unequal_lengths _ _ _ _ _) eqn:Hun.
  - apply raises_only_raise. right. split; [done |].
    rewrite <- stem_unequal_lengths_false. by rewrite Hun.
  - apply (raises_only_weaken layer_error); [by left |].
    raises_step; [| raises_auto].
    apply raises_only_for_loop. intros p blocks.
    unfold ResNeXt3DStemMultiPathway.stem_body.
    repeat (raises_step; try apply ResNeXt3DStemSinglePathway_raises).
Qed.

(** C8.  With per-pathway lists of unequal lengths, the constructor of a
    stage and that of a multi-pathway stem raise their [ValueError] with
    nothing allocated but the object under construction itself: no block,
    no single-pathway stem, no layer.  With lists of equal lengths that
    error is not raised. *)
Theorem unequal_lengths_rejected_before_allocation :
  (forall stage_idx dim_in dim_out dim_inner tkb c1 ts ss nb grp sk rs inplace_relu
          bn_eps bn_mmt disable final tr,
     (~ stage_lengths_equal dim_in dim_out dim_inner tkb c1 ts ss nb grp ->
      ResStage.init stage_idx dim_in dim_out dim_inner tkb c1 ts ss nb grp sk rs
        inplace_relu bn_eps bn_mmt disable final tr
      = (Raise (ValueError ResStage.unequal_length_message), tr ++ ["ResStage"])) /\
     (stage_lengths_equal dim_in dim_out dim_inner tkb c1 ts ss nb grp ->
      fst (ResStage.init stage_idx dim_in dim_out dim_inner tkb c1 ts ss nb grp sk rs
             inplace_relu bn_eps bn_mmt disable final tr)
      <> Raise (ValueError ResStage.unequal_length_message))) /\
  (forall dim_in dim_out kernel stride padding inplace_relu bn_eps bn_mmt tr,
     (~ stem_lengths_equal dim_in dim_out kernel stride padding ->
      ResNeXt3DStemMultiPathway.init dim_in dim_out kernel stride padding inplace_relu
        bn_eps bn_mmt tr
      = (Raise (ValueError ResNeXt3DStemMultiPathway.unequal_length_message),
         tr ++ ["ResNeXt3DStemMultiPathway"])) /\
     (stem_lengths_equal dim_in dim_out kernel stride padding ->
      fst (ResNeXt3DStemMultiPathway.init dim_in dim_out kernel stride padding
             inplace_relu bn_eps bn_mmt tr)
      <> Raise (ValueError ResNeXt3DStemMultiPathway.unequal_length_message))).
Proof.
  split.
  - intros stage_idx dim_in dim_out dim_inner tkb c1 ts ss nb grp sk rs inplace_relu
      bn_eps bn_mmt disable final tr. split.
    + intros Hne%unequal_lengths_true. rewrite ResStage_init_run. by rewrite Hne.
    + intros Heq Hfst.
      eapply raises_only_fst in Hfst; [| apply ResStage_init_raises].
      destruct Hfst as [Herr | [_ Hne]]; [| done].
      by apply layer_error_not_stage_message in Herr.
  - intros dim_in dim_out kernel stride padding inplace_relu bn_eps bn_mmt tr. split.
    + intros Hne. unfold ResNeXt3DStemMultiPathway.init.
      rewrite Build_bind_run. unfold alloc.
      destruct (ResNeXt3DStemMultiPathway.unequal_lengths _ _ _ _ _) eqn:Hun; [done |].
      by apply stem_unequal_lengths_false in Hun.
    + intros Heq Hfst.
      eapply raises_only_fst in Hfst; [| apply ResNeXt3DStemMultiPathway_raises].
      destruct Hfst as [Herr | [_ Hne]]; [| done].
      by apply layer_error_not_stem_message in Herr.
Qed.

Lemma unequal_lengths_rejected_witness :
  ResStage.init 1 [64] [256; 512] [64] [[3]] [true] [1] [1] [3] [1]
    PreactivatedShortcutTransformation_cls PreactivatedBottleneckTransformation_cls
    true default_bn_eps default_bn_mmt true false []
  = (Raise (ValueError ResStage.unequal_length_message), ["ResStage"]) /\
  ResNeXt3DStemMultiPathway.init [3] [64; 64] [(5, 7, 7)] [(1, 2, 2)] [(2, 3, 3)]
    true default_bn_eps default_bn_mmt []
  = (Raise (ValueError ResNeXt3DStemMultiPathway.unequal_length_message),
     ["ResNeXt3DStemMultiPathway"]).
Proof.
  split.
  - apply (proj1 (proj1 unequal_lengths_rejected_before_allocation
                    1 [64] [256; 512] [64] [[3]] [true] [1] [1] [3] [1]
                    PreactivatedShortcutTransformation_cls
                    PreactivatedBottleneckTransformation_cls
                    true default_bn_eps default_bn_mmt true false [])).
    unfold stage_lengths_equal. simpl. lia.
  - apply (proj1 (proj2 unequal_lengths_rejected_before_allocation
                    [3] [64; 64] [(5, 7, 7)] [(1, 2, 2)] [(2, 3, 3)]
                    true default_bn_eps default_bn_mmt [])).
    unfold stem_lengths_equal. simpl. lia.
Defined.

(** ** Initialisation of the head *)

Lemma FullyConvolutionalLinearHead_init_Ok (num_classes in_plane : nat)
    (pool_size : option triple) (use_dropout : option bool) (ratio : Q)
    (tr tr' : trace) (h : FullyConvolutionalLinearHead.t) :
  FullyConvolutionalLinearHead.init num_classes in_plane pool_size use_dropout ratio tr
    = (Ok h, tr') ->
  FullyConvolutionalLinearHead.head_fcl h
    = FullyConvolutionalLinear.mk
        (mkLinear in_plane num_classes default_init default_init) 4 /\
  FullyConvolutionalLinearHead.final_avgpool h
    = match pool_size with
      | Some ps => FullyConvolutionalLinearHead.AvgPool3d ps (_triple 1)
      | None => FullyConvolutionalLinearHead.AdaptiveAvgPool3d (1, 1, 1)
      end /\
  FullyConvolutionalLinearHead.dropout_layer h
    = match use_dropout with Some true => Some ratio | _ => None end.
Proof.
  unfold FullyConvolutionalLinearHead.init. intros Hrun.
  apply Build_bind_Ok in Hrun as (u & tr1 & _ & Hrun).
  apply Build_bind_Ok in Hrun as (pool & tr2 & Hpool & Hrun).
  apply Build_bind_Ok in Hrun as (drop & tr3 & Hdrop & Hrun).
  apply Build_bind_Ok in Hrun as (fcl & tr4 & Hfcl & Hrun).
  apply mret_run in Hrun as [<- _]. simpl.
  split; [| split].
  - unfold FullyConvolutionalLinear.init, nn.Linear in Hfcl.
    rewrite !Build_bind_run in Hfcl. unfold alloc in Hfcl. simpl in Hfcl.
    by injection Hfcl as <- _.
  - destruct pool_size; rewrite Build_bind_run in Hpool; unfold alloc in Hpool;
      by injection Hpool as <- _.
  - destruct use_dropout as [[|]|];
      [rewrite Build_bind_run in Hdrop; unfold alloc in Hdrop | |];
      by injection Hdrop as <- _.
Qed.

Lemma ResNeXt3D_init_Ok (kw : ResNeXt3D.kwargs) (tr tr' : trace) (m : ResNeXt3D.t) :
  ResNeXt3D.init kw tr = (Ok m, tr') ->
  exists stem stages h tr1 tr2 tr3,
    ResNeXt3DStem.init (ResNeXt3D.stem_temporal_kernel kw)
      (ResNeXt3D.stem_spatial_kernel kw) (ResNeXt3D.input_planes kw)
      (ResNeXt3D.stem_planes kw) (ResNeXt3D.stem_maxpool kw) (tr ++ ["ResNeXt3D"])
      = (Ok stem, tr1) /\
    for_loop (ResNeXt3D.stage_body kw) 0 (length (ResNeXt3D.num_blocks kw)) [] tr1
      = (Ok stages, tr2) /\
    FullyConvolutionalLinearHead.init (ResNeXt3D.num_classes kw) 2048
      (ResNeXt3D.head_pool_size kw) (Some true) (1 # 2) tr3 = (Ok h, tr') /\
    m = ResNeXt3D.set_head
          (ResNeXt3D._init_parameter
             (ResNeXt3D.mk (ResNeXt3D.input_planes kw) (ResNeXt3D.clip_crop_size kw)
                (ResNeXt3D.frames_per_clip kw) (ResNeXt3D.num_blocks kw) stem stages
                None)
             (ResNeXt3D.zero_init_residual_transform kw)) h.
Proof.
  unfold ResNeXt3D.init. intros Hrun.
  apply Build_bind_Ok in Hrun as (u & tr0 & Halloc & Hrun).
  injection Halloc as _ <-.
  apply Build_bind_Ok in Hrun as (stem & tr1 & Hstem & Hrun).
  apply Build_bind_Ok in Hrun as (stages & tr2 & Hstages & Hrun).
  apply Build_bind_Ok in Hrun as (u' & tr3 & _ & Hrun).
  apply Build_bind_Ok in Hrun as (h & tr4 & Hhead & Hrun).
  apply mret_run in Hrun as [<- <-].
  by exists stem, stages, h, tr1, tr2, tr3.
Qed.

(** C4.  What the code does where the claim expects the initialisation
    policy on the head: [_init_parameter] runs before [self.head] is
    assigned, so the linear layer of the head of every constructed model
    still carries the initialisation of [nn.Linear] itself, for its weight
    and for its bias, not [normal_(std=0.01)] and [constant_(0)]. *)
Theorem head_linear_not_initialized (kw : ResNeXt3D.kwargs) (tr tr' : trace)
    (m : ResNeXt3D.t) :
  ResNeXt3D.init kw tr = (Ok m, tr') ->
  exists h,
    ResNeXt3D.head m = Some h /\
    let fc := FullyConvolutionalLinear.projection
                (FullyConvolutionalLinearHead.head_fcl h) in
    lin_weight fc = default_init /\ lin_bias fc = default_init /\
    fc <> ResNeXt3D.init_linear fc.
Proof.
  intros Hrun.
  apply ResNeXt3D_init_Ok in Hrun
    as (stem & stages & h & tr1 & tr2 & tr3 & _ & _ & Hhead & ->).
  apply FullyConvolutionalLinearHead_init_Ok in Hhead as (Hfcl & _ & _).
  exists h. simpl. rewrite Hfcl. simpl. by repeat split.
Qed.

Lemma head_linear_not_initialized_witness :
  exists m h,
    construct (resnext3d_preact_i3d50 None) = Ok m /\
    ResNeXt3D.head m = Some h /\
    FullyConvolutionalLinear.projection (FullyConvolutionalLinearHead.head_fcl h)
      = mkLinear 2048 400 default_init default_init.
Proof.
  destruct (resnext3d_preact_i3d50 None []) as [[m|e] tr'] eqn:Hrun.
  - assert (Hm : construct (resnext3d_preact_i3d50 None) = Ok m)
      by (unfold construct; by rewrite Hrun).
    destruct (head_linear_not_initialized _ _ _ _ Hrun) as (h & Hh & Hw & Hb & _).
    exists m, h. split; [done |]. split; [done |].
    unfold resnext3d_preact_i3d50 in Hrun.
    apply ResNeXt3D_init_Ok in Hrun
      as (stem & stages & h' & tr1 & tr2 & tr3 & _ & _ & Hhead & ->).
    apply FullyConvolutionalLinearHead_init_Ok in Hhead as (Hfcl & _ & _).
    simpl in Hh. injection Hh as ->. by rewrite Hfcl.
  - exfalso. vm_compute in Hrun. discriminate.
Defined.

(** C2.  What the code does where the claim expects shape (1, 400): the
    forward pass of the post-activated reference model on an input of
    shape (1, 3, 8, 224, 224) stops in the first residual block, whose
    diagnostic reads the attribute [stride] of its post-activated skip
    module, an attribute that class never sets. *)
Theorem postact_i3d50_forward_raises (num_classes : option nat) (training : bool) :
  forward_shape (resnext3d_postact_i3d50 num_classes) training [1; 3; 8; 224; 224]
  = Raise (AttributeError "PostactivatedShortcutTransformation" "stride").
Proof. destruct training; vm_compute; reflexivity. Qed.

(** ** Residual blocks *)

Lemma Build_fmap_Ok {A B : Type} (m : Build A) (f : A -> B) (tr tr' : trace) (b : B) :
  (f <$> m) tr = (Ok b, tr') -> exists a, m tr = (Ok a, tr') /\ b = f a.
Proof.
  rewrite Build_fmap_run. destruct (m tr) as [[a|e] tr1]; [| discriminate].
  intros [= <- <-]. by exists a.
Qed.

Lemma nn_ReLU_Ok (inplace : bool) (tr tr' : trace) (l : Layer) :
  nn.ReLU inplace tr = (Ok l, tr') -> l = L_ReLU inplace.
Proof. by intros [= <- _]. Qed.

(** A block that was built: its skip module is an identity exactly when
    no projection is needed, otherwise an instance of the skip strategy;
    its residual module is an instance of the residual strategy. *)
Lemma ResBlock_init_Ok (dim_in dim_out dim_inner k : nat) (c1 : bool) (ts ss : nat)
    (sk : skip_class) (rs : residual_class) (grp : nat) (ir : bool) (e m : Q)
    (disable : bool) (tr tr' : trace) (blk : ResBlock.t) :
  ResBlock.init dim_in dim_out dim_inner k c1 ts ss sk rs grp ir e m disable tr
    = (Ok blk, tr') ->
  exists tr1 tr2 tr3,
    (if projection_needed dim_in dim_out ts ss
     then match sk with
          | PostactivatedShortcutTransformation_cls =>
              exists pm, PostactivatedShortcutTransformation.init dim_in dim_out ts ss
                           e m tr1 = (Ok pm, tr2)
                         /\ ResBlock.skip blk = ResBlock.Skip_Postactivated pm
          | PreactivatedShortcutTransformation_cls =>
              exists pm, PreactivatedShortcutTransformation.init dim_in dim_out ts ss
                           true e m disable tr1 = (Ok pm, tr2)
                         /\ ResBlock.skip blk = ResBlock.Skip_Preactivated pm
          end
     else ResBlock.skip blk = ResBlock.Skip_Identity) /\
    match rs with
    | PostactivatedBottleneckTransformation_cls =>
        exists rm, PostactivatedBottleneckTransformation.init dim_in dim_out ts ss grp
                     dim_inner k c1 false true default_bn_eps default_bn_mmt tr2
                   = (Ok rm, tr3)
                   /\ ResBlock.residual blk = ResBlock.Residual_Postactivated rm
    | PreactivatedBottleneckTransformation_cls =>
        exists rm, PreactivatedBottleneckTransformation.init dim_in dim_out ts ss grp
                     dim_inner k c1 false true default_bn_eps default_bn_mmt disable tr2
                   = (Ok rm, tr3)
                   /\ ResBlock.residual blk = ResBlock.Residual_Preactivated rm
    end /\
    ResBlock.relu_layer blk = L_ReLU ir.
Proof.
  unfold ResBlock.init. fold (projection_needed dim_in dim_out ts ss). intros Hrun.
  apply Build_bind_Ok in Hrun as (u & tr1 & Halloc & Hrun).
  apply Build_bind_Ok in Hrun as (skm & tr2 & Hskip & Hrun).
  apply Build_bind_Ok in Hrun as (rsm & tr3 & Hres & Hrun).
  apply Build_bind_Ok in Hrun as (act & tr4 & Hact & Hrun).
  apply mret_run in Hrun as [<- _]. apply nn_ReLU_Ok in Hact as ->. simpl.
  exists tr1, tr2, tr3. split; [| split; [| done]].
  - destruct (projection_needed dim_in dim_out ts ss).
    + destruct sk; simpl in Hskip; apply Build_fmap_Ok in Hskip as (pm & Hpm & ->);
        by exists pm.
    + rewrite Build_bind_run in Hskip. by injection Hskip as <- _.
  - destruct rs; simpl in Hres; apply Build_fmap_Ok in Hres as (rm & Hrm & ->);
      by exists rm.
Qed.

(** C5.  In every block that was built, the skip path is a projection
    module exactly when the channel counts differ or a stride is not 1, and
    the identity otherwise; without channel or stride change the forward
    pass is activation(residual(x) + x), for any tensor primitives whose
    addition commutes. *)
Theorem ResBlock_skip_rule (dim_in dim_out dim_inner k : nat) (c1 : bool) (ts ss : nat)
    (sk : skip_class) (rs : residual_class) (grp : nat) (ir : bool) (e m : Q)
    (disable : bool) (tr tr' : trace) (blk : ResBlock.t) :
  ResBlock.init dim_in dim_out dim_inner k c1 ts ss sk rs grp ir e m disable tr
    = (Ok blk, tr') ->
  (is_projection (ResBlock.skip blk) <-> (dim_in <> dim_out \/ ts <> 1 \/ ss <> 1)) /\
  (ResBlock.skip blk = ResBlock.Skip_Identity <-> (dim_in = dim_out /\ ts = 1 /\ ss = 1)) /\
  (dim_in = dim_out -> ts = 1 -> ss = 1 ->
   forall (T : Type) (ops : BackboneOps T),
     (forall a b : T, add a b = add b a) ->
     forall (training : bool) (x : T),
       ResBlock.forward blk training x =
       (r ← ResBlock.residual_forward (ResBlock.residual blk) training x;
        y ← add r x;
        Ok (relu y))).
Proof.
  intros Hrun.
  apply ResBlock_init_Ok in Hrun as (tr1 & tr2 & tr3 & Hskip & _ & Hrelu).
  destruct (projection_needed dim_in dim_out ts ss) eqn:Hneed.
  - assert (Hproj : is_projection (ResBlock.skip blk)).
    { destruct sk, Hskip as (pm & _ & ->); exact I. }
    assert (Hdiff : ~ (dim_in = dim_out /\ ss = 1 /\ ts = 1)).
    { rewrite <- projection_needed_false. by rewrite Hneed. }
    split; [| split].
    + split; [intros _; lia | done].
    + split; [| intros (-> & -> & ->); tauto].
      intros Hid. rewrite Hid in Hproj. destruct Hproj.
    + intros -> -> ->. tauto.
  - apply projection_needed_false in Hneed as (-> & -> & ->).
    split; [| split].
    + rewrite Hskip. simpl. split; [done | lia].
    + by rewrite Hskip.
    + intros _ _ _ T ops Hcomm training x.
      unfold ResBlock.forward. rewrite Hskip, Hrelu. simpl.
      destruct (ResBlock.residual_forward _ _ _) as [r|err]; [| done].
      simpl. rewrite (Hcomm x r). by destruct (add r x).
Qed.

Lemma broadcast_rev_comm (a b : list nat) :
  Shape.broadcast_rev a b = Shape.broadcast_rev b a.
Proof.
  revert b. induction a as [|m a IH]; intros [|n b]; simpl; try reflexivity.
  rewrite IH. destruct (Shape.broadcast_rev b a) as [r|e]; simpl; [| done].
  destruct (Nat.eqb_spec m n) as [->|Hmn].
  - by rewrite Nat.eqb_refl.
  - destruct (Nat.eqb_spec n m) as [->|_]; [done |].
    destruct (Nat.eqb_spec m 1) as [->|Hm], (Nat.eqb_spec n 1) as [->|Hn];
      done.
Qed.

Lemma Shape_add_comm (a b : list nat) : Shape.add a b = Shape.add b a.
Proof. unfold Shape.add. by rewrite broadcast_rev_comm. Qed.

Lemma ResBlock_skip_rule_witness :
  exists blk,
    construct identity_block = Ok blk /\
    ResBlock.skip blk = ResBlock.Skip_Identity /\
    ResBlock.forward blk true [1; 256; 8; 56; 56] =
    (r ← ResBlock.residual_forward (ResBlock.residual blk) true [1; 256; 8; 56; 56];
     y ← add r [1; 256; 8; 56; 56];
     Ok (relu y)).
Proof.
  destruct (identity_block []) as [[blk|e] tr'] eqn:Hrun.
  - exists blk. split; [unfold construct; by rewrite Hrun |].
    unfold identity_block in Hrun.
    destruct (ResBlock_skip_rule _ _ _ _ _ _ _ _ _ _ _ _ _ _ _ _ _ Hrun)
      as (_ & Hid & Hfwd).
    split.
    + apply Hid. repeat split; reflexivity.
    + apply (Hfwd eq_refl eq_refl eq_refl _ Shape.backbone_ops Shape_add_comm).
  - exfalso. vm_compute in Hrun. discriminate.
Defined.

(** ** The stem assigns into the caller's list *)

Section StemForward.

Context {T : Type} `{BackboneOps T}.
Context (self : ResNeXt3DStemMultiPathway.t) (training : bool).

Lemma Mut_bind_run {A B : Type} (m : Mut T A) (f : A -> Mut T B)
    (h : gmap ref (list T)) :
  (m ≫= f) h =
  match m h with
  | (Ok a, h') => f a h'
  | (Raise e, h') => (Raise e, h')
  end.
Proof. reflexivity. Qed.

Lemma forward_body_run (x : ref) (p : nat) (cur : list T) (xp y : T)
    (h : gmap ref (list T)) :
  h !! x = Some cur -> cur !! p = Some xp -> stem_maps self training p xp y ->
  ResNeXt3DStemMultiPathway.forward_body self training x p tt h
  = (Ok tt, <[x := <[p := y]> cur]> h).
Proof.
  intros Hx Hp (stem_block & Hblock & Hfwd).
  unfold ResNeXt3DStemMultiPathway.forward_body.
  rewrite Mut_bind_run. unfold pure_ at 1, dict_getitem. rewrite Hblock.
  rewrite Mut_bind_run. unfold list_load, getitem. rewrite Hx, Hp.
  rewrite Mut_bind_run. unfold pure_. rewrite Hfwd.
  unfold list_store. rewrite Hx.
  apply lookup_lt_Some in Hp. by rewrite (proj2 (Nat.ltb_lt _ _) Hp).
Qed.

Lemma forward_loop_run (x : ref) (xs ys : list T) (h : gmap ref (list T)) (n start : nat) :
  length ys = length xs ->
  (forall p xp, xs !! p = Some xp -> exists y, ys !! p = Some y /\ stem_maps self training p xp y) ->
  start + n = length xs ->
  for_loop (ResNeXt3DStemMultiPathway.forward_body self training x) start n tt
    (<[x := take start ys ++ drop start xs]> h)
  = (Ok tt, <[x := ys]> h).
Proof.
  intros Hlen Hmaps. revert start. induction n as [|n IH]; intros start Hn;
    cbn [for_loop].
  - rewrite take_ge, drop_ge by lia. by rewrite app_nil_r.
  - destruct (lookup_lt_is_Some_2 xs start) as [xp Hxp]; [lia |].
    destruct (Hmaps _ _ Hxp) as (y & Hy & Hmap).
    rewrite Mut_bind_run.
    rewrite (forward_body_run x start (take start ys ++ drop start xs) xp y);
      [| apply lookup_insert_eq | | done].
    + rewrite insert_insert_eq.
      replace (<[start := y]> (take start ys ++ drop start xs))
        with (take (S start) ys ++ drop (S start) xs); [apply IH; lia |].
      rewrite (take_S_r _ _ _ Hy), (drop_S _ _ _ Hxp).
      rewrite insert_app_r_alt by (rewrite length_take; lia).
      rewrite length_take, Nat.min_l by lia.
      rewrite Nat.sub_diag. simpl. by rewrite <- app_assoc.
    + rewrite lookup_app_r by (rewrite length_take; lia).
      rewrite length_take, Nat.min_l by lia.
      rewrite Nat.sub_diag, lookup_drop. by rewrite Nat.add_0_r.
Qed.

Lemma MultiPathway_forward_run (x : ref) (xs ys : list T) (h : gmap ref (list T)) :
  h !! x = Some xs ->
  length ys = length xs ->
  (forall p xp, xs !! p = Some xp -> exists y, ys !! p = Some y /\ stem_maps self training p xp y) ->
  ResNeXt3DStemMultiPathway.forward self training x h = (Ok x, <[x := ys]> h).
Proof.
  intros Hx Hlen Hmaps.
  unfold ResNeXt3DStemMultiPathway.forward.
  rewrite Mut_bind_run. unfold list_len. rewrite Hx.
  rewrite Mut_bind_run.
  rewrite <- (insert_id h x xs Hx) at 1.
  change xs with (take 0 ys ++ drop 0 xs) at 2.
  rewrite (forward_loop_run x xs ys h (length xs) 0) by done.
  reflexivity.
Qed.

End StemForward.

(** C10.  A call of the multi-pathway stem on the list held at reference
    [x], every element of which its pathway's stem maps to the element of
    [ys] at the same index, returns the reference [x] itself, and the
    store afterwards holds [ys] under [x] and is otherwise unchanged: every
    holder of [x] now sees the stem outputs. *)
Theorem stem_forward_assigns_in_place {T : Type} `{BackboneOps T}
    (self : ResNeXt3DStemMultiPathway.t) (training : bool) (x : ref)
    (xs ys : list T) (h : gmap ref (list T)) :
  h !! x = Some xs ->
  length ys = length xs ->
  (forall p xp, xs !! p = Some xp ->
     exists y, ys !! p = Some y /\ stem_maps self training p xp y) ->
  ResNeXt3DStemMultiPathway.forward self training x h = (Ok x, <[x := ys]> h) /\
  <[x := ys]> h !! x = Some ys /\
  (forall x', x' <> x -> <[x := ys]> h !! x' = h !! x').
Proof.
  intros Hx Hlen Hmaps. split; [| split].
  - by apply (MultiPathway_forward_run self training x xs ys h).
  - apply lookup_insert_eq.
  - intros x' Hne. by apply lookup_insert_ne.
Qed.

Lemma stem_forward_assigns_in_place_witness :
  exists self,
    construct two_pathway_stem = Ok self /\
    let h : gmap ref (list (list nat)) :=
      {[ 7 := [[1; 3; 8; 224; 224]; [1; 3; 32; 224; 224]] ]} in
    ResNeXt3DStemMultiPathway.forward self true 7 h
    = (Ok 7, <[7 := [[1; 64; 8; 56; 56]; [1; 8; 32; 56; 56]]]> h).
Proof.
  destruct (two_pathway_stem []) as [[self|e] tr'] eqn:Hrun.
  - exists self. split; [unfold construct; by rewrite Hrun |].
    vm_compute in Hrun. injection Hrun as <- _.
    intros h.
    apply (stem_forward_assigns_in_place _ true 7
             [[1; 3; 8; 224; 224]; [1; 3; 32; 224; 224]]
             [[1; 64; 8; 56; 56]; [1; 8; 32; 56; 56]] h).
    + reflexivity.
    + reflexivity.
    + intros [|[|p]] xp Hxp; simpl in Hxp; [| | discriminate];
        injection Hxp as <-; eexists; (split; [reflexivity |]);
        eexists; split; vm_compute; reflexivity.
  - exfalso. vm_compute in Hrun. discriminate.
Defined.

(** ** Shapes through the network *)

Lemma shrink_1 (d : nat) : 1 <= d -> shrink d 1 = d.
Proof. intros Hd. unfold shrink. rewrite Nat.div_1_r. lia. Qed.

Lemma shrink_pos (d s : nat) : 1 <= shrink d s.
Proof. unfold shrink. lia. Qed.

Lemma shrink_le (d s : nat) : 1 <= d -> shrink d s <= d.
Proof.
  intros Hd. unfold shrink. destruct s as [|s]; [simpl; lia |].
  pose proof (Nat.Div0.div_le_upper_bound (d - 1) (S s) (d - 1)) as Hdiv.
  assert ((d - 1) / S s <= d - 1) by (apply Hdiv; nia). lia.
Qed.

Lemma window_out_odd (d k s : nat) :
  1 <= d -> k mod 2 = 1 -> Shape.window_out d k s (k / 2) = shrink d s.
Proof.
  intros Hd Hk. unfold Shape.window_out, shrink.
  pose proof (Nat.div_mod_eq k 2) as Hdm. rewrite Hk in Hdm.
  do 2 f_equal. lia.
Qed.

Lemma odd_fits (d k : nat) : 1 <= d -> k mod 2 = 1 -> (d + 2 * (k / 2) <? k) = false.
Proof.
  intros Hd Hk. pose proof (Nat.div_mod_eq k 2) as Hdm. rewrite Hk in Hdm.
  apply Nat.ltb_ge. lia.
Qed.

Lemma odd_nonzero (k : nat) : k mod 2 = 1 -> (k =? 0) = false.
Proof. intros Hk. apply Nat.eqb_neq. by intros ->. Qed.

Lemma ltb_zero (n : nat) : (n <? 0) = false.
Proof. by destruct n. Qed.

Lemma positive_nonzero (s : nat) : 1 <= s -> (s =? 0) = false.
Proof. intros Hs. apply Nat.eqb_neq. lia. Qed.

(** A convolution with odd kernel sizes and half-size padding, with at
    least as many output channels as groups, on an input of its own
    channel count. *)
Lemma Shape_conv3d_odd (cin cout kd kh kw sd sh sw g : nat) (wi : initializer)
    (bi : option initializer) (f : bool) (n d h w : nat) :
  g <= cout ->
  1 <= d -> 1 <= h -> 1 <= w -> 1 <= sd -> 1 <= sh -> 1 <= sw ->
  kd mod 2 = 1 -> kh mod 2 = 1 -> kw mod 2 = 1 ->
  Shape.conv3d
    (mkConv3d cin cout (kd, kh, kw) (sd, sh, sw) (kd / 2, kh / 2, kw / 2) g wi bi f)
    [n; cin; d; h; w]
  = Ok [n; cout; shrink d sd; shrink h sh; shrink w sw].
Proof.
  intros Hg Hd Hh Hw Hsd Hsh Hsw Hkd Hkh Hkw.
  unfold Shape.conv3d, Shape.conv3d_extents.
  cbn [in_channels out_channels kernel_size conv_stride conv_padding groups].
  rewrite !positive_nonzero by done. cbn [orb].
  rewrite (proj2 (Nat.ltb_ge cout g)) by done.
  rewrite Nat.eqb_refl. cbn [negb].
  rewrite !odd_fits by done. cbn [orb].
  rewrite !odd_nonzero by done. cbn [orb mbind result_bind mret result_ret].
  by rewrite !window_out_odd.
Qed.

Lemma bn_ok_mono (training : bool) (n d h w d' h' w' : nat) :
  1 <= n -> 1 <= d -> 1 <= h -> 1 <= w -> d <= d' -> h <= h' -> w <= w' ->
  bn_ok training n d h w -> bn_ok training n d' h' w'.
Proof.
  intros Hn Hd Hh Hw Hd' Hh' Hw' Hok Ht. specialize (Hok Ht).
  assert (2 <= n * (d * (h * w))) by nia.
  assert (d * (h * w) <= d' * (h' * w')).
  { apply Nat.mul_le_mono; [done |]. by apply Nat.mul_le_mono. }
  nia.
Qed.

Lemma Shape_batch_norm3d_run (b : BatchNorm3d) (training : bool) (n c d h w : nat) :
  num_features b = c -> bn_ok training n d h w ->
  Shape.batch_norm3d b training [n; c; d; h; w] = Ok [n; c; d; h; w].
Proof.
  intros <- Hok. unfold Shape.batch_norm3d. rewrite Nat.eqb_refl.
  destruct training; [| done].
  specialize (Hok eq_refl). by destruct (Nat.eqb_spec (n * (d * (h * w))) 1).
Qed.

Lemma broadcast_rev_diag (a : list nat) : Shape.broadcast_rev a a = Ok a.
Proof.
  induction a as [|m a IH]; simpl; [done |]. rewrite IH. simpl.
  by rewrite Nat.eqb_refl.
Qed.

Lemma Shape_add_diag (a : list nat) : Shape.add a a = Ok a.
Proof. unfold Shape.add. rewrite broadcast_rev_diag. simpl. by rewrite rev_involutive. Qed.

Lemma init_visitor_shape_preserving (zero : bool) :
  shape_preserving
    (mkVisitor (ResNeXt3D.init_conv zero) (ResNeXt3D.init_bn zero) ResNeXt3D.init_linear).
Proof.
  split; simpl.
  - reflexivity.
  - intros b. unfold ResNeXt3D.init_bn. by destruct (affine b).
Qed.

Section ShapeVisit.

Context (v : visitor) (Hv : shape_preserving v).

Lemma Layer_forward_visit (l : Layer) :
  @Layer_forward (list nat) _ (Layer_visit v l) = Layer_forward l.
Proof.
  destruct l as [bn| |]; [| done | done].
  unfold Layer_forward, Layer_visit. cbn -[Shape.batch_norm3d].
  by rewrite (proj2 Hv).
Qed.

Lemma PostactivatedBottleneckTransformation_forward_visit
    (m : PostactivatedBottleneckTransformation.t) :
  @PostactivatedBottleneckTransformation.forward (list nat) _
    (PostactivatedBottleneckTransformation.visit v m)
  = PostactivatedBottleneckTransformation.forward m.
Proof.
  unfold PostactivatedBottleneckTransformation.forward,
    PostactivatedBottleneckTransformation.visit.
  cbn -[Shape.conv3d Shape.batch_norm3d Layer_forward Layer_visit].
  by rewrite !(proj1 Hv), !(proj2 Hv), !Layer_forward_visit.
Qed.

Lemma PreactivatedBottleneckTransformation_forward_visit
    (m : PreactivatedBottleneckTransformation.t) :
  @PreactivatedBottleneckTransformation.forward (list nat) _
    (PreactivatedBottleneckTransformation.visit v m)
  = PreactivatedBottleneckTransformation.forward m.
Proof.
  unfold PreactivatedBottleneckTransformation.forward,
    PreactivatedBottleneckTransformation.visit.
  cbn -[Shape.conv3d Shape.batch_norm3d Layer_forward Layer_visit].
  by rewrite !(proj1 Hv), !(proj2 Hv), !Layer_forward_visit.
Qed.

Lemma PostactivatedShortcutTransformation_forward_visit
    (m : PostactivatedShortcutTransformation.t) :
  @PostactivatedShortcutTransformation.forward (list nat) _
    (PostactivatedShortcutTransformation.visit v m)
  = PostactivatedShortcutTransformation.forward m.
Proof.
  unfold PostactivatedShortcutTransformation.forward,
    PostactivatedShortcutTransformation.visit.
  cbn -[Shape.conv3d Shape.batch_norm3d].
  by rewrite !(proj1 Hv), !(proj2 Hv).
Qed.

Lemma PreactivatedShortcutTransformation_forward_visit
    (m : PreactivatedShortcutTransformation.t) :
  @PreactivatedShortcutTransformation.forward (list nat) _
    (PreactivatedShortcutTransformation.visit v m)
  = PreactivatedShortcutTransformation.forward m.
Proof.
  destruct m as [[bn|] [act|] b1 st];
    unfold PreactivatedShortcutTransformation.forward,
      PreactivatedShortcutTransformation.visit;
    cbn -[Shape.conv3d Shape.batch_norm3d Layer_forward Layer_visit];
    by rewrite ?(proj1 Hv), ?(proj2 Hv), ?Layer_forward_visit.
Qed.

Lemma ResBlock_forward_visit (blk : ResBlock.t) :
  @ResBlock.forward (list nat) _ (ResBlock.visit v blk) = ResBlock.forward blk.
Proof.
  destruct blk as [[|pm|pm] [rm|rm] act];
    unfold ResBlock.forward, ResBlock.visit, ResBlock.skip_forward,
      ResBlock.residual_forward, ResBlock.skip_stride;
    cbn -[Layer_forward Layer_visit PostactivatedBottleneckTransformation.forward
          PreactivatedBottleneckTransformation.forward
          PostactivatedShortcutTransformation.forward
          PreactivatedShortcutTransformation.forward
          PostactivatedBottleneckTransformation.visit
          PreactivatedBottleneckTransformation.visit
          PostactivatedShortcutTransformation.visit
          PreactivatedShortcutTransformation.visit];
    by rewrite ?Layer_forward_visit,
         ?PostactivatedBottleneckTransformation_forward_visit,
         ?PreactivatedBottleneckTransformation_forward_visit,
         ?PostactivatedShortcutTransformation_forward_visit,
         ?PreactivatedShortcutTransformation_forward_visit.
Qed.

Lemma Sequential_forward_visit (ms : list ResStage.seq_item) (training : bool)
    (x : list nat) :
  ResStage.Sequential_forward (map (ResStage.seq_item_visit v) ms) training x
  = ResStage.Sequential_forward ms training x.
Proof.
  revert x. induction ms as [|m ms IH]; intros x; [done |].
  cbn [map ResStage.Sequential_forward].
  assert (Hitem : ResStage.seq_item_forward (ResStage.seq_item_visit v m) training x
                  = ResStage.seq_item_forward m training x).
  { destruct m as [b|l]; cbn [ResStage.seq_item_visit ResStage.seq_item_forward].
    - by rewrite ResBlock_forward_visit.
    - by rewrite Layer_forward_visit. }
  rewrite Hitem. destruct (ResStage.seq_item_forward m training x); [apply IH | done].
Qed.

Lemma ResNeXt3DStemSinglePathway_forward_visit (m : ResNeXt3DStemSinglePathway.t) :
  @ResNeXt3DStemSinglePathway.forward (list nat) _
    (ResNeXt3DStemSinglePathway.visit v m)
  = ResNeXt3DStemSinglePathway.forward m.
Proof.
  unfold ResNeXt3DStemSinglePathway.forward, ResNeXt3DStemSinglePathway.visit.
  cbn -[Shape.conv3d Shape.batch_norm3d Shape.max_pool3d Layer_forward Layer_visit].
  by rewrite !(proj1 Hv), !(proj2 Hv), !Layer_forward_visit.
Qed.

End ShapeVisit.

(** What the layer constructors return. *)
Lemma nn_Conv3d_Ok (cin cout : nat) (k st pad : triple) (grp : nat) (bias : bool)
    (tr tr' : trace) (c : Conv3d) :
  nn.Conv3d cin cout k st pad grp bias tr = (Ok c, tr') ->
  c = mkConv3d cin cout k st pad grp default_init
        (if bias then Some default_init else None) false.
Proof.
  unfold nn.Conv3d. rewrite Build_bind_run. unfold alloc.
  destruct (grp =? 0); [discriminate |].
  destruct (negb (cin mod grp =? 0)); [discriminate |].
  destruct (negb (cout mod grp =? 0)); [discriminate |].
  by intros [= <- _].
Qed.

(** A convolution layer that was built has a group count that divides its
    output channels, so no more groups than output channels, once it has
    any. *)
Lemma nn_Conv3d_Ok_out_channels (cin cout : nat) (k st pad : triple) (grp : nat) (bias : bool)
    (tr tr' : trace) (c : Conv3d) :
  nn.Conv3d cin cout k st pad grp bias tr = (Ok c, tr') -> 1 <= cout -> grp <= cout.
Proof.
  unfold nn.Conv3d. rewrite Build_bind_run. unfold alloc.
  destruct (Nat.eqb_spec grp 0) as [|Hgrp]; [discriminate |].
  destruct (negb (cin mod grp =? 0)); [discriminate |].
  destruct (Nat.eqb_spec (cout mod grp) 0) as [Hmod|]; [| discriminate].
  intros _ Hcout. pose proof (Nat.div_mod_eq cout grp) as Hdm.
  rewrite Hmod in Hdm. destruct (cout / grp) as [|q]; nia.
Qed.

Lemma nn_BatchNorm3d_Ok (n : nat) (e m : Q) (tr tr' : trace) (b : BatchNorm3d) :
  nn.BatchNorm3d n e m tr = (Ok b, tr') ->
  b = mkBatchNorm3d n e m true default_init default_init false.
Proof. by intros [= <- _]. Qed.

Lemma nn_Identity_Ok (tr tr' : trace) (l : Layer) :
  nn.Identity tr = (Ok l, tr') -> l = L_Identity.
Proof. by intros [= <- _]. Qed.

Lemma Shape_conv3d_t11 (cin cout k sd sh sw g : nat) (wi : initializer)
    (bi : option initializer) (f : bool) (n d h w : nat) :
  g <= cout ->
  1 <= d -> 1 <= h -> 1 <= w -> 1 <= sd -> 1 <= sh -> 1 <= sw -> k mod 2 = 1 ->
  Shape.conv3d (mkConv3d cin cout (k, 1, 1) (sd, sh, sw) (k / 2, 0, 0) g wi bi f)
    [n; cin; d; h; w]
  = Ok [n; cout; shrink d sd; shrink h sh; shrink w sw].
Proof. intros. by apply (Shape_conv3d_odd cin cout k 1 1). Qed.

Lemma Shape_conv3d_t33 (cin cout k sd sh sw g : nat) (wi : initializer)
    (bi : option initializer) (f : bool) (n d h w : nat) :
  g <= cout ->
  1 <= d -> 1 <= h -> 1 <= w -> 1 <= sd -> 1 <= sh -> 1 <= sw -> k mod 2 = 1 ->
  Shape.conv3d (mkConv3d cin cout (k, 3, 3) (sd, sh, sw) (k / 2, 1, 1) g wi bi f)
    [n; cin; d; h; w]
  = Ok [n; cout; shrink d sd; shrink h sh; shrink w sw].
Proof. intros. by apply (Shape_conv3d_odd cin cout k 3 3). Qed.

Lemma Shape_conv3d_111 (cin cout sd sh sw g : nat) (wi : initializer)
    (bi : option initializer) (f : bool) (n d h w : nat) :
  g <= cout ->
  1 <= d -> 1 <= h -> 1 <= w -> 1 <= sd -> 1 <= sh -> 1 <= sw ->
  Shape.conv3d (mkConv3d cin cout (1, 1, 1) (sd, sh, sw) (0, 0, 0) g wi bi f)
    [n; cin; d; h; w]
  = Ok [n; cout; shrink d sd; shrink h sh; shrink w sw].
Proof. intros. by apply (Shape_conv3d_odd cin cout 1 1 1). Qed.

Lemma odd_or_one (c1 : bool) (k : nat) :
  k mod 2 = 1 ->
  (if c1 then k else 1) mod 2 = 1 /\ (if c1 then 1 else k) mod 2 = 1.
Proof. by destruct c1. Qed.

Section BlockShapes.

Context (training : bool) (n d h w ts ss : nat).
Context (Hn : 1 <= n) (Hd : 1 <= d) (Hh : 1 <= h) (Hw : 1 <= w).
Context (Hts : 1 <= ts) (Hss : 1 <= ss).
Context (Hbn : bn_ok training n (shrink d ts) (shrink h ss) (shrink w ss)).

Lemma bn_ok_input : bn_ok training n d h w.
Proof.
  apply (bn_ok_mono training n (shrink d ts) (shrink h ss) (shrink w ss));
    auto using shrink_pos, shrink_le.
Qed.

Lemma PostactivatedBottleneckTransformation_forward_shape
    (dim_in dim_out grp dim_inner k : nat) (c1 ir : bool) (e m : Q) (tr tr' : trace)
    (rm : PostactivatedBottleneckTransformation.t) :
  PostactivatedBottleneckTransformation.init dim_in dim_out ts ss grp dim_inner k c1
    false ir e m tr = (Ok rm, tr') ->
  k mod 2 = 1 -> 1 <= dim_inner -> 1 <= dim_out ->
  PostactivatedBottleneckTransformation.forward rm training [n; dim_in; d; h; w]
  = Ok [n; dim_out; shrink d ts; shrink h ss; shrink w ss].
Proof.
  unfold PostactivatedBottleneckTransformation.init. intros Hrun Hk Hinner Hout.
  apply Build_bind_Ok in Hrun as (u & tr0 & _ & Hrun).
  apply Build_bind_Ok in Hrun as (a & tr1 & ->%nn_Conv3d_Ok & Hrun).
  apply Build_bind_Ok in Hrun as (a_bn & tr2 & ->%nn_BatchNorm3d_Ok & Hrun).
  apply Build_bind_Ok in Hrun as (a_relu & tr3 & ->%nn_ReLU_Ok & Hrun).
  apply Build_bind_Ok in Hrun as (b & tr4 & Hb & Hrun).
  pose proof (nn_Conv3d_Ok_out_channels _ _ _ _ _ _ _ _ _ _ Hb Hinner) as Hgrp.
  apply nn_Conv3d_Ok in Hb as ->.
  apply Build_bind_Ok in Hrun as (b_bn & tr5 & ->%nn_BatchNorm3d_Ok & Hrun).
  apply Build_bind_Ok in Hrun as (b_relu & tr6 & ->%nn_ReLU_Ok & Hrun).
  apply Build_bind_Ok in Hrun as (c & tr7 & ->%nn_Conv3d_Ok & Hrun).
  apply Build_bind_Ok in Hrun as (c_bn & tr8 & ->%nn_BatchNorm3d_Ok & Hrun).
  apply mret_run in Hrun as [<- _].
  destruct (odd_or_one c1 k Hk) as [Hk1 Hk3].
  pose proof bn_ok_input as Hbn0.
  unfold PostactivatedBottleneckTransformation.forward.
  cbn [PostactivatedBottleneckTransformation.branch2a
       PostactivatedBottleneckTransformation.branch2a_bn
       PostactivatedBottleneckTransformation.branch2a_relu
       PostactivatedBottleneckTransformation.branch2b
       PostactivatedBottleneckTransformation.branch2b_bn
       PostactivatedBottleneckTransformation.branch2b_relu
       PostactivatedBottleneckTransformation.branch2c
       PostactivatedBottleneckTransformation.branch2c_bn
       conv3d batch_norm3d Shape.backbone_ops Layer_forward relu
       set_bn_final_transform_op num_features].
  rewrite Shape_conv3d_t11, !shrink_1 by done. cbn [mbind result_bind].
  rewrite Shape_batch_norm3d_run by done. cbn [mbind result_bind].
  rewrite Shape_conv3d_t33 by done. cbn [mbind result_bind].
  rewrite Shape_batch_norm3d_run by done. cbn [mbind result_bind].
  rewrite Shape_conv3d_111, !shrink_1 by auto using shrink_pos.
  cbn [mbind result_bind].
  by rewrite Shape_batch_norm3d_run.
Qed.

Lemma PreactivatedBottleneckTransformation_forward_shape
    (dim_in dim_out grp dim_inner k : nat) (c1 ir : bool) (e m : Q) (disable : bool)
    (tr tr' : trace) (rm : PreactivatedBottleneckTransformation.t) :
  PreactivatedBottleneckTransformation.init dim_in dim_out ts ss grp dim_inner k c1
    false ir e m disable tr = (Ok rm, tr') ->
  k mod 2 = 1 -> 1 <= dim_inner -> 1 <= dim_out ->
  PreactivatedBottleneckTransformation.forward rm training [n; dim_in; d; h; w]
  = Ok [n; dim_out; shrink d ts; shrink h ss; shrink w ss].
Proof.
  unfold PreactivatedBottleneckTransformation.init. intros Hrun Hk Hinner Hout.
  apply Build_bind_Ok in Hrun as (u & tr0 & _ & Hrun).
  apply Build_bind_Ok in Hrun as (a_bn & tr1 & Ha_bn & Hrun).
  apply Build_bind_Ok in Hrun as (a_relu & tr2 & Ha_relu & Hrun).
  apply Build_bind_Ok in Hrun as (a & tr3 & ->%nn_Conv3d_Ok & Hrun).
  apply Build_bind_Ok in Hrun as (b_bn & tr4 & ->%nn_BatchNorm3d_Ok & Hrun).
  apply Build_bind_Ok in Hrun as (b_relu & tr5 & ->%nn_ReLU_Ok & Hrun).
  apply Build_bind_Ok in Hrun as (b & tr6 & Hb & Hrun).
  pose proof (nn_Conv3d_Ok_out_channels _ _ _ _ _ _ _ _ _ _ Hb Hinner) as Hgrp.
  apply nn_Conv3d_Ok in Hb as ->.
  apply Build_bind_Ok in Hrun as (c_bn & tr7 & ->%nn_BatchNorm3d_Ok & Hrun).
  apply Build_bind_Ok in Hrun as (c_relu & tr8 & ->%nn_ReLU_Ok & Hrun).
  apply Build_bind_Ok in Hrun as (c & tr9 & ->%nn_Conv3d_Ok & Hrun).
  apply mret_run in Hrun as [<- _].
  destruct (odd_or_one c1 k Hk) as [Hk1 Hk3].
  pose proof bn_ok_input as Hbn0.
  assert (Hpre : forall x, x = [n; dim_in; d; h; w] ->
            (y ← Layer_forward a_bn training x; Layer_forward a_relu training y)
            = Ok x).
  { intros x ->. destruct disable; cbn [negb] in Ha_bn, Ha_relu.
    - apply nn_Identity_Ok in Ha_bn as ->. by apply nn_Identity_Ok in Ha_relu as ->.
    - apply Build_fmap_Ok in Ha_bn as (bn & ->%nn_BatchNorm3d_Ok & ->).
      apply nn_ReLU_Ok in Ha_relu as ->.
      cbn [Layer_forward batch_norm3d Shape.backbone_ops relu].
      by rewrite Shape_batch_norm3d_run. }
  unfold PreactivatedBottleneckTransformation.forward.
  cbn [PreactivatedBottleneckTransformation.branch2a
       PreactivatedBottleneckTransformation.branch2a_bn
       PreactivatedBottleneckTransformation.branch2a_relu
       PreactivatedBottleneckTransformation.branch2b
       PreactivatedBottleneckTransformation.branch2b_bn
       PreactivatedBottleneckTransformation.branch2b_relu
       PreactivatedBottleneckTransformation.branch2c
       PreactivatedBottleneckTransformation.branch2c_bn
       PreactivatedBottleneckTransformation.branch2c_relu].
  specialize (Hpre _ eq_refl).
  destruct (Layer_forward a_bn training [n; dim_in; d; h; w]) as [y|err];
    [| discriminate].
  cbn [mbind result_bind] in Hpre |- *. rewrite Hpre. cbn [mbind result_bind].
  cbn [conv3d batch_norm3d Shape.backbone_ops Layer_forward relu
       set_conv_final_transform_op in_channels out_channels kernel_size conv_stride
       conv_padding groups conv_weight conv_bias num_features].
  rewrite Shape_conv3d_t11, !shrink_1 by done. cbn [mbind result_bind].
  rewrite Shape_batch_norm3d_run by done. cbn [mbind result_bind].
  rewrite Shape_conv3d_t33 by done. cbn [mbind result_bind].
  rewrite Shape_batch_norm3d_run by done. cbn [mbind result_bind].
  unfold set_conv_final_transform_op.
  cbn [in_channels out_channels kernel_size conv_stride conv_padding groups
       conv_weight conv_bias].
  by rewrite Shape_conv3d_111, !shrink_1 by auto using shrink_pos.
Qed.

Lemma PreactivatedShortcutTransformation_forward_shape
    (dim_in dim_out : nat) (ir : bool) (e m : Q) (disable : bool)
    (tr tr' : trace) (pm : PreactivatedShortcutTransformation.t) :
  PreactivatedShortcutTransformation.init dim_in dim_out ts ss ir e m disable tr
    = (Ok pm, tr') ->
  1 <= dim_out ->
  PreactivatedShortcutTransformation.forward pm training [n; dim_in; d; h; w]
  = Ok [n; dim_out; shrink d ts; shrink h ss; shrink w ss].
Proof.
  unfold PreactivatedShortcutTransformation.init. intros Hrun Hout.
  apply Build_bind_Ok in Hrun as (u & tr0 & _ & Hrun).
  apply Build_bind_Ok in Hrun as (u' & tr1 & _ & Hrun).
  apply Build_bind_Ok in Hrun as (b1_bn & tr2 & Hb1_bn & Hrun).
  apply Build_bind_Ok in Hrun as (b1_relu & tr3 & Hb1_relu & Hrun).
  apply Build_bind_Ok in Hrun as (b1 & tr4 & ->%nn_Conv3d_Ok & Hrun).
  apply mret_run in Hrun as [<- _].
  pose proof bn_ok_input as Hbn0.
  unfold PreactivatedShortcutTransformation.forward.
  cbn [PreactivatedShortcutTransformation.branch1_bn
       PreactivatedShortcutTransformation.branch1_relu
       PreactivatedShortcutTransformation.branch1].
  destruct disable; cbn [negb] in Hb1_bn, Hb1_relu.
  - apply mret_run in Hb1_bn as [<- _]. apply mret_run in Hb1_relu as [<- _].
    cbn [mbind result_bind conv3d Shape.backbone_ops _triple].
    by rewrite Shape_conv3d_111.
  - apply Build_fmap_Ok in Hb1_bn as (bn & ->%nn_BatchNorm3d_Ok & ->).
    apply Build_fmap_Ok in Hb1_relu as (act & ->%nn_ReLU_Ok & ->).
    cbn [batch_norm3d conv3d Shape.backbone_ops Layer_forward relu _triple].
    rewrite Shape_batch_norm3d_run by done. cbn [mbind result_bind].
    by rewrite Shape_conv3d_111.
Qed.

(** The forward pass of a block built with the pre-activated skip
    strategy: the channel count becomes [dim_out] and each extent shrinks
    by its stride. *)
Lemma ResBlock_forward_shape (dim_in dim_out dim_inner k : nat) (c1 : bool)
    (rs : residual_class) (grp : nat) (ir : bool) (e m : Q) (disable : bool)
    (tr tr' : trace) (blk : ResBlock.t) :
  ResBlock.init dim_in dim_out dim_inner k c1 ts ss
    PreactivatedShortcutTransformation_cls rs grp ir e m disable tr = (Ok blk, tr') ->
  k mod 2 = 1 -> 1 <= dim_inner -> 1 <= dim_out ->
  ResBlock.forward blk training [n; dim_in; d; h; w]
  = Ok [n; dim_out; shrink d ts; shrink h ss; shrink w ss].
Proof.
  intros Hrun Hk Hinner Hout.
  apply ResBlock_init_Ok in Hrun as (tr1 & tr2 & tr3 & Hskip & Hres & Hrelu).
  assert (Hresidual :
    ResBlock.residual_forward (ResBlock.residual blk) training [n; dim_in; d; h; w]
    = Ok [n; dim_out; shrink d ts; shrink h ss; shrink w ss]).
  { destruct rs, Hres as (rm & Hrm & ->); cbn [ResBlock.residual_forward].
    - by apply PostactivatedBottleneckTransformation_forward_shape in Hrm.
    - by apply PreactivatedBottleneckTransformation_forward_shape in Hrm. }
  unfold ResBlock.forward. rewrite Hresidual, Hrelu.
  destruct (projection_needed dim_in dim_out ts ss) eqn:Hneed.
  - destruct Hskip as (pm & Hpm & ->).
    cbn [ResBlock.skip_forward ResBlock.skip_stride].
    apply PreactivatedShortcutTransformation_forward_shape in Hpm; [| done].
    rewrite Hpm.
    cbn [mbind result_bind add Shape.backbone_ops Layer_forward relu].
    by rewrite Shape_add_diag.
  - apply projection_needed_false in Hneed as (-> & -> & ->). rewrite Hskip.
    cbn [ResBlock.skip_forward ResBlock.skip_stride mbind result_bind add
         Shape.backbone_ops Layer_forward relu].
    rewrite !shrink_1 by done. by rewrite Shape_add_diag.
Qed.

End BlockShapes.

(** ** Loops that append *)

Lemma for_loop_append {A : Type} (ok : nat -> A -> Prop)
    (body : nat -> list A -> Build (list A)) :
  (forall i acc tr acc' tr',
     body i acc tr = (Ok acc', tr') -> exists a, acc' = acc ++ [a] /\ ok i a) ->
  forall n start acc tr r tr',
    for_loop body start n acc tr = (Ok r, tr') ->
    exists items,
      r = acc ++ items /\ length items = n /\
      forall j a, items !! j = Some a -> ok (start + j) a.
Proof.
  intros Hbody n. induction n as [|n IH]; intros start acc tr r tr' Hrun;
    cbn [for_loop] in Hrun.
  - apply mret_run in Hrun as [<- _]. exists []. rewrite app_nil_r.
    split; [done |]. split; [done |]. intros j a. by rewrite lookup_nil.
  - apply Build_bind_Ok in Hrun as (acc1 & tr1 & Hstep & Hrun).
    apply Hbody in Hstep as (a0 & -> & Hok).
    apply IH in Hrun as (items & -> & Hlen & Hitems).
    exists (a0 :: items). rewrite <- app_assoc. split; [done |].
    split; [simpl; lia |].
    intros [|j] a Hlook; simpl in Hlook.
    + injection Hlook as <-. by rewrite Nat.add_0_r.
    + replace (start + S j) with (S start + j) by lia. by apply Hitems.
Qed.

Lemma index_Ok {A : Type} (l : list A) (i : nat) (a : A) (tr tr' : trace) :
  index l i tr = (Ok a, tr') -> l !! i = Some a.
Proof.
  unfold index, lift, getitem. destruct (l !! i); [| discriminate]. by intros [= <- _].
Qed.

Section StageBlocks.

Context (dim_in dim_out dim_inner : list nat) (temporal_conv_1x1 : list bool)
  (temporal_stride spatial_stride num_groups : list nat)
  (skip_transformation : skip_class) (residual_transformation : residual_class)
  (inplace_relu : bool) (bn_eps bn_mmt : Q) (disable_pre_activation : bool)
  (tks : list (list nat)) (p : nat).

Lemma block_body_built (i : nat) (blocks : list ResStage.seq_item) (tr : trace)
    (blocks' : list ResStage.seq_item) (tr' : trace) :
  ResStage.block_body dim_in dim_out dim_inner temporal_conv_1x1 temporal_stride
    spatial_stride num_groups skip_transformation residual_transformation
    inplace_relu bn_eps bn_mmt disable_pre_activation tks p i blocks tr
  = (Ok blocks', tr') ->
  exists a, blocks' = blocks ++ [a] /\
            block_built dim_in dim_out dim_inner temporal_conv_1x1 temporal_stride
              spatial_stride num_groups skip_transformation residual_transformation
              inplace_relu bn_eps bn_mmt disable_pre_activation tks p i a.
Proof.
  unfold ResStage.block_body. intros Hrun.
  apply Build_bind_Ok in Hrun as (d_in & tr1 & Hd_in%index_Ok & Hrun).
  apply Build_bind_Ok in Hrun as (d_out & tr2 & Hd_out%index_Ok & Hrun).
  apply Build_bind_Ok in Hrun as (d_inner & tr3 & Hd_inner%index_Ok & Hrun).
  apply Build_bind_Ok in Hrun as (sizes & tr4 & Hsizes%index_Ok & Hrun).
  apply Build_bind_Ok in Hrun as (k & tr5 & Hk%index_Ok & Hrun).
  apply Build_bind_Ok in Hrun as (c1 & tr6 & Hc1%index_Ok & Hrun).
  apply Build_bind_Ok in Hrun as (ts & tr7 & Hts & Hrun).
  apply Build_bind_Ok in Hrun as (ss & tr8 & Hss & Hrun).
  apply Build_bind_Ok in Hrun as (g & tr9 & Hg%index_Ok & Hrun).
  apply Build_bind_Ok in Hrun as (b & tr10 & Hb & Hrun).
  apply mret_run in Hrun as [<- _].
  exists (ResStage.Seq_ResBlock b). split; [done |].
  exists b, d_in, d_out, d_inner, sizes, k, c1, ts, ss, g, tr9, tr10.
  repeat split; try done.
  - destruct (i =? 0); [by apply index_Ok in Hts | by apply mret_run in Hts as [<- _]].
  - destruct (i =? 0); [by apply index_Ok in Hss | by apply mret_run in Hss as [<- _]].
Qed.

End StageBlocks.

Lemma cycled_odd (basis : list nat) (nb i k : nat) :
  Forall (fun k => k mod 2 = 1) basis -> cycled basis nb !! i = Some k -> k mod 2 = 1.
Proof.
  intros Hodd Hk. apply list_elem_of_lookup_2 in Hk.
  unfold cycled, list_mul in Hk. apply elem_of_take in Hk as (j & Hj & _).
  apply list_elem_of_lookup_2, list_elem_of_In, in_concat in Hj as (l & Hl & Hin).
  apply list_elem_of_In, elem_of_replicate_inv in Hl as ->.
  apply list_elem_of_In in Hin. by apply (proj1 (Forall_forall _ _) Hodd).
Qed.

Section SameShape.

Context (training : bool) (n d h w : nat).
Context (Hn : 1 <= n) (Hd : 1 <= d) (Hh : 1 <= h) (Hw : 1 <= w).

(** Blocks that keep the channel count and have stride 1 keep the shape. *)
Lemma Sequential_forward_same_shape (c : nat) (items : list ResStage.seq_item) :
  bn_ok training n d h w ->
  1 <= c ->
  (forall a, a ∈ items ->
     exists b d_inner k c1 rs g ir e m disable tr tr',
       a = ResStage.Seq_ResBlock b /\ k mod 2 = 1 /\ 1 <= d_inner /\
       ResBlock.init c c d_inner k c1 1 1 PreactivatedShortcutTransformation_cls rs g
         ir e m disable tr = (Ok b, tr')) ->
  ResStage.Sequential_forward items training [n; c; d; h; w] = Ok [n; c; d; h; w].
Proof.
  intros Hbn Hc. induction items as [|a items IH]; intros Hitems; [done |].
  destruct (Hitems a) as (b & d_inner & k & c1 & rs & g & ir & e & m & disable & tr
                          & tr' & -> & Hk & Hinner & Hb); [by left |].
  cbn [ResStage.Sequential_forward ResStage.seq_item_forward].
  assert (Hbn1 : bn_ok training n (shrink d 1) (shrink h 1) (shrink w 1))
    by (by rewrite !shrink_1).
  rewrite (ResBlock_forward_shape training n d h w 1 1 Hn Hd Hh Hw (le_n 1) (le_n 1)
             Hbn1 _ _ _ _ _ _ _ _ _ _ _ _ _ _ Hb Hk Hinner Hc).
  rewrite !shrink_1 by done. cbn [mbind result_bind]. apply IH.
  intros a' Ha'. apply Hitems. by right.
Qed.

End SameShape.

Section StageShapes.

Context (training : bool) (n d h w : nat).
Context (Hn : 1 <= n) (Hd : 1 <= d) (Hh : 1 <= h) (Hw : 1 <= w).
Context (ts ss : nat) (Hts : 1 <= ts) (Hss : 1 <= ss).
Context (Hbn : bn_ok training n (shrink d ts) (shrink h ss) (shrink w ss)).

(** A single-pathway stage, as the model builds its stages, after any
    shape-preserving walk over its modules. *)
Lemma ResStage_forward_shape (stage_idx cin cout cinner : nat) (basis : list nat)
    (c1 : bool) (nb grp : nat) (rs : residual_class) (ir : bool) (e m : Q)
    (disable final : bool) (tr tr' : trace) (st : ResStage.t) (v : visitor) :
  ResStage.init stage_idx [cin] [cout] [cinner] [basis] [c1] [ts] [ss] [nb] [grp]
    PreactivatedShortcutTransformation_cls rs ir e m disable final tr = (Ok st, tr') ->
  shape_preserving v ->
  1 <= nb ->
  Forall (fun k => k mod 2 = 1) basis ->
  1 <= cinner -> 1 <= cout ->
  ResStage.forward (ResStage.visit v st) training [[n; cin; d; h; w]]
  = Ok [[n; cout; shrink d ts; shrink h ss; shrink w ss]].
Proof.
  intros Hrun Hv Hnb Hodd Hinner Hout.
  apply ResStage_init_Ok in Hrun as (_ & pws & tr1 & Hloop & ->).
  cbn [length zip_with for_loop] in Hloop.
  apply Build_bind_Ok in Hloop as (pws1 & tr2 & Hbody & Hret).
  apply mret_run in Hret as [<- _].
  unfold ResStage.pathway_body in Hbody.
  apply Build_bind_Ok in Hbody as (nb0 & tr3 & Hnb0%index_Ok & Hbody).
  injection Hnb0 as <-.
  apply Build_bind_Ok in Hbody as (blocks & tr4 & Hblocks & Hbody).
  apply Build_bind_Ok in Hbody as (blocks' & tr5 & Hfinal & Hbody).
  rewrite final_activation_run in Hfinal. apply mret_run in Hfinal as [<- _].
  apply Build_bind_Ok in Hbody as (u & tr6 & _ & Hbody).
  apply mret_run in Hbody as [<- _].
  apply (for_loop_append _ _
           (block_body_built [cin] [cout] [cinner] [c1] [ts] [ss] [grp]
              PreactivatedShortcutTransformation_cls rs ir e m disable
              [cycled basis nb] 0))
    in Hblocks as (items & -> & Hlen & Hitems).
  cbn [app] in *.
  unfold ResStage.forward, ResStage.visit.
  cbn [ResStage.num_pathways ResStage.pathways length for_loop].
  cbn [getitem lookup list_lookup mbind result_bind].
  unfold dict_getitem. rewrite lookup_fmap, lookup_insert_eq.
  cbn [fmap option_fmap option_map mbind result_bind].
  rewrite Sequential_forward_visit by done.
  destruct items as [|a0 rest]; [simpl in Hlen; lia |].
  destruct (Hitems 0 a0 eq_refl)
    as (b & d_in & d_out & d_inner & sizes & k & c1' & ts' & ss' & g & tr7 & tr8
        & -> & Hd_in & Hd_out & Hd_inner & Hsizes & Hk & Hc1 & Hts' & Hss' & Hg & Hb).
  cbn in Hd_in, Hd_out, Hd_inner, Hsizes, Hc1, Hts', Hss', Hg.
  injection Hd_in as <-. injection Hd_out as <-. injection Hd_inner as <-.
  injection Hsizes as <-. injection Hts' as <-. injection Hss' as <-.
  apply (cycled_odd _ _ _ _ Hodd) in Hk.
  cbn [ResStage.Sequential_forward ResStage.seq_item_forward].
  rewrite (ResBlock_forward_shape training n d h w ts ss Hn Hd Hh Hw Hts Hss Hbn
             _ _ _ _ _ _ _ _ _ _ _ _ _ _ Hb Hk Hinner Hout).
  cbn [mbind result_bind].
  rewrite (Sequential_forward_same_shape training n (shrink d ts) (shrink h ss)
             (shrink w ss) Hn (shrink_pos _ _) (shrink_pos _ _) (shrink_pos _ _));
    [done | done | done |].
  intros a Ha. apply list_elem_of_lookup_1 in Ha as [j Hj].
  destruct (Hitems (S j) a Hj)
    as (b' & d_in & d_out & d_inner' & sizes & k' & c1'' & ts' & ss' & g' & tr9 & tr10
        & -> & Hd_in & Hd_out & Hd_inner' & Hsizes & Hk' & _ & Hts' & Hss' & _ & Hb').
  cbn in Hd_in, Hd_out, Hd_inner', Hsizes, Hts', Hss'.
  injection Hd_in as <-. injection Hd_out as <-. injection Hd_inner' as <-.
  injection Hsizes as <-. subst ts' ss'.
  apply (cycled_odd _ _ _ _ Hodd) in Hk'.
  by exists b', cinner, k', c1'', rs, g', ir, e, m, (disable && false), tr9, tr10.
Qed.

End StageShapes.

(** ** The stem on shapes *)

Lemma Shape_max_pool3d_133 (n c d h w : nat) :
  1 <= c -> 1 <= d -> 1 <= h -> 1 <= w ->
  Shape.max_pool3d (1, 3, 3) (1, 2, 2) (0, 1, 1) [n; c; d; h; w]
  = Ok [n; c; d; shrink h 2; shrink w 2].
Proof.
  intros Hc Hd Hh Hw. unfold Shape.max_pool3d, Shape.pool3d, Shape.pool3d_extents.
  change ((1 / 2 <? 0) || (3 / 2 <? 1) || (3 / 2 <? 1)) with false.
  cbn [Nat.eqb orb]. rewrite !positive_nonzero by done. cbn [orb andb].
  rewrite !(proj2 (Nat.ltb_ge _ _)) by lia.
  cbn [orb mbind result_bind mret result_ret].
  unfold Shape.window_out, shrink. rewrite Nat.div_1_r.
  replace (d + 2 * 0 - 1 + 1) with d by lia.
  replace (h + 2 * 1 - 3) with (h - 1) by lia.
  by replace (w + 2 * 1 - 3) with (w - 1) by lia.
Qed.

Lemma ResNeXt3DStemSinglePathway_forward_shape (dim_in dim_out kt ks : nat)
    (ir : bool) (e m : Q) (tr tr' : trace) (stem : ResNeXt3DStemSinglePathway.t)
    (training : bool) (n t h w : nat) :
  ResNeXt3DStemSinglePathway.init dim_in dim_out (kt, ks, ks) (1, 2, 2)
    (kt / 2, ks / 2, ks / 2) true ir e m tr = (Ok stem, tr') ->
  kt mod 2 = 1 -> ks mod 2 = 1 ->
  1 <= dim_out ->
  1 <= t -> 1 <= h -> 1 <= w ->
  bn_ok training n t (shrink h 2) (shrink w 2) ->
  ResNeXt3DStemSinglePathway.forward stem training [n; dim_in; t; h; w]
  = Ok [n; dim_out; t; shrink (shrink h 2) 2; shrink (shrink w 2) 2].
Proof.
  unfold ResNeXt3DStemSinglePathway.init. intros Hrun Hkt Hks Hout Ht Hh Hw Hbn.
  apply Build_bind_Ok in Hrun as (u & tr0 & _ & Hrun).
  apply Build_bind_Ok in Hrun as (cv & tr1 & ->%nn_Conv3d_Ok & Hrun).
  apply Build_bind_Ok in Hrun as (b & tr2 & ->%nn_BatchNorm3d_Ok & Hrun).
  apply Build_bind_Ok in Hrun as (act & tr3 & ->%nn_ReLU_Ok & Hrun).
  apply Build_bind_Ok in Hrun as (pool & tr4 & Hpool & Hrun).
  apply mret_run in Hrun as [<- _].
  rewrite Build_bind_run in Hpool. unfold alloc in Hpool. injection Hpool as <- _.
  unfold ResNeXt3DStemSinglePathway.forward.
  cbn [ResNeXt3DStemSinglePathway.conv ResNeXt3DStemSinglePathway.bn
       ResNeXt3DStemSinglePathway.relu_layer ResNeXt3DStemSinglePathway.maxpool
       ResNeXt3DStemSinglePathway.pool_layer conv3d batch_norm3d max_pool3d
       Shape.backbone_ops Layer_forward relu pool_kernel_size pool_stride
       pool_padding].
  rewrite Shape_conv3d_odd, shrink_1 by (done || lia). cbn [mbind result_bind].
  rewrite Shape_batch_norm3d_run by done. cbn [mbind result_bind].
  by rewrite Shape_max_pool3d_133 by auto using shrink_pos.
Qed.

Lemma ResNeXt3DStem_forward_shape (kt ks input_planes stem_planes : nat)
    (maxpool : bool) (tr tr' : trace) (stem : ResNeXt3DStem.t) (v : visitor)
    (training : bool) (n t h w : nat) (x : ref) :
  ResNeXt3DStem.init kt ks input_planes stem_planes maxpool tr = (Ok stem, tr') ->
  shape_preserving v ->
  kt mod 2 = 1 -> ks mod 2 = 1 ->
  1 <= stem_planes ->
  1 <= t -> 1 <= h -> 1 <= w ->
  bn_ok training n t (shrink h 2) (shrink w 2) ->
  ResNeXt3DStem.forward (ResNeXt3DStem.visit v stem) training x
    {[x := [[n; input_planes; t; h; w]]]}
  = (Ok x, <[x := [[n; stem_planes; t; shrink (shrink h 2) 2; shrink (shrink w 2) 2]]]>
             {[x := [[n; input_planes; t; h; w]]]}).
Proof.
  unfold ResNeXt3DStem.init. intros Hrun Hv Hkt Hks Hout Ht Hh Hw Hbn.
  apply Build_bind_Ok in Hrun as (u & tr0 & _ & Hrun).
  apply Build_bind_Ok in Hrun as (st & tr1 & Hst & Hrun).
  apply mret_run in Hrun as [<- _].
  unfold ResNeXt3DStemMultiPathway.init in Hst.
  apply Build_bind_Ok in Hst as (u' & tr2 & _ & Hst).
  cbn [ResNeXt3DStemMultiPathway.unequal_lengths length Nat.eqb negb orb] in Hst.
  apply Build_bind_Ok in Hst as (blocks & tr3 & Hblocks & Hst).
  apply mret_run in Hst as [<- _].
  cbn [for_loop] in Hblocks.
  apply Build_bind_Ok in Hblocks as (blocks1 & tr4 & Hbody & Hret).
  apply mret_run in Hret as [<- _].
  unfold ResNeXt3DStemMultiPathway.stem_body in Hbody.
  apply Build_bind_Ok in Hbody as (d_in & tr5 & [= <-]%index_Ok & Hbody).
  apply Build_bind_Ok in Hbody as (d_out & tr6 & [= <-]%index_Ok & Hbody).
  apply Build_bind_Ok in Hbody as (k & tr7 & [= <-]%index_Ok & Hbody).
  apply Build_bind_Ok in Hbody as (sd & tr8 & [= <-]%index_Ok & Hbody).
  apply Build_bind_Ok in Hbody as (pad & tr9 & [= <-]%index_Ok & Hbody).
  apply Build_bind_Ok in Hbody as (stem0 & tr10 & Hstem0 & Hbody).
  apply mret_run in Hbody as [<- _].
  unfold ResNeXt3DStem.forward, ResNeXt3DStem.visit.
  cbn [ResNeXt3DStem.stem].
  apply (MultiPathway_forward_run _ _ _ [[n; input_planes; t; h; w]]);
    [apply lookup_singleton_eq | done |].
  intros [|p] xp Hxp; [| by destruct p]. injection Hxp as <-.
  eexists. split; [reflexivity |].
  exists (ResNeXt3DStemSinglePathway.visit v stem0). split.
  - unfold ResNeXt3DStemMultiPathway.visit.
    cbn [ResNeXt3DStemMultiPathway.blocks].
    by rewrite lookup_fmap, lookup_insert_eq.
  - rewrite ResNeXt3DStemSinglePathway_forward_visit by done.
    by apply (ResNeXt3DStemSinglePathway_forward_shape _ _ _ _ _ _ _ _ _ _ _ _ _ _ _
                Hstem0).
Qed.

(** ** The head on shapes *)

Lemma window_out_valid (d k : nat) : Shape.window_out d k 1 0 = d - k + 1.
Proof. unfold Shape.window_out. rewrite Nat.div_1_r. lia. Qed.

(** Average pooling with stride 1 and a window that fits. *)
Lemma Shape_avg_pool3d_fits (kt kh kw n c t h w : nat) :
  1 <= c -> 1 <= kt <= t -> 1 <= kh <= h -> 1 <= kw <= w ->
  Shape.avg_pool3d (kt, kh, kw) (_triple 1) [n; c; t; h; w]
  = Ok [n; c; t - kt + 1; h - kh + 1; w - kw + 1].
Proof.
  intros Hc Hkt Hkh Hkw.
  unfold Shape.avg_pool3d, Shape.pool3d, Shape.pool3d_extents, _triple.
  cbn [Nat.eqb orb]. rewrite !ltb_zero. cbn [orb].
  rewrite !positive_nonzero by lia. cbn [orb andb].
  rewrite (proj2 (Nat.ltb_ge t kt)), (proj2 (Nat.ltb_ge h kh)),
    (proj2 (Nat.ltb_ge w kw)) by lia.
  cbn [orb].
  rewrite (proj2 (Nat.ltb_ge (t + 2 * 0) kt)), (proj2 (Nat.ltb_ge (h + 2 * 0) kh)),
    (proj2 (Nat.ltb_ge (w + 2 * 0) kw)) by lia.
  cbn [orb mbind result_bind mret result_ret]. by rewrite !window_out_valid.
Qed.

Lemma Shape_adaptive_avg_pool3d_run (od oh ow n c t h w : nat) :
  1 <= c -> 1 <= t -> 1 <= h -> 1 <= w ->
  Shape.adaptive_avg_pool3d (od, oh, ow) [n; c; t; h; w] = Ok [n; c; od; oh; ow].
Proof.
  intros Hc Ht Hh Hw. unfold Shape.adaptive_avg_pool3d.
  by rewrite !positive_nonzero by done.
Qed.

Lemma Shape_permute_02341 (n c t h w : nat) :
  Shape.permute [0; 2; 3; 4; 1] [n; c; t; h; w] = Ok [n; t; h; w; c].
Proof. by vm_compute. Qed.

Lemma FullyConvolutionalLinear_forward_shape (fin fout : nat) (wi bi : initializer)
    (training : bool) (n a b c : nat) :
  FullyConvolutionalLinear.forward (FullyConvolutionalLinear.mk (mkLinear fin fout wi bi) 4)
    training [n; fin; a; b; c]
  = Ok (if training then [n; a * (b * (c * (fout * 1)))] else [n; fout * 1]).
Proof.
  unfold FullyConvolutionalLinear.forward.
  cbn [permute linear softmax mean flatten Shape.head_ops
       FullyConvolutionalLinear.projection FullyConvolutionalLinear.act].
  rewrite Shape_permute_02341. cbn [mbind result_bind].
  unfold Shape.linear. cbn [rev app in_features out_features].
  rewrite Nat.eqb_refl. cbn [mbind result_bind rev app].
  by destruct training.
Qed.

Lemma FullyConvolutionalLinearHead_forward_shape (num_classes : nat)
    (pool_size : option triple) (ratio : Q) (tr tr' : trace)
    (hd : FullyConvolutionalLinearHead.t) (training : bool) (n t h w : nat) :
  FullyConvolutionalLinearHead.init num_classes 2048 pool_size (Some true) ratio tr
    = (Ok hd, tr') ->
  pool_fits pool_size training (t, h, w) ->
  1 <= t -> 1 <= h -> 1 <= w ->
  FullyConvolutionalLinearHead.forward hd training [n; 2048; t; h; w]
  = Ok [n; num_classes].
Proof.
  intros Hrun Hpool Ht Hh Hw.
  assert (Hc : 1 <= 2048) by lia.
  apply FullyConvolutionalLinearHead_init_Ok in Hrun as (Hfcl & Havg & Hdrop).
  unfold FullyConvolutionalLinearHead.forward. rewrite Hfcl, Havg, Hdrop.
  destruct pool_size as [[[kt kh] kw]|]; cbn [pool_fits] in Hpool.
  - destruct Hpool as ((Hkt & Hkh & Hkw) & Hexact).
    cbn [avg_pool3d Shape.backbone_ops dropout].
    rewrite Shape_avg_pool3d_fits by done. cbn [mbind result_bind].
    rewrite FullyConvolutionalLinear_forward_shape.
    destruct training.
    + destruct (Hexact eq_refl) as (-> & -> & ->).
      rewrite !Nat.sub_diag. do 3 f_equal. lia.
    + do 3 f_equal. lia.
  - cbn [adaptive_avg_pool3d Shape.backbone_ops dropout].
    rewrite Shape_adaptive_avg_pool3d_run by done. cbn [mbind result_bind].
    rewrite FullyConvolutionalLinear_forward_shape.
    destruct training; do 3 f_equal; lia.
Qed.

(** ** The stages of a model on shapes *)

Lemma extent_after_stages_bounds (tss sss : list nat) (k start t h w t' h' w' : nat) :
  1 <= t -> 1 <= h -> 1 <= w ->
  extent_after_stages tss sss start k t h w = (t', h', w') ->
  (1 <= t' <= t) /\ (1 <= h' <= h) /\ (1 <= w' <= w).
Proof.
  revert start t h w. induction k as [|k IH]; intros start t h w Ht Hh Hw Hext;
    cbn [extent_after_stages] in Hext.
  - injection Hext as <- <- <-. lia.
  - destruct (tss !! start) as [ts|]; [| injection Hext as <- <- <-; lia].
    destruct (sss !! start) as [ss|]; [| injection Hext as <- <- <-; lia].
    apply IH in Hext; auto using shrink_pos.
    pose proof (shrink_le t ts Ht). pose proof (shrink_le h ss Hh).
    pose proof (shrink_le w ss Hw). lia.
Qed.

Lemma out_planes_lookup (kw : ResNeXt3D.kwargs) (s c : nat) :
  ResNeXt3D.out_planes kw !! s = Some c -> c = planes_at kw (S s).
Proof.
  unfold ResNeXt3D.out_planes. rewrite list_lookup_fmap.
  destruct (seq 0 (length (ResNeXt3D.num_blocks kw)) !! s) as [i|] eqn:Hi;
    [| discriminate].
  apply lookup_seq in Hi as [-> _]. by intros [= <-].
Qed.

Lemma in_planes_lookup (kw : ResNeXt3D.kwargs) (s c : nat) :
  ResNeXt3D.in_planes kw !! s = Some c -> c = planes_at kw s.
Proof.
  unfold ResNeXt3D.in_planes. destruct s as [|s]; cbn [app lookup list_lookup].
  - by intros [= <-].
  - change (removelast (ResNeXt3D.out_planes kw) !! s = Some c -> c = planes_at kw (S s)).
    rewrite removelast_firstn_len. intros [Hc _]%lookup_take_Some.
    by apply out_planes_lookup.
Qed.

Lemma inner_planes_lookup (kw : ResNeXt3D.kwargs) (s c : nat) :
  ResNeXt3D.inner_planes kw !! s = Some c ->
  c = ResNeXt3D.num_groups kw * ResNeXt3D.width_per_group kw * 2 ^ s.
Proof.
  unfold ResNeXt3D.inner_planes. rewrite list_lookup_fmap.
  destruct (seq 0 (length (ResNeXt3D.num_blocks kw)) !! s) as [i|] eqn:Hi;
    [| discriminate].
  apply lookup_seq in Hi as [-> _]. by intros [= <-].
Qed.

Lemma pow2_pos (s : nat) : 1 <= 2 ^ s.
Proof. pose proof (Nat.pow_nonzero 2 s). lia. Qed.

Lemma planes_at_pos (kw : ResNeXt3D.kwargs) (s : nat) :
  1 <= ResNeXt3D.stem_planes kw -> 1 <= ResNeXt3D.stage_planes kw ->
  1 <= planes_at kw s.
Proof.
  intros Hstem Hstage. destruct s as [|s]; cbn [planes_at]; [done |].
  pose proof (pow2_pos s). nia.
Qed.

Lemma inner_planes_pos (g w s : nat) : 1 <= g -> 1 <= w -> 1 <= g * w * 2 ^ s.
Proof. intros Hg Hw. pose proof (pow2_pos s). nia. Qed.

Lemma stage_body_built (kw : ResNeXt3D.kwargs) (s : nat) (stages : list ResStage.t)
    (tr : trace) (stages' : list ResStage.t) (tr' : trace) :
  ResNeXt3D.stage_body kw s stages tr = (Ok stages', tr') ->
  exists st, stages' = stages ++ [st] /\ stage_built kw s st.
Proof.
  unfold ResNeXt3D.stage_body. intros Hrun.
  apply Build_bind_Ok in Hrun as (s_in & tr1 & Hs_in%index_Ok & Hrun).
  apply Build_bind_Ok in Hrun as (s_out & tr2 & Hs_out%index_Ok & Hrun).
  apply Build_bind_Ok in Hrun as (s_inner & tr3 & Hs_inner%index_Ok & Hrun).
  apply Build_bind_Ok in Hrun as (s_basis & tr4 & Hs_basis%index_Ok & Hrun).
  apply Build_bind_Ok in Hrun as (s_c1 & tr5 & _ & Hrun).
  apply Build_bind_Ok in Hrun as (s_ts & tr6 & Hs_ts%index_Ok & Hrun).
  apply Build_bind_Ok in Hrun as (s_ss & tr7 & Hs_ss%index_Ok & Hrun).
  apply Build_bind_Ok in Hrun as (s_nb & tr8 & Hs_nb%index_Ok & Hrun).
  apply Build_bind_Ok in Hrun as (st & tr9 & Hst & Hrun).
  apply mret_run in Hrun as [<- _].
  exists st. split; [done |].
  by exists s_in, s_out, s_inner, s_basis, s_c1, s_ts, s_ss, s_nb, tr8, tr9.
Qed.

Lemma valid_stage_planes (kw : ResNeXt3D.kwargs) :
  valid_hyperparameters kw -> 1 <= ResNeXt3D.stage_planes kw.
Proof.
  intros Hvalid. pose proof (valid_planes kw Hvalid) as Hplanes.
  destruct (ResNeXt3D.stage_planes kw); [discriminate | lia].
Qed.

Section ModelShapes.

Context (kw : ResNeXt3D.kwargs) (Hvalid : valid_hyperparameters kw).
Context (v : visitor) (Hv : shape_preserving v).
Context (training : bool) (n : nat) (Hn : 1 <= n).

Lemma stages_forward_shape (items : list ResStage.t) :
  forall start t h w t' h' w',
    (forall j st, items !! j = Some st -> stage_built kw (start + j) st) ->
    1 <= t -> 1 <= h -> 1 <= w ->
    extent_after_stages (ResNeXt3D.stage_temporal_stride kw)
      (ResNeXt3D.stage_spatial_stride kw) start (length items) t h w = (t', h', w') ->
    bn_ok training n t' h' w' ->
    ResNeXt3D.stages_forward (map (ResStage.visit v) items) training
      [[n; planes_at kw start; t; h; w]]
    = Ok [[n; planes_at kw (start + length items); t'; h'; w']].
Proof.
  induction items as [|st items IH];
    intros start t h w t' h' w' Hitems Ht Hh Hw Hext Hbn.
  - cbn in Hext. injection Hext as <- <- <-. cbn. by rewrite Nat.add_0_r.
  - destruct (Hitems 0 st eq_refl)
      as (s_in & s_out & s_inner & s_basis & s_c1 & s_ts & s_ss & s_nb & tr & tr'
          & Hs_in & Hs_out & Hs_inner & Hs_basis & Hs_ts & Hs_ss & Hs_nb & Hst).
    rewrite Nat.add_0_r in *.
    apply in_planes_lookup in Hs_in as ->. apply out_planes_lookup in Hs_out as ->.
    apply inner_planes_lookup in Hs_inner as ->.
    rewrite (valid_skip kw Hvalid) in Hst.
    pose proof (inner_planes_pos _ _ start (valid_groups kw Hvalid)
                  (valid_width kw Hvalid)) as Hinner.
    pose proof (planes_at_pos kw (S start) (valid_stem_planes kw Hvalid)
                  (valid_stage_planes kw Hvalid)) as Hout.
    cbn [length extent_after_stages] in Hext. rewrite Hs_ts, Hs_ss in Hext.
    pose proof (proj1 (Forall_lookup _ _) (valid_temporal_stride kw Hvalid) _ _ Hs_ts)
      as Hts1.
    pose proof (proj1 (Forall_lookup _ _) (valid_spatial_stride kw Hvalid) _ _ Hs_ss)
      as Hss1.
    pose proof (proj1 (Forall_lookup _ _) (valid_blocks kw Hvalid) _ _ Hs_nb) as Hnb1.
    pose proof (proj1 (Forall_lookup _ _) (valid_basis kw Hvalid) _ _ Hs_basis) as Hodd.
    cbn beta in Hts1, Hss1, Hnb1, Hodd.
    pose proof (extent_after_stages_bounds _ _ _ _ _ _ _ _ _ _
                  (shrink_pos t s_ts) (shrink_pos h s_ss) (shrink_pos w s_ss) Hext)
      as (Ht' & Hh' & Hw').
    assert (Hbn1 : bn_ok training n (shrink t s_ts) (shrink h s_ss) (shrink w s_ss)).
    { apply (bn_ok_mono training n t' h' w'); (done || lia). }
    cbn [map ResNeXt3D.stages_forward].
    rewrite (ResStage_forward_shape training n t h w Hn Ht Hh Hw s_ts s_ss Hts1 Hss1
               Hbn1 _ _ _ _ _ _ _ _ _ _ _ _ _ _ _ _ _ v Hst Hv Hnb1 Hodd Hinner Hout).
    cbn [mbind result_bind].
    rewrite (IH (S start) _ _ _ t' h' w'); auto using shrink_pos.
    + cbn [length]. by rewrite Nat.add_succ_r.
    + intros j st' Hj. replace (S start + j) with (start + S j) by lia.
      by apply Hitems.
Qed.

End ModelShapes.

(** C1, as amended.  For every model built from valid hyper-parameters
    (pre-activated skip strategy, at least one channel in the input, out of
    the stem and per group, odd kernels, positive strides, at least one
    block per stage, 2048 channels out of the last stage), the forward
    pass on an input of shape (n, input_planes, t, h, w) with positive
    extents returns a tensor of shape (n, num_classes), provided the
    head's pooling window fits the feature map that reaches it, and in
    training mode covers it exactly and leaves batch normalisation more
    than one value per channel. *)
Theorem forward_shape_of_valid_model (kw : ResNeXt3D.kwargs) (training : bool)
    (n t h w t' h' w' : nat) (tr tr' : trace) (m : ResNeXt3D.t) :
  ResNeXt3D.init kw tr = (Ok m, tr') ->
  valid_hyperparameters kw ->
  1 <= n -> 1 <= t -> 1 <= h -> 1 <= w ->
  out_extent kw t h w = (t', h', w') ->
  pool_fits (ResNeXt3D.head_pool_size kw) training (t', h', w') ->
  bn_ok training n t' h' w' ->
  ResNeXt3D.forward m training [n; ResNeXt3D.input_planes kw; t; h; w]
  = Ok [n; ResNeXt3D.num_classes kw].
Proof.
  intros Hrun Hvalid Hn Ht Hh Hw Hext Hpool Hbn.
  apply ResNeXt3D_init_Ok in Hrun
    as (stem & stages & hd & tr1 & tr2 & tr3 & Hstem & Hstages & Hhead & ->).
  apply (for_loop_append _ _ (stage_body_built kw)) in Hstages
    as (items & -> & Hlen & Hitems).
  cbn [app] in *.
  pose proof (init_visitor_shape_preserving (ResNeXt3D.zero_init_residual_transform kw))
    as Hv.
  unfold out_extent, stem_extent in Hext. rewrite <- Hlen in Hext.
  pose proof (extent_after_stages_bounds _ _ _ _ _ _ _ _ _ _ Ht
                (shrink_pos (shrink h 2) 2) (shrink_pos (shrink w 2) 2) Hext)
    as (Ht' & Hh' & Hw').
  assert (Hbn0 : bn_ok training n t (shrink h 2) (shrink w 2)).
  { pose proof (shrink_le (shrink h 2) 2 (shrink_pos h 2)).
    pose proof (shrink_le (shrink w 2) 2 (shrink_pos w 2)).
    apply (bn_ok_mono training n t' h' w'); (done || lia). }
  unfold ResNeXt3D.forward, ResNeXt3D.set_head, ResNeXt3D._init_parameter.
  cbn [ResNeXt3D.stem ResNeXt3D.stages ResNeXt3D.head].
  rewrite (ResNeXt3DStem_forward_shape _ _ _ _ _ _ _ _ _ training n t h w 0 Hstem Hv
             (valid_stem_temporal_kernel kw Hvalid)
             (valid_stem_spatial_kernel kw Hvalid) (valid_stem_planes kw Hvalid)
             Ht Hh Hw Hbn0).
  cbn [mbind result_bind]. rewrite lookup_insert_eq. cbn [mbind result_bind].
  pose proof (stages_forward_shape kw Hvalid _ Hv training n Hn items 0 _ _ _ t' h' w'
                Hitems Ht (shrink_pos _ _) (shrink_pos _ _) Hext Hbn) as Hfwd.
  cbn [planes_at Nat.add] in Hfwd. rewrite Hfwd. cbn [mbind result_bind].
  assert (Hplanes : planes_at kw (length items) = 2048).
  { rewrite Hlen. pose proof (valid_stages kw Hvalid) as Hstages.
    pose proof (valid_planes kw Hvalid) as Hplanes.
    destruct (length (ResNeXt3D.num_blocks kw)) as [|k]; [lia |].
    cbn [planes_at]. by rewrite Nat.sub_succ, Nat.sub_0_r in Hplanes. }
  rewrite Hplanes. cbn [getitem lookup list_lookup mbind result_bind].
  apply (FullyConvolutionalLinearHead_forward_shape _ _ _ _ _ _ _ _ _ _ _ Hhead);
    (done || lia).
Qed.

(** The pre-activated reference model is valid, and its forward pass on a
    clip of 8 frames of 224 x 224 pixels, in training mode, has shape
    (1, 400). *)
Lemma forward_shape_of_valid_model_witness :
  exists m,
    construct (resnext3d_preact_i3d50 None) = Ok m /\
    ResNeXt3D.forward m true [1; 3; 8; 224; 224] = Ok [1; 400].
Proof.
  destruct (resnext3d_preact_i3d50 None []) as [[m|e] tr'] eqn:Hrun.
  - exists m. split; [unfold construct; by rewrite Hrun |].
    unfold resnext3d_preact_i3d50 in Hrun.
    apply (forward_shape_of_valid_model _ true 1 8 224 224 4 7 7 _ _ _ Hrun).
    + split; first [reflexivity | repeat constructor].
    + lia.
    + lia.
    + lia.
    + lia.
    + by vm_compute.
    + cbn. lia.
    + intros _. cbn. lia.
  - exfalso. vm_compute in Hrun. discriminate.
Defined.

(** C1, as stated, fails on the code: the pre-activated reference
    hyper-parameters are accepted by the constructors, and in training
    mode a clip of 16 frames leaves 5 pooled time positions, so the output
    has shape (1, 2000) = (batch, num_classes x positions), not (1, 400). *)
Lemma forward_shape_counterexample :
  exists m,
    construct (resnext3d_preact_i3d50 None) = Ok m /\
    ResNeXt3D.forward m true [1; 3; 16; 224; 224] = Ok [1; 2000] /\
    ResNeXt3D.forward m true [1; 3; 16; 224; 224] <> Ok [1; 400].
Proof.
  destruct (construct (resnext3d_preact_i3d50 None)) as [m|e] eqn:Hm.
  - exists m. split; [done |].
    assert (Hfwd : forward_shape (resnext3d_preact_i3d50 None) true [1; 3; 16; 224; 224]
                   = Ok [1; 2000]) by (by vm_compute).
    unfold forward_shape in Hfwd. rewrite Hm in Hfwd. cbn [mbind result_bind] in Hfwd.
    rewrite Hfwd. split; [done | discriminate].
  - exfalso. vm_compute in Hm. discriminate.
Qed.


(** ** The two modes of the fully-convolutional projection *)

Lemma ravel_lt (sh idx : list nat) :
  Forall2 (fun i e => i < e) idx sh -> ravel sh idx < Value.product sh.
Proof.
  intros Hall. induction Hall as [|i e idx sh Hi Hall IH]; cbn; [lia |].
  fold (Value.product sh). nia.
Qed.

Lemma unravel_ravel (sh idx : list nat) :
  Forall2 (fun i e => i < e) idx sh -> Value.unravel sh (ravel sh idx) = idx.
Proof.
  intros Hall. induction Hall as [|i e idx sh Hi Hall IH]; [done |].
  pose proof (ravel_lt sh idx Hall) as Hlt.
  cbn [Value.unravel ravel].
  rewrite Nat.div_add_l, Nat.div_small, Nat.add_0_r by lia.
  rewrite Nat.add_comm, Nat.Div0.mod_add, Nat.mod_small by lia.
  by rewrite IH.
Qed.

Section HeadModes.

Context {R : Type} (Rzero : R) (Radd Rmul Rdiv : R -> R -> R) (Rexp : R -> R)
  (Rofnat : nat -> R).
Context (weight : Linear -> nat -> nat -> R) (bias : Linear -> nat -> R).

Local Abbreviation tensor := (@Value.tensor R).
Local Abbreviation ops := (Value.head_ops Rzero Radd Rmul Rdiv Rexp Rofnat weight bias).
Local Abbreviation logit := (logit Rzero Radd Rmul weight bias).
Local Abbreviation averaged := (averaged Rzero Radd Rmul Rdiv Rexp Rofnat weight bias).

(** C6.  On a pooled input of shape (N, C, T, H, W): in training mode the
    projection returns a tensor of shape (N, T x H x W x K) holding, in
    row-major order of locations and classes, the logits of every
    location; in inference mode it returns a tensor of shape (N, K)
    holding, per class, the average over all locations of the softmax
    taken over the class axis at each location.  On every input with more
    than one location the two results differ. *)
Theorem fully_convolutional_linear_modes (lin : Linear) (x : tensor)
    (N C T H W K : nat) :
  Value.shape x = [N; C; T; H; W] ->
  in_features lin = C ->
  out_features lin = K ->
  let fcl := FullyConvolutionalLinear.mk lin 4 in
  (exists y,
     @FullyConvolutionalLinear.forward tensor ops fcl true x = Ok y /\
     Value.shape y = [N; T * H * W * K] /\
     forall n t h w k, t < T -> h < H -> w < W -> k < K ->
       Value.entry y [n; ravel [T; H; W; K] [t; h; w; k]] = logit lin x n t h w k) /\
  (exists y,
     @FullyConvolutionalLinear.forward tensor ops fcl false x = Ok y /\
     Value.shape y = [N; K] /\
     forall n k, Value.entry y [n; k] = averaged lin x T H W n k) /\
  (2 <= T * H * W -> 1 <= K ->
   @FullyConvolutionalLinear.forward tensor ops fcl true x
   <> @FullyConvolutionalLinear.forward tensor ops fcl false x).
Proof.
  destruct x as [sh e]. cbn [Value.shape]. intros -> <- <-.
  set (fcl := FullyConvolutionalLinear.mk lin 4).
  assert (Htrain : exists y,
    @FullyConvolutionalLinear.forward tensor ops fcl true
      (Value.mk [N; in_features lin; T; H; W] e) = Ok y /\
    Value.shape y = [N; T * H * W * out_features lin] /\
    forall n t h w k, t < T -> h < H -> w < W -> k < out_features lin ->
      Value.entry y [n; ravel [T; H; W; out_features lin] [t; h; w; k]]
      = logit lin (Value.mk [N; in_features lin; T; H; W] e) n t h w k).
  { eexists. split; [| split].
    - unfold FullyConvolutionalLinear.forward, fcl, ops.
      cbn [permute linear flatten Value.head_ops FullyConvolutionalLinear.projection
           negb].
      unfold Value.permute. cbn [Value.shape]. rewrite Shape_permute_02341.
      cbn [mbind result_bind mret result_ret].
      unfold Value.linear, Shape.linear. cbn [Value.shape rev app].
      rewrite Nat.eqb_refl. cbn [mbind result_bind mret result_ret rev app].
      reflexivity.
    - cbn [Value.shape take drop app foldr]. by rewrite Nat.mul_1_r, !Nat.mul_assoc.
    - intros n t h w k Ht Hh Hw Hk.
      cbn [Value.entry Value.shape take drop app nth].
      rewrite unravel_ravel by (repeat constructor; done).
      reflexivity. }
  assert (Hinfer : exists y,
    @FullyConvolutionalLinear.forward tensor ops fcl false
      (Value.mk [N; in_features lin; T; H; W] e) = Ok y /\
    Value.shape y = [N; out_features lin] /\
    forall n k, Value.entry y [n; k]
                = averaged lin (Value.mk [N; in_features lin; T; H; W] e) T H W n k).
  { eexists. split; [| split].
    - unfold FullyConvolutionalLinear.forward, fcl, ops.
      cbn [permute linear softmax mean flatten Value.head_ops
           FullyConvolutionalLinear.projection FullyConvolutionalLinear.act negb].
      unfold Value.permute. cbn [Value.shape]. rewrite Shape_permute_02341.
      cbn [mbind result_bind mret result_ret].
      unfold Value.linear, Shape.linear. cbn [Value.shape rev app].
      rewrite Nat.eqb_refl. cbn [mbind result_bind mret result_ret rev app].
      reflexivity.
    - cbn [Value.shape take drop app foldr Shape.drop_dims existsb Nat.eqb orb].
      by rewrite Nat.mul_1_r.
    - intros n k.
      cbn [Value.entry Value.shape take drop app nth Value.unravel Value.product foldr
           Shape.drop_dims existsb Nat.eqb orb].
      rewrite Nat.div_1_r. unfold averaged.
      replace (T * H * W) with (T * (H * (W * 1)))
        by (by rewrite Nat.mul_1_r, Nat.mul_assoc).
      reflexivity. }
  split; [exact Htrain |]. split; [exact Hinfer |].
  intros Hpos HK Heq.
  destruct Htrain as (y1 & Hy1 & Hs1 & _), Hinfer as (y2 & Hy2 & Hs2 & _).
  rewrite Hy1, Hy2 in Heq. injection Heq as ->.
  rewrite Hs1 in Hs2. injection Hs2 as Hsize. nia.
Qed.

End HeadModes.

Lemma fully_convolutional_linear_modes_witness :
  let fcl := FullyConvolutionalLinear.mk (mkLinear 2 3 default_init default_init) 4 in
  (exists y, @FullyConvolutionalLinear.forward _ nat_head_ops fcl true two_positions
             = Ok y /\ Value.shape y = [1; 6]) /\
  (exists y, @FullyConvolutionalLinear.forward _ nat_head_ops fcl false two_positions
             = Ok y /\ Value.shape y = [1; 3]) /\
  @FullyConvolutionalLinear.forward _ nat_head_ops fcl true two_positions
  <> @FullyConvolutionalLinear.forward _ nat_head_ops fcl false two_positions.
Proof.
  intros fcl.
  destruct (fully_convolutional_linear_modes 0 Nat.add Nat.mul Nat.div (Nat.pow 2)
              (fun n => n) (fun _ k c => k + c) (fun _ k => k)
              (mkLinear 2 3 default_init default_init) two_positions 1 2 2 1 1 3
              eq_refl eq_refl eq_refl)
    as ((y1 & Hy1 & Hs1 & _) & (y2 & Hy2 & Hs2 & _) & Hne).
  split; [by exists y1 |]. split; [by exists y2 |].
  apply Hne; simpl; lia.
Defined.

(** * Further properties of the code *)

(** ** Blocks with a post-activated projection *)

Lemma postactivated_skip_never_Ok {T : Type} `{BackboneOps T} (blk : ResBlock.t)
    (pm : PostactivatedShortcutTransformation.t) (training : bool) (x y : T) :
  ResBlock.skip blk = ResBlock.Skip_Postactivated pm ->
  ResBlock.forward blk training x <> Ok y.
Proof.
  intros Hskip. unfold ResBlock.forward. rewrite Hskip.
  cbn [ResBlock.skip_forward ResBlock.skip_stride].
  destruct (PostactivatedShortcutTransformation.forward pm training x); [| done].
  cbn [mbind result_bind].
  by destruct (ResBlock.residual_forward _ _ _).
Qed.

(** X1.  A block built with the post-activated skip strategy whose channel
    counts differ or one of whose strides is not 1 never returns from its
    forward pass, whatever the tensor primitives, the mode and the input:
    when its skip path and its residual path both succeed, the diagnostic
    [print(self.skip.stride)] raises the attribute error. *)
Theorem postactivated_projection_block_never_returns {T : Type} `{BackboneOps T}
    (dim_in dim_out dim_inner k : nat) (c1 : bool) (ts ss : nat) (rs : residual_class)
    (grp : nat) (ir : bool) (e m : Q) (disable : bool) (tr tr' : trace)
    (blk : ResBlock.t) :
  ResBlock.init dim_in dim_out dim_inner k c1 ts ss
    PostactivatedShortcutTransformation_cls rs grp ir e m disable tr = (Ok blk, tr') ->
  dim_in <> dim_out \/ ts <> 1 \/ ss <> 1 ->
  forall (training : bool) (x : T),
    (forall y, ResBlock.forward blk training x <> Ok y) /\
    (forall a b,
       ResBlock.skip_forward (ResBlock.skip blk) training x = Ok a ->
       ResBlock.residual_forward (ResBlock.residual blk) training x = Ok b ->
       ResBlock.forward blk training x
       = Raise (AttributeError "PostactivatedShortcutTransformation" "stride")).
Proof.
  intros Hrun Hdiff training x.
  apply ResBlock_init_Ok in Hrun as (tr1 & tr2 & tr3 & Hskip & _ & _).
  destruct (projection_needed dim_in dim_out ts ss) eqn:Hneed.
  - destruct Hskip as (pm & _ & Hskip). split.
    + intros y. by apply (postactivated_skip_never_Ok blk pm).
    + intros a b Ha Hb. unfold ResBlock.forward. rewrite Ha, Hb, Hskip. done.
  - apply projection_needed_false in Hneed. lia.
Qed.

Lemma postactivated_projection_block_never_returns_witness :
  exists blk,
    construct postact_projection_block = Ok blk /\
    ResBlock.forward blk true [1; 64; 8; 56; 56]
    = Raise (AttributeError "PostactivatedShortcutTransformation" "stride").
Proof.
  destruct (postact_projection_block []) as [[blk|e] tr'] eqn:Hrun.
  - exists blk. split; [unfold construct; by rewrite Hrun |].
    unfold postact_projection_block in Hrun.
    assert (Hdiff : 64 <> 256 \/ 1 <> 1 \/ 1 <> 1) by (left; lia).
    destruct (postactivated_projection_block_never_returns
                _ _ _ _ _ _ _ _ _ _ _ _ _ _ _ _ Hrun Hdiff
                true [1; 64; 8; 56; 56]) as [_ Hraise].
    vm_compute in Hrun. injection Hrun as <- _.
    eapply Hraise; vm_compute; reflexivity.
  - exfalso. vm_compute in Hrun. discriminate.
Defined.

(** ** Loops that fill a dictionary *)

Lemma for_loop_insert {A : Type} (name : nat -> string) (Hinj : Inj (=) (=) name)
    (ok : nat -> A -> Prop) (body : nat -> gmap string A -> Build (gmap string A)) :
  (forall i m tr m' tr',
     body i m tr = (Ok m', tr') -> exists a, m' = <[name i := a]> m /\ ok i a) ->
  forall n m tr tr',
    for_loop body 0 n ∅ tr = (Ok m, tr') ->
    (forall p, p < n -> exists a, m !! name p = Some a /\ ok p a) /\
    (forall key a, m !! key = Some a -> exists p, p < n /\ key = name p /\ ok p a).
Proof.
  intros Hbody n m tr tr' Hrun.
  apply (for_loop_Build_inv (fun i (m : gmap string A) =>
           (forall p, p < i -> exists a, m !! name p = Some a /\ ok p a) /\
           (forall key a, m !! key = Some a ->
              exists p, p < i /\ key = name p /\ ok p a))) in Hrun;
    [exact Hrun | |].
  - intros i m0 tr0 m1 tr1 [Hall Honly] Hstep.
    apply Hbody in Hstep as (a & -> & Hok). split.
    + intros p Hp. destruct (decide (p = i)) as [->|Hne].
      * exists a. by rewrite lookup_insert_eq.
      * rewrite lookup_insert_ne by (intros Heq; by apply Hinj in Heq).
        apply Hall. lia.
    + intros key b. destruct (decide (key = name i)) as [->|Hne].
      * rewrite lookup_insert_eq. intros [= <-]. exists i. split; [lia | done].
      * rewrite lookup_insert_ne by done. intros Hlook.
        destruct (Honly _ _ Hlook) as (p & Hp & Hkey & Hokp).
        exists p. split; [lia | done].
  - split; [lia |]. intros key a. by rewrite lookup_empty.
Qed.

Lemma stem_name_inj : Inj (=) (=) ResNeXt3DStemMultiPathway._stem_name.
Proof.
  intros p q Hpq. unfold ResNeXt3DStemMultiPathway._stem_name in Hpq.
  apply String.app_inj in Hpq. by apply pretty_nat_inj in Hpq.
Qed.

(** ** The blocks of a stage that was built *)

Section StageBuilt.

Context (stage_idx : nat) (dim_in dim_out dim_inner : list nat)
  (temporal_kernel_basis : list (list nat)) (temporal_conv_1x1 : list bool)
  (temporal_stride spatial_stride num_blocks num_groups : list nat)
  (skip_transformation : skip_class) (residual_transformation : residual_class)
  (inplace_relu : bool) (bn_eps bn_mmt : Q)
  (disable_pre_activation final_stage : bool).

Let pathway_built := pathway_built dim_in dim_out dim_inner temporal_conv_1x1
  temporal_stride spatial_stride num_blocks num_groups skip_transformation
  residual_transformation inplace_relu bn_eps bn_mmt disable_pre_activation.

Lemma pathway_body_built (tks : list (list nat)) (p : nat)
    (pws : gmap string (list ResStage.seq_item)) (tr : trace)
    (pws' : gmap string (list ResStage.seq_item)) (tr' : trace) :
  ResStage.pathway_body dim_in dim_out dim_inner temporal_conv_1x1 temporal_stride
    spatial_stride num_blocks num_groups skip_transformation residual_transformation
    inplace_relu bn_eps bn_mmt disable_pre_activation final_stage tks p pws tr
  = (Ok pws', tr') ->
  exists blocks, pws' = <[ResStage._pathway_name p := blocks]> pws /\
                 pathway_built tks p blocks.
Proof.
  unfold ResStage.pathway_body. intros Hrun.
  apply Build_bind_Ok in Hrun as (n & tr1 & Hn%index_Ok & Hrun).
  apply Build_bind_Ok in Hrun as (blocks & tr2 & Hblocks & Hrun).
  apply Build_bind_Ok in Hrun as (blocks' & tr3 & Hfinal & Hrun).
  apply Build_bind_Ok in Hrun as (u & tr4 & _ & Hrun).
  apply mret_run in Hrun as [<- _].
  rewrite final_activation_run in Hfinal. apply mret_run in Hfinal as [<- _].
  apply (for_loop_append _ _
           (block_body_built dim_in dim_out dim_inner temporal_conv_1x1
              temporal_stride spatial_stride num_groups skip_transformation
              residual_transformation inplace_relu bn_eps bn_mmt
              disable_pre_activation tks p))
    in Hblocks as (items & -> & Hlen & Hitems).
  exists items. split; [done |]. exists n. by repeat split.
Qed.

(** Every pathway of a stage that was built is in the dictionary under its
    name, and the dictionary holds nothing else. *)
Lemma ResStage_init_built (tr tr' : trace) (st : ResStage.t) :
  ResStage.init stage_idx dim_in dim_out dim_inner temporal_kernel_basis
    temporal_conv_1x1 temporal_stride spatial_stride num_blocks num_groups
    skip_transformation residual_transformation inplace_relu bn_eps bn_mmt
    disable_pre_activation final_stage tr = (Ok st, tr') ->
  let tks := zip_with cycled temporal_kernel_basis num_blocks in
  stage_lengths_equal dim_in dim_out dim_inner temporal_kernel_basis
    temporal_conv_1x1 temporal_stride spatial_stride num_blocks num_groups /\
  ResStage.num_pathways st = length num_blocks /\
  ResStage.temporal_kernel_sizes st = tks /\
  (forall p, p < length num_blocks ->
     exists blocks, ResStage.pathways st !! ResStage._pathway_name p = Some blocks
                    /\ pathway_built tks p blocks) /\
  (forall key blocks, ResStage.pathways st !! key = Some blocks ->
     exists p, p < length num_blocks /\ key = ResStage._pathway_name p
               /\ pathway_built tks p blocks).
Proof.
  intros Hrun tks.
  apply ResStage_init_Ok in Hrun as (Hlen & pws & tr1 & Hloop & ->).
  split; [exact Hlen |]. split; [done |]. split; [done |].
  cbn [ResStage.pathways].
  apply (for_loop_insert ResStage._pathway_name pathway_name_inj
           (pathway_built tks)) in Hloop; [exact Hloop |].
  intros i m tr0 m' tr0' Hbody. by apply pathway_body_built in Hbody.
Qed.

End StageBuilt.

(** ** What the bottleneck constructors return *)

Lemma PostactivatedBottleneckTransformation_init_Ok
    (dim_in dim_out ts ss grp dim_inner k : nat) (c1 s1 ir : bool) (e m : Q)
    (tr tr' : trace) (rm : PostactivatedBottleneckTransformation.t) :
  PostactivatedBottleneckTransformation.init dim_in dim_out ts ss grp dim_inner k c1
    s1 ir e m tr = (Ok rm, tr') ->
  let k1 := if c1 then k else 1 in
  let k3 := if c1 then 1 else k in
  let str1 := if s1 then ss else 1 in
  let str3 := if s1 then 1 else ss in
  rm = PostactivatedBottleneckTransformation.mk
         (mkConv3d dim_in dim_inner (k1, 1, 1) (1, str1, str1) (k1 / 2, 0, 0) 1
            default_init None false)
         (mkBatchNorm3d dim_inner e m true default_init default_init false)
         (L_ReLU ir)
         (mkConv3d dim_inner dim_inner (k3, 3, 3) (ts, str3, str3) (k3 / 2, 1, 1) grp
            default_init None false)
         (mkBatchNorm3d dim_inner e m true default_init default_init false)
         (L_ReLU ir)
         (mkConv3d dim_inner dim_out (1, 1, 1) (1, 1, 1) (0, 0, 0) 1
            default_init None false)
         (mkBatchNorm3d dim_out e m true default_init default_init true).
Proof.
  unfold PostactivatedBottleneckTransformation.init. intros Hrun.
  apply Build_bind_Ok in Hrun as (u & tr0 & _ & Hrun).
  apply Build_bind_Ok in Hrun as (a & tr1 & ->%nn_Conv3d_Ok & Hrun).
  apply Build_bind_Ok in Hrun as (a_bn & tr2 & ->%nn_BatchNorm3d_Ok & Hrun).
  apply Build_bind_Ok in Hrun as (a_relu & tr3 & ->%nn_ReLU_Ok & Hrun).
  apply Build_bind_Ok in Hrun as (b & tr4 & ->%nn_Conv3d_Ok & Hrun).
  apply Build_bind_Ok in Hrun as (b_bn & tr5 & ->%nn_BatchNorm3d_Ok & Hrun).
  apply Build_bind_Ok in Hrun as (b_relu & tr6 & ->%nn_ReLU_Ok & Hrun).
  apply Build_bind_Ok in Hrun as (c & tr7 & ->%nn_Conv3d_Ok & Hrun).
  apply Build_bind_Ok in Hrun as (c_bn & tr8 & ->%nn_BatchNorm3d_Ok & Hrun).
  by apply mret_run in Hrun as [<- _].
Qed.

Lemma PreactivatedBottleneckTransformation_init_Ok
    (dim_in dim_out ts ss grp dim_inner k : nat) (c1 s1 ir : bool) (e m : Q)
    (disable : bool) (tr tr' : trace) (rm : PreactivatedBottleneckTransformation.t) :
  PreactivatedBottleneckTransformation.init dim_in dim_out ts ss grp dim_inner k c1
    s1 ir e m disable tr = (Ok rm, tr') ->
  let k1 := if c1 then k else 1 in
  let k3 := if c1 then 1 else k in
  let str1 := if s1 then ss else 1 in
  let str3 := if s1 then 1 else ss in
  rm = PreactivatedBottleneckTransformation.mk disable
         (if disable then L_Identity
          else L_BatchNorm3d
                 (mkBatchNorm3d dim_in e m true default_init default_init false))
         (if disable then L_Identity else L_ReLU ir)
         (mkConv3d dim_in dim_inner (k1, 1, 1) (1, str1, str1) (k1 / 2, 0, 0) 1
            default_init None false)
         (mkBatchNorm3d dim_inner e m true default_init default_init false)
         (L_ReLU ir)
         (mkConv3d dim_inner dim_inner (k3, 3, 3) (ts, str3, str3) (k3 / 2, 1, 1) grp
            default_init None false)
         (mkBatchNorm3d dim_inner e m true default_init default_init false)
         (L_ReLU ir)
         (mkConv3d dim_inner dim_out (1, 1, 1) (1, 1, 1) (0, 0, 0) 1
            default_init None true).
Proof.
  unfold PreactivatedBottleneckTransformation.init. intros Hrun.
  apply Build_bind_Ok in Hrun as (u & tr0 & _ & Hrun).
  apply Build_bind_Ok in Hrun as (a_bn & tr1 & Ha_bn & Hrun).
  apply Build_bind_Ok in Hrun as (a_relu & tr2 & Ha_relu & Hrun).
  apply Build_bind_Ok in Hrun as (a & tr3 & ->%nn_Conv3d_Ok & Hrun).
  apply Build_bind_Ok in Hrun as (b_bn & tr4 & ->%nn_BatchNorm3d_Ok & Hrun).
  apply Build_bind_Ok in Hrun as (b_relu & tr5 & ->%nn_ReLU_Ok & Hrun).
  apply Build_bind_Ok in Hrun as (b & tr6 & ->%nn_Conv3d_Ok & Hrun).
  apply Build_bind_Ok in Hrun as (c_bn & tr7 & ->%nn_BatchNorm3d_Ok & Hrun).
  apply Build_bind_Ok in Hrun as (c_relu & tr8 & ->%nn_ReLU_Ok & Hrun).
  apply Build_bind_Ok in Hrun as (c & tr9 & ->%nn_Conv3d_Ok & Hrun).
  apply mret_run in Hrun as [<- _].
  destruct disable; cbn [negb] in Ha_bn, Ha_relu.
  - apply nn_Identity_Ok in Ha_bn as ->. by apply nn_Identity_Ok in Ha_relu as ->.
  - apply Build_fmap_Ok in Ha_bn as (bn & ->%nn_BatchNorm3d_Ok & ->).
    by apply nn_ReLU_Ok in Ha_relu as ->.
Qed.

(** ** Temporal kernel sizes, by index *)

Lemma list_mul_lookup {A : Type} (l : list A) (k i : nat) :
  i < k * length l -> list_mul l k !! i = l !! (i mod length l).
Proof.
  revert i. induction k as [|k IH]; intros i Hi; [lia |].
  change (list_mul l (S k)) with (l ++ list_mul l k).
  destruct (decide (i < length l)) as [Hlt|Hge].
  - rewrite lookup_app_l by done. by rewrite Nat.mod_small.
  - rewrite lookup_app_r by lia. rewrite IH by lia. f_equal.
    replace i with ((i - length l) + 1 * length l) at 2 by lia.
    by rewrite Nat.Div0.mod_add.
Qed.

Lemma cycled_lookup (basis : list nat) (n i : nat) :
  basis <> [] -> i < n -> cycled basis n !! i = basis !! (i mod length basis).
Proof.
  intros Hne Hi. unfold cycled. rewrite lookup_take_lt by done.
  apply list_mul_lookup. destruct basis; [done |]. simpl. nia.
Qed.

Lemma cycled_nil (n : nat) : cycled [] n = [].
Proof.
  unfold cycled, list_mul.
  assert (Hnil : forall k, concat (replicate k (@nil nat)) = []).
  { intros k. induction k as [|k IH]; [done |]. simpl. exact IH. }
  rewrite Hnil. apply take_nil.
Qed.

Section StageBlockFacts.

Context (stage_idx : nat) (dim_in dim_out dim_inner : list nat)
  (temporal_kernel_basis : list (list nat)) (temporal_conv_1x1 : list bool)
  (temporal_stride spatial_stride num_blocks num_groups : list nat)
  (skip_transformation : skip_class) (residual_transformation : residual_class)
  (inplace_relu : bool) (bn_eps bn_mmt : Q)
  (disable_pre_activation final_stage : bool).

Let init := ResStage.init stage_idx dim_in dim_out dim_inner temporal_kernel_basis
  temporal_conv_1x1 temporal_stride spatial_stride num_blocks num_groups
  skip_transformation residual_transformation inplace_relu bn_eps bn_mmt
  disable_pre_activation final_stage.

(** Item [i] of pathway [p] of a stage that was built. *)
Lemma ResStage_init_item (tr tr' : trace) (st : ResStage.t) (p i : nat)
    (blocks : list ResStage.seq_item) (a : ResStage.seq_item) :
  init tr = (Ok st, tr') ->
  ResStage.pathways st !! ResStage._pathway_name p = Some blocks ->
  blocks !! i = Some a ->
  exists n, num_blocks !! p = Some n /\ i < n /\
    block_built dim_in dim_out dim_inner temporal_conv_1x1 temporal_stride
      spatial_stride num_groups skip_transformation residual_transformation
      inplace_relu bn_eps bn_mmt disable_pre_activation
      (zip_with cycled temporal_kernel_basis num_blocks) p i a.
Proof.
  intros Hrun Hblocks Ha.
  apply ResStage_init_built in Hrun as (_ & _ & _ & _ & Honly).
  destruct (Honly _ _ Hblocks) as (p' & _ & Hname & n & Hn & Hlen & Hitems).
  apply pathway_name_inj in Hname as <-.
  exists n. split; [done |]. split; [| by apply Hitems].
  apply lookup_lt_Some in Ha. lia.
Qed.

Lemma ResStage_init_block_kernels (tr tr' : trace) (st : ResStage.t) (p i : nat)
    (blocks : list ResStage.seq_item) (b : ResBlock.t) (basis : list nat)
    (c1 : bool) :
  init tr = (Ok st, tr') ->
  ResStage.pathways st !! ResStage._pathway_name p = Some blocks ->
  blocks !! i = Some (ResStage.Seq_ResBlock b) ->
  temporal_kernel_basis !! p = Some basis ->
  temporal_conv_1x1 !! p = Some c1 ->
  exists k, basis !! (i mod length basis) = Some k /\
            block_temporal_kernels b = if c1 then (k, 1) else (1, k).
Proof.
  intros Hrun Hblocks Hb Hbasis Hc1.
  destruct (ResStage_init_item _ _ _ _ _ _ _ Hrun Hblocks Hb)
    as (n & Hn & Hi & b' & d_in & d_out & d_inner & sizes & k & c1' & ts & ss & g
        & tr1 & tr2 & [= <-] & _ & _ & _ & Hsizes & Hk & Hc1' & _ & _ & _ & Hinit).
  rewrite Hc1 in Hc1'. injection Hc1' as <-.
  rewrite lookup_zip_with, Hbasis in Hsizes. cbn in Hsizes. rewrite Hn in Hsizes.
  cbn in Hsizes. injection Hsizes as <-.
  assert (Hne : basis <> []).
  { intros ->. rewrite cycled_nil in Hk. by rewrite lookup_nil in Hk. }
  rewrite cycled_lookup in Hk by done.
  exists k. split; [done |].
  apply ResBlock_init_Ok in Hinit as (tr3 & tr4 & tr5 & _ & Hres & _).
  unfold block_temporal_kernels.
  destruct residual_transformation, Hres as (rm & Hrm & ->).
  - apply PostactivatedBottleneckTransformation_init_Ok in Hrm as ->.
    by destruct c1.
  - apply PreactivatedBottleneckTransformation_init_Ok in Hrm as ->.
    by destruct c1.
Qed.

Lemma ResStage_init_block_skips (tr tr' : trace) (st : ResStage.t) (p i : nat)
    (blocks : list ResStage.seq_item) (b : ResBlock.t) :
  init tr = (Ok st, tr') ->
  ResStage.pathways st !! ResStage._pathway_name p = Some blocks ->
  blocks !! i = Some (ResStage.Seq_ResBlock b) ->
  (1 <= i -> ResBlock.skip b = ResBlock.Skip_Identity) /\
  (i = 0 ->
   exists d_in d_out ts ss,
     dim_in !! p = Some d_in /\ dim_out !! p = Some d_out /\
     temporal_stride !! p = Some ts /\ spatial_stride !! p = Some ss /\
     (is_projection (ResBlock.skip b) <-> (d_in <> d_out \/ ts <> 1 \/ ss <> 1))) /\
  (forall rm, ResBlock.residual b = ResBlock.Residual_Preactivated rm ->
     PreactivatedBottleneckTransformation.disable_pre_activation rm
     = disable_pre_activation && (i =? 0)).
Proof.
  intros Hrun Hblocks Hb.
  destruct (ResStage_init_item _ _ _ _ _ _ _ Hrun Hblocks Hb)
    as (n & Hn & Hi & b' & d_in & d_out & d_inner & sizes & k & c1 & ts & ss & g
        & tr1 & tr2 & [= <-] & Hd_in & Hd_out & _ & _ & _ & _ & Hts & Hss & _ & Hinit).
  apply ResBlock_init_Ok in Hinit as (tr3 & tr4 & tr5 & Hskip & Hres & _).
  split; [| split].
  - intros Hi1. destruct i as [|i]; [lia |]. cbn [Nat.eqb] in *. subst ts ss.
    rewrite Hd_out in Hd_in. injection Hd_in as <-.
    assert (Hno : projection_needed d_out d_out 1 1 = false)
      by (by apply projection_needed_false).
    by rewrite Hno in Hskip.
  - intros ->. cbn [Nat.eqb] in *. exists d_in, d_out, ts, ss.
    repeat (split; [done |]).
    destruct (projection_needed d_in d_out ts ss) eqn:Hneed.
    + assert (Hproj : is_projection (ResBlock.skip b)).
      { destruct skip_transformation, Hskip as (pm & _ & ->); exact I. }
      assert (Hdiff : ~ (d_in = d_out /\ ss = 1 /\ ts = 1)).
      { rewrite <- projection_needed_false. by rewrite Hneed. }
      split; [intros _; lia | done].
    + apply projection_needed_false in Hneed as (-> & -> & ->).
      rewrite Hskip. cbn. split; [done | lia].
  - intros rm Hrm. destruct residual_transformation, Hres as (rm' & Hrm' & Heq);
      rewrite Heq in Hrm; [discriminate |]. injection Hrm as <-.
    by apply PreactivatedBottleneckTransformation_init_Ok in Hrm' as ->.
Qed.

Lemma ResStage_init_empty_basis (p n : nat) :
  temporal_kernel_basis !! p = Some [] ->
  num_blocks !! p = Some n ->
  1 <= n ->
  (forall tr st tr', init tr <> (Ok st, tr')) /\
  (p = 0 ->
   stage_lengths_equal dim_in dim_out dim_inner temporal_kernel_basis
     temporal_conv_1x1 temporal_stride spatial_stride num_blocks num_groups ->
   forall tr, init tr = (Raise IndexError, tr ++ ["ResStage"])).
Proof.
  intros Hbasis Hn Hn1. split.
  - intros tr st tr' Hrun.
    pose proof Hrun as Hbuilt.
    apply ResStage_init_built in Hbuilt as (_ & _ & _ & Hall & _).
    destruct (Hall p) as (blocks & Hblocks & n' & Hn' & Hlen & _).
    { by apply lookup_lt_Some in Hn. }
    rewrite Hn in Hn'. injection Hn' as <-.
    destruct (lookup_lt_is_Some_2 blocks 0) as [a Ha]; [lia |].
    destruct (ResStage_init_item _ _ _ _ _ _ _ Hrun Hblocks Ha)
      as (_ & _ & _ & b' & d_in & d_out & d_inner & sizes & k & c1 & ts & ss & g
          & tr1 & tr2 & _ & _ & _ & _ & Hsizes & Hk & _).
    rewrite lookup_zip_with, Hbasis in Hsizes. cbn in Hsizes. rewrite Hn in Hsizes.
    cbn in Hsizes. injection Hsizes as <-.
    rewrite cycled_nil in Hk. by rewrite lookup_nil in Hk.
  - intros -> Hlen tr. unfold init. rewrite ResStage_init_run.
    rewrite (proj2 (unequal_lengths_false _ _ _ _ _ _ _ _ _) Hlen).
    rewrite make_temporal_kernel_sizes_run
      by (unfold stage_lengths_equal in Hlen; lia).
    destruct num_blocks as [|n0 nbs]; [done |]. injection Hn as ->.
    destruct temporal_kernel_basis as [|b0 tkb]; [done |]. injection Hbasis as ->.
    unfold stage_lengths_equal in Hlen. cbn [length] in Hlen.
    destruct dim_in as [|di dis]; [cbn in Hlen; lia |].
    destruct dim_out as [|do dos]; [cbn in Hlen; lia |].
    destruct dim_inner as [|dn dns]; [cbn in Hlen; lia |].
    destruct n as [|n]; [lia |].
    cbn [length for_loop zip_with]. rewrite cycled_nil.
    rewrite Build_bind_run. unfold ResStage.pathway_body at 1.
    rewrite Build_bind_run, (index_run _ _ (S n)) by done.
    rewrite Build_bind_run. cbn [for_loop].
    rewrite Build_bind_run. unfold ResStage.block_body at 1. cbn [Nat.eqb].
    rewrite Build_bind_run, (index_run _ _ di) by done.
    rewrite Build_bind_run, (index_run _ _ do) by done.
    rewrite Build_bind_run, (index_run _ _ dn) by done.
    rewrite Build_bind_run, (index_run _ _ (@nil nat)) by done.
    reflexivity.
Qed.

End StageBlockFacts.

(** X2.  In a stage that was built, block [i] of pathway [p] carries the
    temporal kernel size [basis[i mod len(basis)]] of the pathway's kernel
    basis: on its first convolution (Tx1x1) when [temporal_conv_1x1[p]]
    holds, on its second (Tx3x3) otherwise, the other of the two having
    temporal size 1. *)
Theorem block_temporal_kernel_cycles
    (stage_idx : nat) (dim_in dim_out dim_inner : list nat)
    (temporal_kernel_basis : list (list nat)) (temporal_conv_1x1 : list bool)
    (temporal_stride spatial_stride num_blocks num_groups : list nat)
    (skip_transformation : skip_class) (residual_transformation : residual_class)
    (inplace_relu : bool) (bn_eps bn_mmt : Q)
    (disable_pre_activation final_stage : bool) (tr tr' : trace) (st : ResStage.t)
    (p i : nat) (blocks : list ResStage.seq_item) (b : ResBlock.t)
    (basis : list nat) (c1 : bool) :
  ResStage.init stage_idx dim_in dim_out dim_inner temporal_kernel_basis
    temporal_conv_1x1 temporal_stride spatial_stride num_blocks num_groups
    skip_transformation residual_transformation inplace_relu bn_eps bn_mmt
    disable_pre_activation final_stage tr = (Ok st, tr') ->
  ResStage.pathways st !! ResStage._pathway_name p = Some blocks ->
  blocks !! i = Some (ResStage.Seq_ResBlock b) ->
  temporal_kernel_basis !! p = Some basis ->
  temporal_conv_1x1 !! p = Some c1 ->
  exists k, basis !! (i mod length basis) = Some k /\
            block_temporal_kernels b = if c1 then (k, 1) else (1, k).
Proof. intros. eapply ResStage_init_block_kernels; eassumption. Qed.

Lemma block_temporal_kernel_cycles_witness :
  exists st blocks b,
    construct stage_3_1_5 = Ok st /\
    ResStage.pathways st !! ResStage._pathway_name 0 = Some blocks /\
    blocks !! 2 = Some (ResStage.Seq_ResBlock b) /\
    block_temporal_kernels b = (3, 1).
Proof.
  destruct (stage_3_1_5 []) as [[st|e] tr'] eqn:Hrun;
    [| exfalso; vm_compute in Hrun; discriminate].
  destruct (ResStage.pathways st !! ResStage._pathway_name 0) as [blocks|] eqn:Hblocks;
    [| exfalso; vm_compute in Hrun; injection Hrun as <- _;
       vm_compute in Hblocks; discriminate].
  destruct (blocks !! 2) as [[b|l]|] eqn:Hb.
  - exists st, blocks, b. split; [unfold construct; by rewrite Hrun |].
    split; [done |]. split; [done |].
    unfold stage_3_1_5 in Hrun.
    destruct (block_temporal_kernel_cycles _ _ _ _ _ _ _ _ _ _ _ _ _ _ _ _ _ _ _ _
                0 2 blocks b [3; 1] true Hrun Hblocks Hb eq_refl eq_refl)
      as (k & Hk & Hkern).
    cbn in Hk. injection Hk as <-. exact Hkern.
  - exfalso. vm_compute in Hrun. injection Hrun as <- _.
    vm_compute in Hblocks. injection Hblocks as <-. vm_compute in Hb. discriminate.
  - exfalso. vm_compute in Hrun. injection Hrun as <- _.
    vm_compute in Hblocks. injection Hblocks as <-. vm_compute in Hb. discriminate.
Defined.

(** X3.  In a stage that was built, only the first block of a pathway can
    change channels or resolution: every later block has the identity as
    its skip path; the first block has a projection exactly when the
    pathway's channel counts differ or one of its strides is not 1; and a
    pre-activated residual branch has its pre-activation disabled exactly
    in block 0 of a stage built with [disable_pre_activation]. *)
Theorem only_first_block_projects
    (stage_idx : nat) (dim_in dim_out dim_inner : list nat)
    (temporal_kernel_basis : list (list nat)) (temporal_conv_1x1 : list bool)
    (temporal_stride spatial_stride num_blocks num_groups : list nat)
    (skip_transformation : skip_class) (residual_transformation : residual_class)
    (inplace_relu : bool) (bn_eps bn_mmt : Q)
    (disable_pre_activation final_stage : bool) (tr tr' : trace) (st : ResStage.t)
    (p i : nat) (blocks : list ResStage.seq_item) (b : ResBlock.t) :
  ResStage.init stage_idx dim_in dim_out dim_inner temporal_kernel_basis
    temporal_conv_1x1 temporal_stride spatial_stride num_blocks num_groups
    skip_transformation residual_transformation inplace_relu bn_eps bn_mmt
    disable_pre_activation final_stage tr = (Ok st, tr') ->
  ResStage.pathways st !! ResStage._pathway_name p = Some blocks ->
  blocks !! i = Some (ResStage.Seq_ResBlock b) ->
  (1 <= i -> ResBlock.skip b = ResBlock.Skip_Identity) /\
  (i = 0 ->
   exists d_in d_out ts ss,
     dim_in !! p = Some d_in /\ dim_out !! p = Some d_out /\
     temporal_stride !! p = Some ts /\ spatial_stride !! p = Some ss /\
     (is_projection (ResBlock.skip b) <-> (d_in <> d_out \/ ts <> 1 \/ ss <> 1))) /\
  (forall rm, ResBlock.residual b = ResBlock.Residual_Preactivated rm ->
     PreactivatedBottleneckTransformation.disable_pre_activation rm
     = disable_pre_activation && (i =? 0)).
Proof. intros. eapply ResStage_init_block_skips; eassumption. Qed.

Lemma only_first_block_projects_witness :
  exists st blocks b0 b1,
    construct stage_3_1_5 = Ok st /\
    ResStage.pathways st !! ResStage._pathway_name 0 = Some blocks /\
    blocks !! 0 = Some (ResStage.Seq_ResBlock b0) /\
    blocks !! 1 = Some (ResStage.Seq_ResBlock b1) /\
    is_projection (ResBlock.skip b0) /\
    ResBlock.skip b1 = ResBlock.Skip_Identity.
Proof.
  destruct (stage_3_1_5 []) as [[st|e] tr'] eqn:Hrun;
    [| exfalso; vm_compute in Hrun; discriminate].
  destruct (ResStage.pathways st !! ResStage._pathway_name 0) as [blocks|] eqn:Hblocks;
    [| exfalso; vm_compute in Hrun; injection Hrun as <- _;
       vm_compute in Hblocks; discriminate].
  destruct (blocks !! 0) as [[b0|l0]|] eqn:Hb0;
    [| exfalso; vm_compute in Hrun; injection Hrun as <- _;
       vm_compute in Hblocks; injection Hblocks as <-; vm_compute in Hb0;
       discriminate ..].
  destruct (blocks !! 1) as [[b1|l1]|] eqn:Hb1;
    [| exfalso; vm_compute in Hrun; injection Hrun as <- _;
       vm_compute in Hblocks; injection Hblocks as <-; vm_compute in Hb1;
       discriminate ..].
  exists st, blocks, b0, b1. split; [unfold construct; by rewrite Hrun |].
  do 3 (split; [done |]).
  unfold stage_3_1_5 in Hrun.
  destruct (only_first_block_projects _ _ _ _ _ _ _ _ _ _ _ _ _ _ _ _ _ _ _ _
              0 0 blocks b0 Hrun Hblocks Hb0) as (_ & Hfirst & _).
  destruct (only_first_block_projects _ _ _ _ _ _ _ _ _ _ _ _ _ _ _ _ _ _ _ _
              0 1 blocks b1 Hrun Hblocks Hb1) as (Hlater & _ & _).
  split; [| apply Hlater; lia].
  destruct (Hfirst eq_refl) as (d_in & d_out & ts & ss & Hd_in & Hd_out & _ & _ & Hiff).
  apply Hiff. left. cbn in Hd_in, Hd_out. injection Hd_in as <-.
  injection Hd_out as <-. lia.
Defined.

(** X4.  A pathway with at least one block and an empty temporal kernel
    basis makes the constructor of the stage fail: no stage is returned
    from any trace; if it is pathway 0 and the argument lists have equal
    lengths, the failure is the [IndexError] of
    [self.temporal_kernel_sizes[p][i]], raised before any block is
    allocated. *)
Theorem empty_kernel_basis_rejected
    (stage_idx : nat) (dim_in dim_out dim_inner : list nat)
    (temporal_kernel_basis : list (list nat)) (temporal_conv_1x1 : list bool)
    (temporal_stride spatial_stride num_blocks num_groups : list nat)
    (skip_transformation : skip_class) (residual_transformation : residual_class)
    (inplace_relu : bool) (bn_eps bn_mmt : Q)
    (disable_pre_activation final_stage : bool) (p n : nat) :
  temporal_kernel_basis !! p = Some [] ->
  num_blocks !! p = Some n ->
  1 <= n ->
  (forall tr st tr',
     ResStage.init stage_idx dim_in dim_out dim_inner temporal_kernel_basis
       temporal_conv_1x1 temporal_stride spatial_stride num_blocks num_groups
       skip_transformation residual_transformation inplace_relu bn_eps bn_mmt
       disable_pre_activation final_stage tr <> (Ok st, tr')) /\
  (p = 0 ->
   stage_lengths_equal dim_in dim_out dim_inner temporal_kernel_basis
     temporal_conv_1x1 temporal_stride spatial_stride num_blocks num_groups ->
   forall tr,
     ResStage.init stage_idx dim_in dim_out dim_inner temporal_kernel_basis
       temporal_conv_1x1 temporal_stride spatial_stride num_blocks num_groups
       skip_transformation residual_transformation inplace_relu bn_eps bn_mmt
       disable_pre_activation final_stage tr
     = (Raise IndexError, tr ++ ["ResStage"])).
Proof. intros. eapply ResStage_init_empty_basis; eassumption. Qed.

Lemma empty_kernel_basis_rejected_witness :
  stage_empty_basis [] = (Raise IndexError, ["ResStage"]).
Proof.
  unfold stage_empty_basis.
  refine (proj2 (empty_kernel_basis_rejected 1 [64] [256] [64] [[]] [true] [1] [1]
                   [3] [1] PreactivatedShortcutTransformation_cls
                   PreactivatedBottleneckTransformation_cls true default_bn_eps
                   default_bn_mmt true false 0 3 eq_refl eq_refl _) eq_refl _ []).
  - lia.
  - unfold stage_lengths_equal. cbn. lia.
Defined.

(** ** The forward pass of a stage *)

Section StageForward.

Context {T : Type} `{BackboneOps T}.

Lemma for_loop_result_append (f : nat -> result T) (n start : nat) (acc r : list T) :
  for_loop (fun p (output : list T) => y ← f p; mret (output ++ [y])) start n acc = Ok r
  <-> exists ys, r = acc ++ ys /\ length ys = n /\
                 forall j y, ys !! j = Some y -> f (start + j) = Ok y.
Proof.
  revert start acc. induction n as [|n IH]; intros start acc; cbn [for_loop].
  - split.
    + intros [= <-]. exists []. rewrite app_nil_r. split; [done |]. split; [done |].
      intros j y. by rewrite lookup_nil.
    + intros (ys & -> & Hlen & _). destruct ys; [| done]. by rewrite app_nil_r.
  - destruct (f start) as [y0|e] eqn:Hf; cbn [mbind result_bind mret result_ret].
    + rewrite IH. split.
      * intros (ys & -> & Hlen & Hys). exists (y0 :: ys).
        rewrite <- app_assoc. split; [done |]. split; [simpl; lia |].
        intros [|j] y Hj; simpl in Hj.
        -- injection Hj as <-. by rewrite Nat.add_0_r.
        -- replace (start + S j) with (S start + j) by lia. by apply Hys.
      * intros (ys & -> & Hlen & Hys). destruct ys as [|y1 ys]; [done |].
        pose proof (Hys 0 y1 eq_refl) as H0. rewrite Nat.add_0_r, Hf in H0.
        injection H0 as <-. exists ys. rewrite <- app_assoc.
        split; [done |]. split; [simpl in Hlen; lia |].
        intros j y Hj. replace (S start + j) with (start + S j) by lia.
        by apply Hys.
    + split; [done |]. intros (ys & -> & Hlen & Hys).
      destruct ys as [|y1 ys]; [done |].
      pose proof (Hys 0 y1 eq_refl) as H0. rewrite Nat.add_0_r, Hf in H0. done.
Qed.

Lemma ResStage_forward_loop_from (self : ResStage.t) (training : bool)
    (inputs : list T) (n start : nat) (acc : list T) :
  for_loop (fun p (output : list T) =>
      x ← getitem inputs p;
      pathway_module ← dict_getitem (ResStage.pathways self) (ResStage._pathway_name p);
      y ← ResStage.Sequential_forward pathway_module training x;
      mret (output ++ [y])) start n acc
  = for_loop (fun p (output : list T) =>
                y ← pathway_forward self training inputs p; mret (output ++ [y]))
      start n acc.
Proof.
  unfold pathway_forward.
  revert start acc. induction n as [|n IH]; intros start acc; [done |].
  cbn [for_loop].
  destruct (getitem inputs start) as [x|e]; [| reflexivity].
  cbn [mbind result_bind].
  destruct (dict_getitem _ _) as [pm|e]; [| reflexivity]. cbn [mbind result_bind].
  destruct (ResStage.Sequential_forward pm training x) as [y|e]; [| reflexivity].
  cbn [mbind result_bind mret result_ret]. apply IH.
Qed.

Lemma ResStage_forward_loop (self : ResStage.t) (training : bool) (inputs : list T) :
  ResStage.forward self training inputs
  = for_loop (fun p (output : list T) =>
                y ← pathway_forward self training inputs p; mret (output ++ [y]))
      0 (ResStage.num_pathways self) [].
Proof. apply ResStage_forward_loop_from. Qed.

Lemma pathway_loop_ignores_extra (self : ResStage.t) (training : bool)
    (inputs extra : list T) (n start : nat) (acc : list T) :
  start + n <= length inputs ->
  for_loop (fun p (output : list T) =>
              y ← pathway_forward self training (inputs ++ extra) p;
              mret (output ++ [y])) start n acc
  = for_loop (fun p (output : list T) =>
                y ← pathway_forward self training inputs p; mret (output ++ [y]))
      start n acc.
Proof.
  revert start acc. induction n as [|n IH]; intros start acc Hrange; [done |].
  cbn [for_loop].
  assert (Hsame : pathway_forward self training (inputs ++ extra) start
                  = pathway_forward self training inputs start).
  { unfold pathway_forward, getitem. by rewrite lookup_app_l by lia. }
  rewrite Hsame.
  destruct (pathway_forward self training inputs start) as [y|e0]; [| reflexivity].
  cbn [mbind result_bind mret result_ret]. apply IH. lia.
Qed.

Lemma pathway_forward_Ok (self : ResStage.t) (training : bool) (inputs : list T)
    (p : nat) (y : T) :
  pathway_forward self training inputs p = Ok y <->
  exists x ms, inputs !! p = Some x /\
               ResStage.pathways self !! ResStage._pathway_name p = Some ms /\
               ResStage.Sequential_forward ms training x = Ok y.
Proof.
  unfold pathway_forward, getitem, dict_getitem. split.
  - destruct (inputs !! p) as [x|]; [| done]. cbn [mbind result_bind].
    destruct (ResStage.pathways self !! _) as [ms|]; [| done].
    cbn [mbind result_bind]. intros Hy. by exists x, ms.
  - intros (x & ms & -> & -> & Hy). exact Hy.
Qed.

Lemma ResStage_forward_Ok_iff (self : ResStage.t) (training : bool)
    (inputs out : list T) :
  ResStage.forward self training inputs = Ok out <->
  length out = ResStage.num_pathways self /\
  forall p, p < ResStage.num_pathways self ->
    exists x ms y,
      inputs !! p = Some x /\
      ResStage.pathways self !! ResStage._pathway_name p = Some ms /\
      ResStage.Sequential_forward ms training x = Ok y /\
      out !! p = Some y.
Proof.
  rewrite ResStage_forward_loop, for_loop_result_append. split.
  - intros (ys & -> & Hlen & Hys). cbn [app]. split; [done |].
    intros p Hp. destruct (lookup_lt_is_Some_2 ys p) as [y Hy]; [lia |].
    apply Hys in Hy as Hfwd. cbn [Nat.add] in Hfwd.
    apply pathway_forward_Ok in Hfwd as (x & ms & Hx & Hms & Hfwd).
    by exists x, ms, y.
  - intros (Hlen & Hall). exists out. split; [done |]. split; [done |].
    intros j y Hj. cbn [Nat.add].
    destruct (Hall j) as (x & ms & y' & Hx & Hms & Hfwd & Hy').
    { apply lookup_lt_Some in Hj. lia. }
    rewrite Hj in Hy'. injection Hy' as <-.
    apply pathway_forward_Ok. by exists x, ms.
Qed.

(** X5.  The forward pass of a stage returns [out] exactly when [out] has
    one tensor per pathway and, for every pathway index [p], [out[p]] is
    the result of that pathway's module sequence on [inputs[p]]: pathways
    run independently of each other and in index order. *)
Theorem ResStage_forward_pathwise (self : ResStage.t) (training : bool)
    (inputs out : list T) :
  ResStage.forward self training inputs = Ok out <->
  length out = ResStage.num_pathways self /\
  forall p, p < ResStage.num_pathways self ->
    exists x ms y,
      inputs !! p = Some x /\
      ResStage.pathways self !! ResStage._pathway_name p = Some ms /\
      ResStage.Sequential_forward ms training x = Ok y /\
      out !! p = Some y.
Proof. apply ResStage_forward_Ok_iff. Qed.

(** X6.  The forward pass of a stage reads only the first [num_pathways]
    inputs: further elements of the list do not change its outcome, and
    with fewer inputs than pathways it raises. *)
Theorem ResStage_forward_input_count (self : ResStage.t) (training : bool)
    (inputs : list T) :
  (ResStage.num_pathways self <= length inputs ->
   forall extra,
     ResStage.forward self training (inputs ++ extra)
     = ResStage.forward self training inputs) /\
  (length inputs < ResStage.num_pathways self ->
   exists e, ResStage.forward self training inputs = Raise e).
Proof.
  split.
  - intros Hlen extra. rewrite !ResStage_forward_loop.
    by apply pathway_loop_ignores_extra.
  - intros Hlen.
    destruct (ResStage.forward self training inputs) as [out|e] eqn:Hfwd; [| by exists e].
    apply ResStage_forward_Ok_iff in Hfwd as (_ & Hall).
    destruct (Hall (length inputs) Hlen) as (x & _ & _ & Hx & _).
    apply lookup_lt_Some in Hx. lia.
Qed.

End StageForward.

Lemma ResStage_forward_input_count_witness :
  exists st,
    construct preact_final_stage = Ok st /\
    ResStage.forward st false ([[1; 1024; 4; 14; 14]] ++ [[7]])
    = ResStage.forward st false [[1; 1024; 4; 14; 14]] /\
    exists e, ResStage.forward st false (@nil (list nat)) = Raise e.
Proof.
  destruct (preact_final_stage []) as [[st|e] tr'] eqn:Hrun;
    [| exfalso; vm_compute in Hrun; discriminate].
  exists st. split; [unfold construct; by rewrite Hrun |].
  assert (Hn : ResStage.num_pathways st = 1).
  { vm_compute in Hrun. by injection Hrun as <- _. }
  split.
  - apply (proj1 (ResStage_forward_input_count st false [[1; 1024; 4; 14; 14]])).
    rewrite Hn. simpl. lia.
  - apply (proj2 (ResStage_forward_input_count st false [])).
    rewrite Hn. simpl. lia.
Defined.

(** ** Constructors that return *)

Lemma returns_mret {A : Type} (a : A) : returns (mret a).
Proof. intros tr. by exists a, tr. Qed.

Lemma returns_alloc (cls : string) : returns (alloc cls).
Proof. intros tr. by exists tt, (tr ++ [cls]). Qed.

Lemma returns_bind {A B : Type} (m : Build A) (f : A -> Build B) :
  returns m -> (forall a, returns (f a)) -> returns (m ≫= f).
Proof.
  intros Hm Hf tr. destruct (Hm tr) as (a & tr1 & Ha).
  destruct (Hf a tr1) as (b & tr2 & Hb).
  exists b, tr2. by rewrite Build_bind_run, Ha.
Qed.

Lemma returns_fmap {A B : Type} (m : Build A) (f : A -> B) :
  returns m -> returns (f <$> m).
Proof.
  intros Hm tr. destruct (Hm tr) as (a & tr1 & Ha).
  exists (f a), tr1. by rewrite Build_fmap_run, Ha.
Qed.

Lemma returns_index_bind {A B : Type} (l : list A) (i : nat) (a : A)
    (f : A -> Build B) :
  l !! i = Some a -> returns (f a) -> returns (index l i ≫= f).
Proof.
  intros Hl Hf tr. destruct (Hf tr) as (b & tr1 & Hb).
  exists b, tr1. by rewrite Build_bind_run, (index_run _ _ _ _ Hl).
Qed.

Lemma returns_for_loop {St : Type} (body : nat -> St -> Build St) (n start : nat) :
  (forall i s, start <= i < start + n -> returns (body i s)) ->
  forall s, returns (for_loop body start n s).
Proof.
  revert start. induction n as [|n IH]; intros start Hbody s; cbn [for_loop].
  - apply returns_mret.
  - apply returns_bind; [apply Hbody; lia |].
    intros s'. apply IH. intros i s0 Hi. apply Hbody. lia.
Qed.

Lemma nn_Conv3d_returns (cin cout : nat) (k st pad : triple) (grp : nat) (bias : bool) :
  grp <> 0 -> cin mod grp = 0 -> cout mod grp = 0 ->
  returns (nn.Conv3d cin cout k st pad grp bias).
Proof.
  intros Hg Hin Hout tr. unfold nn.Conv3d. rewrite Build_bind_run. unfold alloc.
  destruct (Nat.eqb_spec grp 0); [done |].
  rewrite Hin, Hout. cbn [Nat.eqb negb]. eauto.
Qed.

Lemma nn_Conv3d_Ok_groups (cin cout : nat) (k st pad : triple) (grp : nat)
    (bias : bool) (tr tr' : trace) (c : Conv3d) :
  nn.Conv3d cin cout k st pad grp bias tr = (Ok c, tr') ->
  grp <> 0 /\ cin mod grp = 0 /\ cout mod grp = 0.
Proof.
  unfold nn.Conv3d. rewrite Build_bind_run. unfold alloc.
  destruct (Nat.eqb_spec grp 0); [discriminate |].
  destruct (Nat.eqb_spec (cin mod grp) 0); [| discriminate].
  destruct (Nat.eqb_spec (cout mod grp) 0); [| discriminate]. done.
Qed.

Lemma nn_BatchNorm3d_returns (n : nat) (e m : Q) : returns (nn.BatchNorm3d n e m).
Proof. intros tr. unfold nn.BatchNorm3d. rewrite Build_bind_run. unfold alloc. eauto. Qed.

Lemma nn_ReLU_returns (i : bool) : returns (nn.ReLU i).
Proof. intros tr. unfold nn.ReLU. rewrite Build_bind_run. unfold alloc. eauto. Qed.

Lemma nn_Identity_returns : returns nn.Identity.
Proof. intros tr. unfold nn.Identity. rewrite Build_bind_run. unfold alloc. eauto. Qed.

Ltac returns_step :=
  lazymatch goal with
  | |- returns (mret _) => apply returns_mret
  | |- returns (alloc _) => apply returns_alloc
  | |- returns (nn.Conv3d _ _ _ _ _ 1 _) =>
      apply nn_Conv3d_returns; [lia | apply Nat.mod_1_r | apply Nat.mod_1_r]
  | |- returns (nn.BatchNorm3d _ _ _) => apply nn_BatchNorm3d_returns
  | |- returns (nn.ReLU _) => apply nn_ReLU_returns
  | |- returns nn.Identity => apply nn_Identity_returns
  | |- returns (_ <$> _) => apply returns_fmap
  | |- returns (if ?b then _ else _) => destruct b
  | |- returns (_ ≫= _) => apply returns_bind; [| intros ?]
  end.

Lemma PostactivatedBottleneckTransformation_returns
    (dim_in dim_out ts ss grp dim_inner k : nat) (c1 s1 ir : bool) (e m : Q) :
  grp <> 0 -> dim_inner mod grp = 0 ->
  returns (PostactivatedBottleneckTransformation.init dim_in dim_out ts ss grp
             dim_inner k c1 s1 ir e m).
Proof.
  intros Hg Hmod. unfold PostactivatedBottleneckTransformation.init.
  repeat (returns_step; try by apply nn_Conv3d_returns).
Qed.

Lemma PreactivatedBottleneckTransformation_returns
    (dim_in dim_out ts ss grp dim_inner k : nat) (c1 s1 ir : bool) (e m : Q)
    (disable : bool) :
  grp <> 0 -> dim_inner mod grp = 0 ->
  returns (PreactivatedBottleneckTransformation.init dim_in dim_out ts ss grp
             dim_inner k c1 s1 ir e m disable).
Proof.
  intros Hg Hmod. unfold PreactivatedBottleneckTransformation.init.
  repeat (returns_step; try by apply nn_Conv3d_returns).
Qed.

Lemma assert_true_returns (b : bool) : b = true -> returns (assert b).
Proof. intros ->. apply returns_mret. Qed.

Lemma PostactivatedShortcutTransformation_returns (dim_in dim_out ts ss : nat)
    (e m : Q) :
  projection_needed dim_in dim_out ts ss = true ->
  returns (PostactivatedShortcutTransformation.init dim_in dim_out ts ss e m).
Proof.
  intros Hneed. unfold PostactivatedShortcutTransformation.init.
  apply returns_bind; [apply returns_alloc | intros _].
  apply returns_bind; [by apply assert_true_returns | intros _].
  repeat returns_step.
Qed.

Lemma PreactivatedShortcutTransformation_returns (dim_in dim_out ts ss : nat)
    (ir : bool) (e m : Q) (disable : bool) :
  projection_needed dim_in dim_out ts ss = true ->
  returns (PreactivatedShortcutTransformation.init dim_in dim_out ts ss ir e m disable).
Proof.
  intros Hneed. unfold PreactivatedShortcutTransformation.init.
  apply returns_bind; [apply returns_alloc | intros _].
  apply returns_bind; [by apply assert_true_returns | intros _].
  repeat returns_step.
Qed.

Lemma ResBlock_init_returns (dim_in dim_out dim_inner k : nat) (c1 : bool)
    (ts ss : nat) (sk : skip_class) (rs : residual_class) (grp : nat) (ir : bool)
    (e m : Q) (disable : bool) :
  grp <> 0 -> dim_inner mod grp = 0 ->
  returns (ResBlock.init dim_in dim_out dim_inner k c1 ts ss sk rs grp ir e m disable).
Proof.
  intros Hg Hmod. unfold ResBlock.init. fold (projection_needed dim_in dim_out ts ss).
  apply returns_bind; [apply returns_alloc | intros _].
  apply returns_bind; [| intros ?].
  - destruct (projection_needed dim_in dim_out ts ss) eqn:Hneed.
    + destruct sk; cbn [ResBlock.call_skip]; apply returns_fmap.
      * by apply PostactivatedShortcutTransformation_returns.
      * by apply PreactivatedShortcutTransformation_returns.
    + repeat returns_step.
  - apply returns_bind; [| intros ?; repeat returns_step].
    destruct rs; cbn [ResBlock.call_residual]; apply returns_fmap.
    + by apply PostactivatedBottleneckTransformation_returns.
    + by apply PreactivatedBottleneckTransformation_returns.
Qed.

Lemma ResBlock_init_Ok_groups (dim_in dim_out dim_inner k : nat) (c1 : bool)
    (ts ss : nat) (sk : skip_class) (rs : residual_class) (grp : nat) (ir : bool)
    (e m : Q) (disable : bool) (tr tr' : trace) (blk : ResBlock.t) :
  ResBlock.init dim_in dim_out dim_inner k c1 ts ss sk rs grp ir e m disable tr
    = (Ok blk, tr') ->
  grp <> 0 /\ dim_inner mod grp = 0.
Proof.
  intros Hrun.
  apply ResBlock_init_Ok in Hrun as (tr1 & tr2 & tr3 & _ & Hres & _).
  destruct rs, Hres as (rm & Hrm & _).
  - unfold PostactivatedBottleneckTransformation.init in Hrm.
    apply Build_bind_Ok in Hrm as (u & tr0 & _ & Hrm).
    apply Build_bind_Ok in Hrm as (a & tr4 & _ & Hrm).
    apply Build_bind_Ok in Hrm as (a_bn & tr5 & _ & Hrm).
    apply Build_bind_Ok in Hrm as (a_relu & tr6 & _ & Hrm).
    apply Build_bind_Ok in Hrm as (b & tr7 & Hb%nn_Conv3d_Ok_groups & Hrm).
    tauto.
  - unfold PreactivatedBottleneckTransformation.init in Hrm.
    apply Build_bind_Ok in Hrm as (u & tr0 & _ & Hrm).
    apply Build_bind_Ok in Hrm as (a_bn & tr4 & _ & Hrm).
    apply Build_bind_Ok in Hrm as (a_relu & tr5 & _ & Hrm).
    apply Build_bind_Ok in Hrm as (a & tr6 & _ & Hrm).
    apply Build_bind_Ok in Hrm as (b_bn & tr7 & _ & Hrm).
    apply Build_bind_Ok in Hrm as (b_relu & tr8 & _ & Hrm).
    apply Build_bind_Ok in Hrm as (b & tr9 & Hb%nn_Conv3d_Ok_groups & Hrm).
    tauto.
Qed.

(** X7.  The constructor of a residual block returns a block exactly when
    the group count is positive and divides the inner width, whatever the
    other arguments and the two strategies. *)
Theorem ResBlock_init_returns_iff (dim_in dim_out dim_inner k : nat) (c1 : bool)
    (ts ss : nat) (sk : skip_class) (rs : residual_class) (grp : nat) (ir : bool)
    (e m : Q) (disable : bool) (tr : trace) :
  (exists blk tr',
     ResBlock.init dim_in dim_out dim_inner k c1 ts ss sk rs grp ir e m disable tr
     = (Ok blk, tr'))
  <-> grp <> 0 /\ dim_inner mod grp = 0.
Proof.
  split.
  - intros (blk & tr' & Hrun). by apply ResBlock_init_Ok_groups in Hrun.
  - intros [Hg Hmod]. by apply ResBlock_init_returns.
Qed.

Lemma ResBlock_init_returns_iff_witness :
  exists blk tr', identity_block [] = (Ok blk, tr').
Proof.
  unfold identity_block.
  apply (proj2 (ResBlock_init_returns_iff 256 256 64 3 true 1 1
                  PostactivatedShortcutTransformation_cls
                  PostactivatedBottleneckTransformation_cls 1 true default_bn_eps
                  default_bn_mmt false [])).
  split; [lia | reflexivity].
Defined.

Lemma returns_bind_pure {A B : Type} (m : Build A) (a : A) (f : A -> Build B) :
  (forall tr, m tr = (Ok a, tr)) -> returns (f a) -> returns (m ≫= f).
Proof.
  intros Hm Hf tr. destruct (Hf tr) as (b & tr1 & Hb).
  exists b, tr1. by rewrite Build_bind_run, Hm.
Qed.

Lemma length_cycled (basis : list nat) (n : nat) :
  basis <> [] -> length (cycled basis n) = n.
Proof.
  intros Hne. unfold cycled. rewrite length_take, length_list_mul.
  destruct basis; [done |]. simpl. nia.
Qed.

Section StageReturns.

Context (stage_idx : nat) (dim_in dim_out dim_inner : list nat)
  (temporal_kernel_basis : list (list nat)) (temporal_conv_1x1 : list bool)
  (temporal_stride spatial_stride num_blocks num_groups : list nat)
  (skip_transformation : skip_class) (residual_transformation : residual_class)
  (inplace_relu : bool) (bn_eps bn_mmt : Q)
  (disable_pre_activation final_stage : bool).

Let init := ResStage.init stage_idx dim_in dim_out dim_inner temporal_kernel_basis
  temporal_conv_1x1 temporal_stride spatial_stride num_blocks num_groups
  skip_transformation residual_transformation inplace_relu bn_eps bn_mmt
  disable_pre_activation final_stage.

Let pathways_buildable := pathways_buildable dim_inner temporal_kernel_basis
  num_blocks num_groups.

Lemma ResStage_init_returns :
  stage_lengths_equal dim_in dim_out dim_inner temporal_kernel_basis
    temporal_conv_1x1 temporal_stride spatial_stride num_blocks num_groups ->
  pathways_buildable ->
  returns init.
Proof.
  intros Hlen Hbuild. unfold init, ResStage.init.
  apply returns_bind; [apply returns_alloc | intros _].
  rewrite (proj2 (unequal_lengths_false _ _ _ _ _ _ _ _ _) Hlen).
  unfold stage_lengths_equal in Hlen.
  destruct Hlen as (Hl1 & Hl2 & Hl3 & Hl4 & Hl5 & Hl6 & Hl7 & Hl8).
  apply (returns_bind_pure _ (zip_with cycled temporal_kernel_basis num_blocks)).
  { intros tr. apply make_temporal_kernel_sizes_run. lia. }
  apply returns_bind; [| intros ?; apply returns_mret].
  apply returns_for_loop. intros p pws Hp.
  destruct (lookup_lt_is_Some_2 num_blocks p) as [n Hn]; [lia |].
  unfold ResStage.pathway_body.
  apply (returns_index_bind _ _ n); [done |].
  apply returns_bind.
  2:{ intros blocks. rewrite final_activation_run.
      repeat returns_step. }
  apply returns_for_loop. intros i blocks Hi.
  destruct (Hbuild p n Hn) as (basis & g & d_inner & Hbasis & Hne & Hg & Hinner & Hg0
                               & Hmod); [lia |].
  destruct (lookup_lt_is_Some_2 dim_in p) as [d_in Hd_in]; [lia |].
  destruct (lookup_lt_is_Some_2 dim_out p) as [d_out Hd_out]; [lia |].
  destruct (lookup_lt_is_Some_2 temporal_conv_1x1 p) as [c1 Hc1]; [lia |].
  destruct (lookup_lt_is_Some_2 temporal_stride p) as [ts Hts]; [lia |].
  destruct (lookup_lt_is_Some_2 spatial_stride p) as [ss Hss]; [lia |].
  destruct (lookup_lt_is_Some_2 (cycled basis n) i) as [k Hk].
  { rewrite length_cycled by done. lia. }
  unfold ResStage.block_body.
  apply (returns_index_bind _ _ (if i =? 0 then d_in else d_out));
    [by destruct (i =? 0) |].
  apply (returns_index_bind _ _ d_out); [done |].
  apply (returns_index_bind _ _ d_inner); [done |].
  apply (returns_index_bind _ _ (cycled basis n)).
  { rewrite lookup_zip_with, Hbasis. cbn. by rewrite Hn. }
  apply (returns_index_bind _ _ k); [done |].
  apply (returns_index_bind _ _ c1); [done |].
  apply returns_bind.
  { destruct (i =? 0); [| apply returns_mret].
    intros tr. exists ts, tr. by apply index_run. }
  intros ts'. apply returns_bind.
  { destruct (i =? 0); [| apply returns_mret].
    intros tr. exists ss, tr. by apply index_run. }
  intros ss'. apply (returns_index_bind _ _ g); [done |].
  apply returns_bind; [by apply ResBlock_init_returns | intros ?; apply returns_mret].
Qed.

Lemma ResStage_init_Ok_buildable (tr tr' : trace) (st : ResStage.t) :
  init tr = (Ok st, tr') ->
  stage_lengths_equal dim_in dim_out dim_inner temporal_kernel_basis
    temporal_conv_1x1 temporal_stride spatial_stride num_blocks num_groups /\
  pathways_buildable.
Proof.
  intros Hrun. pose proof Hrun as Hbuilt.
  apply ResStage_init_built in Hbuilt as (Hlen & _ & _ & Hall & _).
  split; [exact Hlen |].
  intros p n Hn Hn1.
  destruct (Hall p) as (blocks & Hblocks & n' & Hn' & Hblen & _).
  { by apply lookup_lt_Some in Hn. }
  rewrite Hn in Hn'. injection Hn' as <-.
  destruct (lookup_lt_is_Some_2 blocks 0) as [a Ha]; [lia |].
  destruct (ResStage_init_item _ _ _ _ _ _ _ _ _ _ _ _ _ _ _ _ _ _ _ _ _ _ _ _
              Hrun Hblocks Ha)
    as (_ & _ & _ & b' & d_in & d_out & d_inner & sizes & k & c1 & ts & ss & g
        & tr1 & tr2 & _ & _ & _ & Hinner & Hsizes & Hk & _ & _ & _ & Hg & Hinit).
  rewrite lookup_zip_with in Hsizes.
  destruct (temporal_kernel_basis !! p) as [basis|] eqn:Hbasis; [| done].
  cbn in Hsizes. rewrite Hn in Hsizes. cbn in Hsizes. injection Hsizes as <-.
  apply ResBlock_init_Ok_groups in Hinit as [Hg0 Hmod].
  exists basis, g, d_inner. repeat split; try done.
  intros ->. rewrite cycled_nil in Hk. by rewrite lookup_nil in Hk.
Qed.

Lemma ResStage_init_Ok_iff (tr : trace) :
  (exists st tr', init tr = (Ok st, tr')) <->
  stage_lengths_equal dim_in dim_out dim_inner temporal_kernel_basis
    temporal_conv_1x1 temporal_stride spatial_stride num_blocks num_groups /\
  pathways_buildable.
Proof.
  split.
  - intros (st & tr' & Hrun). by apply ResStage_init_Ok_buildable in Hrun.
  - intros [Hlen Hbuild]. by apply ResStage_init_returns.
Qed.

End StageReturns.

(** X8.  The constructor of a stage returns a stage exactly when its nine
    per-pathway lists have one length and every pathway that has at least
    one block has a non-empty kernel basis and a positive group count that
    divides its inner width. *)
Theorem ResStage_init_returns_iff
    (stage_idx : nat) (dim_in dim_out dim_inner : list nat)
    (temporal_kernel_basis : list (list nat)) (temporal_conv_1x1 : list bool)
    (temporal_stride spatial_stride num_blocks num_groups : list nat)
    (skip_transformation : skip_class) (residual_transformation : residual_class)
    (inplace_relu : bool) (bn_eps bn_mmt : Q)
    (disable_pre_activation final_stage : bool) (tr : trace) :
  (exists st tr',
     ResStage.init stage_idx dim_in dim_out dim_inner temporal_kernel_basis
       temporal_conv_1x1 temporal_stride spatial_stride num_blocks num_groups
       skip_transformation residual_transformation inplace_relu bn_eps bn_mmt
       disable_pre_activation final_stage tr = (Ok st, tr'))
  <-> stage_lengths_equal dim_in dim_out dim_inner temporal_kernel_basis
    temporal_conv_1x1 temporal_stride spatial_stride num_blocks num_groups /\
      pathways_buildable dim_inner temporal_kernel_basis num_blocks num_groups.
Proof. apply ResStage_init_Ok_iff. Qed.

Lemma ResStage_init_returns_iff_witness :
  exists st tr', stage_3_1_5 [] = (Ok st, tr').
Proof.
  unfold stage_3_1_5.
  apply (proj2 (ResStage_init_returns_iff 1 [64] [256] [64] [[3; 1]] [true] [1] [1]
                  [5] [1] PostactivatedShortcutTransformation_cls
                  PostactivatedBottleneckTransformation_cls true default_bn_eps
                  default_bn_mmt true false [])).
  split; [by repeat split |].
  intros [|p] n Hn Hn1; [| done]. injection Hn as <-.
  exists [3; 1], 1, 64. by repeat split.
Defined.

(** ** The multi-pathway stem *)

Lemma ResNeXt3DStemSinglePathway_returns (dim_in dim_out : nat) (k st pad : triple)
    (maxpool ir : bool) (e m : Q) :
  returns (ResNeXt3DStemSinglePathway.init dim_in dim_out k st pad maxpool ir e m).
Proof. unfold ResNeXt3DStemSinglePathway.init. repeat returns_step. Qed.

Section StemBuilt.

Context (dim_in dim_out : list nat) (kernel stride padding : list triple)
  (inplace_relu : bool) (bn_eps bn_mmt : Q).

Let init := ResNeXt3DStemMultiPathway.init dim_in dim_out kernel stride padding
  inplace_relu bn_eps bn_mmt.

Let stem_built := stem_built dim_in dim_out kernel stride padding inplace_relu bn_eps
  bn_mmt.

Lemma stem_body_built (p : nat) (blocks : gmap string ResNeXt3DStemSinglePathway.t)
    (tr : trace) (blocks' : gmap string ResNeXt3DStemSinglePathway.t) (tr' : trace) :
  ResNeXt3DStemMultiPathway.stem_body dim_in dim_out kernel stride padding
    inplace_relu bn_eps bn_mmt p blocks tr = (Ok blocks', tr') ->
  exists stem, blocks' = <[ResNeXt3DStemMultiPathway._stem_name p := stem]> blocks /\
               stem_built p stem.
Proof.
  unfold ResNeXt3DStemMultiPathway.stem_body. intros Hrun.
  apply Build_bind_Ok in Hrun as (d_in & tr1 & Hd_in%index_Ok & Hrun).
  apply Build_bind_Ok in Hrun as (d_out & tr2 & Hd_out%index_Ok & Hrun).
  apply Build_bind_Ok in Hrun as (k & tr3 & Hk%index_Ok & Hrun).
  apply Build_bind_Ok in Hrun as (st & tr4 & Hst%index_Ok & Hrun).
  apply Build_bind_Ok in Hrun as (pad & tr5 & Hpad%index_Ok & Hrun).
  apply Build_bind_Ok in Hrun as (stem & tr6 & Hstem & Hrun).
  apply mret_run in Hrun as [<- _].
  exists stem. split; [done |]. by exists d_in, d_out, k, st, pad, tr5, tr6.
Qed.

Lemma ResNeXt3DStemMultiPathway_init_Ok (tr tr' : trace)
    (self : ResNeXt3DStemMultiPathway.t) :
  init tr = (Ok self, tr') ->
  stem_lengths_equal dim_in dim_out kernel stride padding /\
  ResNeXt3DStemMultiPathway.num_pathways self = length dim_in /\
  (forall p, p < length dim_in ->
     exists stem,
       ResNeXt3DStemMultiPathway.blocks self !! ResNeXt3DStemMultiPathway._stem_name p
         = Some stem /\ stem_built p stem) /\
  (forall key stem, ResNeXt3DStemMultiPathway.blocks self !! key = Some stem ->
     exists p, p < length dim_in /\ key = ResNeXt3DStemMultiPathway._stem_name p
               /\ stem_built p stem).
Proof.
  unfold init, ResNeXt3DStemMultiPathway.init. intros Hrun.
  apply Build_bind_Ok in Hrun as (u & tr1 & _ & Hrun).
  destruct (ResNeXt3DStemMultiPathway.unequal_lengths _ _ _ _ _) eqn:Hun;
    [discriminate |].
  apply stem_unequal_lengths_false in Hun. split; [exact Hun |].
  apply Build_bind_Ok in Hrun as (blocks & tr2 & Hloop & Hrun).
  apply mret_run in Hrun as [<- _]. split; [done |].
  cbn [ResNeXt3DStemMultiPathway.blocks].
  apply (for_loop_insert ResNeXt3DStemMultiPathway._stem_name stem_name_inj
           stem_built) in Hloop; [exact Hloop |].
  intros i m tr0 m' tr0' Hbody. by apply stem_body_built in Hbody.
Qed.

Lemma ResNeXt3DStemMultiPathway_returns :
  stem_lengths_equal dim_in dim_out kernel stride padding -> returns init.
Proof.
  intros Hlen. unfold init, ResNeXt3DStemMultiPathway.init.
  apply returns_bind; [apply returns_alloc | intros _].
  rewrite (proj2 (stem_unequal_lengths_false _ _ _ _ _) Hlen).
  destruct Hlen as (Hl1 & Hl2 & Hl3 & Hl4).
  apply returns_bind; [| intros ?; apply returns_mret].
  apply returns_for_loop. intros p blocks Hp.
  destruct (lookup_lt_is_Some_2 dim_in p) as [d_in Hd_in]; [lia |].
  destruct (lookup_lt_is_Some_2 dim_out p) as [d_out Hd_out]; [lia |].
  destruct (lookup_lt_is_Some_2 kernel p) as [k Hk]; [lia |].
  destruct (lookup_lt_is_Some_2 stride p) as [st Hst]; [lia |].
  destruct (lookup_lt_is_Some_2 padding p) as [pad Hpad]; [lia |].
  unfold ResNeXt3DStemMultiPathway.stem_body.
  apply (returns_index_bind _ _ d_in); [done |].
  apply (returns_index_bind _ _ d_out); [done |].
  apply (returns_index_bind _ _ k); [done |].
  apply (returns_index_bind _ _ st); [done |].
  apply (returns_index_bind _ _ pad); [done |].
  apply returns_bind; [apply ResNeXt3DStemSinglePathway_returns |].
  intros ?. apply returns_mret.
Qed.

Lemma ResNeXt3DStemMultiPathway_init_Ok_iff (tr : trace) :
  ((exists self tr', init tr = (Ok self, tr')) <->
   stem_lengths_equal dim_in dim_out kernel stride padding) /\
  (forall self tr',
     init tr = (Ok self, tr') ->
     ResNeXt3DStemMultiPathway.num_pathways self = length dim_in /\
     forall key,
       is_Some (ResNeXt3DStemMultiPathway.blocks self !! key) <->
       exists p, p < length dim_in /\ key = ResNeXt3DStemMultiPathway._stem_name p).
Proof.
  split.
  - split.
    + intros (self & tr' & Hrun).
      by apply ResNeXt3DStemMultiPathway_init_Ok in Hrun as (Hlen & _).
    + intros Hlen. by apply ResNeXt3DStemMultiPathway_returns.
  - intros self tr' Hrun.
    apply ResNeXt3DStemMultiPathway_init_Ok in Hrun as (_ & Hn & Hall & Honly).
    split; [exact Hn |]. intros key. split.
    + intros [stem Hstem]. destruct (Honly _ _ Hstem) as (p & Hp & Hkey & _). eauto.
    + intros (p & Hp & ->). destruct (Hall p Hp) as (stem & Hstem & _). eauto.
Qed.

End StemBuilt.

(** X9.  The constructor of the multi-pathway stem returns a stem exactly
    when its five lists have one length; the stem it returns has
    [num_pathways = len(dim_in)], and its dictionary [blocks] holds the
    keys [stem-path0], ..., [stem-path{n-1}] and no other. *)
Theorem ResNeXt3DStemMultiPathway_init_returns_iff (dim_in dim_out : list nat)
    (kernel stride padding : list triple) (inplace_relu : bool) (bn_eps bn_mmt : Q)
    (tr : trace) :
  ((exists self tr',
      ResNeXt3DStemMultiPathway.init dim_in dim_out kernel stride padding inplace_relu
        bn_eps bn_mmt tr = (Ok self, tr')) <->
   stem_lengths_equal dim_in dim_out kernel stride padding) /\
  (forall self tr',
     ResNeXt3DStemMultiPathway.init dim_in dim_out kernel stride padding inplace_relu
       bn_eps bn_mmt tr = (Ok self, tr') ->
     ResNeXt3DStemMultiPathway.num_pathways self = length dim_in /\
     forall key,
       is_Some (ResNeXt3DStemMultiPathway.blocks self !! key) <->
       exists p, p < length dim_in /\ key = ResNeXt3DStemMultiPathway._stem_name p).
Proof. apply ResNeXt3DStemMultiPathway_init_Ok_iff. Qed.

Lemma ResNeXt3DStemMultiPathway_init_returns_iff_witness :
  exists self tr',
    two_pathway_stem [] = (Ok self, tr') /\
    ResNeXt3DStemMultiPathway.num_pathways self = 2 /\
    is_Some (ResNeXt3DStemMultiPathway.blocks self
               !! ResNeXt3DStemMultiPathway._stem_name 1) /\
    ResNeXt3DStemMultiPathway.blocks self !! ResNeXt3DStemMultiPathway._stem_name 2
    = None.
Proof.
  unfold two_pathway_stem.
  destruct (ResNeXt3DStemMultiPathway_init_returns_iff [3; 3] [64; 8]
              [(1, 7, 7); (5, 7, 7)] [(1, 2, 2); (1, 2, 2)] [(0, 3, 3); (2, 3, 3)]
              true default_bn_eps default_bn_mmt []) as [Hiff Hkeys].
  destruct (proj2 Hiff) as (self & tr' & Hrun); [by repeat split |].
  destruct (Hkeys self tr' Hrun) as [Hn Hdom].
  exists self, tr'. split; [done |]. split; [done |]. split.
  - apply Hdom. exists 1. split; [simpl; lia | done].
  - apply eq_None_not_Some. intros (p & Hp & Hname)%Hdom.
    apply stem_name_inj in Hname as <-. simpl in Hp. lia.
Defined.

Section StemForwardErrors.

Context {T : Type} `{BackboneOps T}.
Context (self : ResNeXt3DStemMultiPathway.t) (training : bool).

(** The loop of the stem's forward pass, stopped after [j] rounds. *)
Lemma forward_loop_prefix (x : ref) (xs ys : list T) (h : gmap ref (list T))
    (n start : nat) :
  start + n = length ys -> length ys <= length xs ->
  (forall p y, ys !! p = Some y ->
     exists xp, xs !! p = Some xp /\ stem_maps self training p xp y) ->
  for_loop (ResNeXt3DStemMultiPathway.forward_body self training x) start n tt
    (<[x := take start ys ++ drop start xs]> h)
  = (Ok tt, <[x := ys ++ drop (length ys) xs]> h).
Proof.
  intros Hn Hlen Hmaps. revert start Hn. induction n as [|n IH]; intros start Hn;
    cbn [for_loop].
  - rewrite take_ge by lia. replace start with (length ys) by lia. done.
  - destruct (lookup_lt_is_Some_2 ys start) as [y Hy]; [lia |].
    destruct (Hmaps _ _ Hy) as (xp & Hxp & Hmap).
    rewrite Mut_bind_run.
    rewrite (forward_body_run self training x start
               (take start ys ++ drop start xs) xp y);
      [| apply lookup_insert_eq | | done].
    + rewrite insert_insert_eq.
      replace (<[start := y]> (take start ys ++ drop start xs))
        with (take (S start) ys ++ drop (S start) xs); [apply IH; lia |].
      rewrite (take_S_r _ _ _ Hy), (drop_S _ _ _ Hxp).
      rewrite insert_app_r_alt by (rewrite length_take; lia).
      rewrite length_take, Nat.min_l by lia.
      rewrite Nat.sub_diag. simpl. by rewrite <- app_assoc.
    + rewrite lookup_app_r by (rewrite length_take; lia).
      rewrite length_take, Nat.min_l by lia.
      rewrite Nat.sub_diag, lookup_drop. by rewrite Nat.add_0_r.
Qed.

Lemma for_loop_Mut_split (body : nat -> unit -> Mut T unit) (j k start : nat)
    (h : gmap ref (list T)) :
  for_loop body start (j + k) tt h
  = match for_loop body start j tt h with
    | (Ok _, h') => for_loop body (start + j) k tt h'
    | (Raise e, h') => (Raise e, h')
    end.
Proof.
  revert start h. induction j as [|j IH]; intros start h.
  - cbn [Nat.add for_loop]. by rewrite Nat.add_0_r.
  - cbn [Nat.add for_loop]. rewrite !Mut_bind_run.
    destruct (body start tt h) as [[[]|e] h1]; [| done].
    rewrite IH. by replace (S start + j) with (start + S j) by lia.
Qed.

(** X10.  Called on a list with more elements than the stem has
    single-pathway stems, the forward pass of the multi-pathway stem raises
    the [KeyError] of the first missing name, after it has overwritten the
    elements before it in the caller's list with its outputs [ys]: the
    list is left half updated. *)
Theorem stem_forward_too_many_inputs (x : ref) (xs ys : list T)
    (h : gmap ref (list T)) :
  h !! x = Some xs ->
  length ys < length xs ->
  (forall p y, ys !! p = Some y ->
     exists xp, xs !! p = Some xp /\ stem_maps self training p xp y) ->
  ResNeXt3DStemMultiPathway.blocks self
    !! ResNeXt3DStemMultiPathway._stem_name (length ys) = None ->
  ResNeXt3DStemMultiPathway.forward self training x h
  = (Raise (KeyError (ResNeXt3DStemMultiPathway._stem_name (length ys))),
     <[x := ys ++ drop (length ys) xs]> h).
Proof.
  intros Hx Hlen Hmaps Hnone.
  unfold ResNeXt3DStemMultiPathway.forward.
  rewrite Mut_bind_run. unfold list_len. rewrite Hx.
  rewrite Mut_bind_run.
  replace (length xs) with (length ys + (length xs - length ys)) by lia.
  rewrite for_loop_Mut_split.
  rewrite <- (insert_id h x xs Hx) at 1.
  change (<[x := xs]> h) with (<[x := take 0 ys ++ drop 0 xs]> h).
  rewrite (forward_loop_prefix x xs ys h (length ys) 0) by (done || lia).
  destruct (length xs - length ys) as [|k] eqn:Hk; [lia |].
  cbn [for_loop Nat.add]. rewrite Mut_bind_run.
  unfold ResNeXt3DStemMultiPathway.forward_body at 1.
  rewrite Mut_bind_run. unfold pure_ at 1, dict_getitem. by rewrite Hnone.
Qed.

End StemForwardErrors.

Lemma stem_forward_too_many_inputs_witness :
  exists self,
    construct two_pathway_stem = Ok self /\
    let h : gmap ref (list (list nat)) :=
      {[ 7 := [[1; 3; 8; 224; 224]; [1; 3; 32; 224; 224]; [1; 3; 4; 224; 224]] ]} in
    ResNeXt3DStemMultiPathway.forward self true 7 h
    = (Raise (KeyError "stem-path2"),
       <[7 := [[1; 64; 8; 56; 56]; [1; 8; 32; 56; 56]; [1; 3; 4; 224; 224]]]> h).
Proof.
  destruct (two_pathway_stem []) as [[self|e] tr'] eqn:Hrun.
  - exists self. split; [unfold construct; by rewrite Hrun |].
    vm_compute in Hrun. injection Hrun as <- _.
    intros h.
    apply (stem_forward_too_many_inputs _ true 7
             [[1; 3; 8; 224; 224]; [1; 3; 32; 224; 224]; [1; 3; 4; 224; 224]]
             [[1; 64; 8; 56; 56]; [1; 8; 32; 56; 56]] h).
    + reflexivity.
    + simpl. lia.
    + intros [|[|p]] y Hy; simpl in Hy; [| | discriminate];
        injection Hy as <-; eexists; (split; [reflexivity |]);
        eexists; split; vm_compute; reflexivity.
    + vm_compute. reflexivity.
  - exfalso. vm_compute in Hrun. discriminate.
Defined.

(** ** The constructor of the model *)

Lemma length_out_planes (kw : ResNeXt3D.kwargs) :
  length (ResNeXt3D.out_planes kw) = length (ResNeXt3D.num_blocks kw).
Proof. unfold ResNeXt3D.out_planes. by rewrite length_map, length_seq. Qed.

Lemma length_inner_planes (kw : ResNeXt3D.kwargs) :
  length (ResNeXt3D.inner_planes kw) = length (ResNeXt3D.num_blocks kw).
Proof. unfold ResNeXt3D.inner_planes. by rewrite length_map, length_seq. Qed.

Lemma length_in_planes (kw : ResNeXt3D.kwargs) :
  length (ResNeXt3D.in_planes kw) = S (length (ResNeXt3D.num_blocks kw) - 1).
Proof.
  unfold ResNeXt3D.in_planes. rewrite length_app, removelast_firstn_len, length_take.
  rewrite length_out_planes. simpl. lia.
Qed.

Lemma inner_planes_divisible (g w s : nat) : g <> 0 -> (g * w * 2 ^ s) mod g = 0.
Proof.
  intros Hg. replace (g * w * 2 ^ s) with (w * 2 ^ s * g) by lia.
  apply Nat.Div0.mod_mul.
Qed.

Lemma stage_body_Ok (kw : ResNeXt3D.kwargs) (s : nat) (stages : list ResStage.t)
    (tr : trace) (stages' : list ResStage.t) (tr' : trace) :
  ResNeXt3D.stage_body kw s stages tr = (Ok stages', tr') ->
  exists s_in s_out s_inner s_basis s_c1 s_ts s_ss s_nb st tr1,
    ResNeXt3D.in_planes kw !! s = Some s_in /\
    ResNeXt3D.out_planes kw !! s = Some s_out /\
    ResNeXt3D.inner_planes kw !! s = Some s_inner /\
    ResNeXt3D.stage_temporal_kernel_basis kw !! s = Some s_basis /\
    ResNeXt3D.temporal_conv_1x1 kw !! s = Some s_c1 /\
    ResNeXt3D.stage_temporal_stride kw !! s = Some s_ts /\
    ResNeXt3D.stage_spatial_stride kw !! s = Some s_ss /\
    ResNeXt3D.num_blocks kw !! s = Some s_nb /\
    ResStage.init (s + 1) [s_in] [s_out] [s_inner] [s_basis] [s_c1] [s_ts] [s_ss]
      [s_nb] [ResNeXt3D.num_groups kw] (ResNeXt3D.skip_transformation kw)
      (ResNeXt3D.residual_transformation kw) true default_bn_eps default_bn_mmt
      (s =? 0) (s =? length (ResNeXt3D.num_blocks kw) - 1) tr1 = (Ok st, tr') /\
    stages' = stages ++ [st].
Proof.
  unfold ResNeXt3D.stage_body. intros Hrun.
  apply Build_bind_Ok in Hrun as (s_in & tr1 & Hs_in%index_Ok & Hrun).
  apply Build_bind_Ok in Hrun as (s_out & tr2 & Hs_out%index_Ok & Hrun).
  apply Build_bind_Ok in Hrun as (s_inner & tr3 & Hs_inner%index_Ok & Hrun).
  apply Build_bind_Ok in Hrun as (s_basis & tr4 & Hs_basis%index_Ok & Hrun).
  apply Build_bind_Ok in Hrun as (s_c1 & tr5 & Hs_c1%index_Ok & Hrun).
  apply Build_bind_Ok in Hrun as (s_ts & tr6 & Hs_ts%index_Ok & Hrun).
  apply Build_bind_Ok in Hrun as (s_ss & tr7 & Hs_ss%index_Ok & Hrun).
  apply Build_bind_Ok in Hrun as (s_nb & tr8 & Hs_nb%index_Ok & Hrun).
  apply Build_bind_Ok in Hrun as (st & tr9 & Hst & Hrun).
  apply mret_run in Hrun as [<- <-].
  by exists s_in, s_out, s_inner, s_basis, s_c1, s_ts, s_ss, s_nb, st, tr8.
Qed.

Lemma ResNeXt3DStem_returns (kt ks input_planes stem_planes : nat) (maxpool : bool) :
  returns (ResNeXt3DStem.init kt ks input_planes stem_planes maxpool).
Proof.
  unfold ResNeXt3DStem.init.
  apply returns_bind; [apply returns_alloc | intros _].
  apply returns_bind; [| intros ?; apply returns_mret].
  apply ResNeXt3DStemMultiPathway_returns. by repeat split.
Qed.

Lemma FullyConvolutionalLinearHead_returns (num_classes in_plane : nat)
    (pool_size : option triple) (use_dropout : option bool) (ratio : Q) :
  returns (FullyConvolutionalLinearHead.init num_classes in_plane pool_size
             use_dropout ratio).
Proof.
  unfold FullyConvolutionalLinearHead.init, FullyConvolutionalLinear.init, nn.Linear.
  apply returns_bind; [apply returns_alloc | intros _].
  apply returns_bind; [destruct pool_size; repeat returns_step | intros ?].
  apply returns_bind; [destruct use_dropout as [[|]|]; repeat returns_step | intros ?].
  repeat returns_step.
Qed.

Lemma stage_body_returns (kw : ResNeXt3D.kwargs) (s : nat) (stages : list ResStage.t) :
  constructible kw -> s < length (ResNeXt3D.num_blocks kw) ->
  returns (ResNeXt3D.stage_body kw s stages).
Proof.
  intros (Hl1 & Hl2 & Hl3 & Hl4 & Hbasis) Hs.
  destruct (lookup_lt_is_Some_2 (ResNeXt3D.in_planes kw) s) as [s_in Hs_in].
  { rewrite length_in_planes. lia. }
  destruct (lookup_lt_is_Some_2 (ResNeXt3D.out_planes kw) s) as [s_out Hs_out].
  { rewrite length_out_planes. lia. }
  destruct (lookup_lt_is_Some_2 (ResNeXt3D.inner_planes kw) s) as [s_inner Hs_inner].
  { rewrite length_inner_planes. lia. }
  destruct (lookup_lt_is_Some_2 (ResNeXt3D.stage_temporal_kernel_basis kw) s)
    as [s_basis Hs_basis]; [lia |].
  destruct (lookup_lt_is_Some_2 (ResNeXt3D.temporal_conv_1x1 kw) s) as [s_c1 Hs_c1];
    [lia |].
  destruct (lookup_lt_is_Some_2 (ResNeXt3D.stage_temporal_stride kw) s)
    as [s_ts Hs_ts]; [lia |].
  destruct (lookup_lt_is_Some_2 (ResNeXt3D.stage_spatial_stride kw) s)
    as [s_ss Hs_ss]; [lia |].
  destruct (lookup_lt_is_Some_2 (ResNeXt3D.num_blocks kw) s) as [s_nb Hs_nb]; [lia |].
  unfold ResNeXt3D.stage_body.
  apply (returns_index_bind _ _ s_in); [done |].
  apply (returns_index_bind _ _ s_out); [done |].
  apply (returns_index_bind _ _ s_inner); [done |].
  apply (returns_index_bind _ _ s_basis); [done |].
  apply (returns_index_bind _ _ s_c1); [done |].
  apply (returns_index_bind _ _ s_ts); [done |].
  apply (returns_index_bind _ _ s_ss); [done |].
  apply (returns_index_bind _ _ s_nb); [done |].
  apply returns_bind; [| intros ?; apply returns_mret].
  apply ResStage_init_returns; [by repeat split |].
  intros [|p] n Hn Hn1; [| done]. injection Hn as <-.
  destruct (Hbasis s s_nb s_basis Hs_nb Hn1 Hs_basis) as [Hne Hg].
  exists s_basis, (ResNeXt3D.num_groups kw), s_inner.
  repeat split; try done.
  apply inner_planes_lookup in Hs_inner as ->. by apply inner_planes_divisible.
Qed.

(** X11.  The constructor of the model returns a model exactly when the
    four per-stage lists (kernel bases, [temporal_conv_1x1] and the two
    stride lists) are at least as long as [num_blocks] and every stage with
    at least one block has a non-empty kernel basis and a group count
    other than 0. *)
Theorem ResNeXt3D_init_returns_iff (kw : ResNeXt3D.kwargs) (tr : trace) :
  (exists m tr', ResNeXt3D.init kw tr = (Ok m, tr')) <-> constructible kw.
Proof.
  split.
  - intros (m & tr' & Hrun).
    apply ResNeXt3D_init_Ok in Hrun
      as (stem & stages & hd & tr1 & tr2 & tr3 & _ & Hstages & _ & _).
    apply (for_loop_append
             (fun s (_ : ResStage.t) =>
                exists s_basis s_c1 s_ts s_ss s_nb,
                  ResNeXt3D.stage_temporal_kernel_basis kw !! s = Some s_basis /\
                  ResNeXt3D.temporal_conv_1x1 kw !! s = Some s_c1 /\
                  ResNeXt3D.stage_temporal_stride kw !! s = Some s_ts /\
                  ResNeXt3D.stage_spatial_stride kw !! s = Some s_ss /\
                  ResNeXt3D.num_blocks kw !! s = Some s_nb /\
                  (1 <= s_nb -> s_basis <> [] /\ ResNeXt3D.num_groups kw <> 0)))
      in Hstages as (items & _ & Hlen & Hitems).
    + assert (Hall : forall s, s < length (ResNeXt3D.num_blocks kw) ->
                exists s_basis s_c1 s_ts s_ss s_nb,
                  ResNeXt3D.stage_temporal_kernel_basis kw !! s = Some s_basis /\
                  ResNeXt3D.temporal_conv_1x1 kw !! s = Some s_c1 /\
                  ResNeXt3D.stage_temporal_stride kw !! s = Some s_ts /\
                  ResNeXt3D.stage_spatial_stride kw !! s = Some s_ss /\
                  ResNeXt3D.num_blocks kw !! s = Some s_nb /\
                  (1 <= s_nb -> s_basis <> [] /\ ResNeXt3D.num_groups kw <> 0)).
      { intros s Hs. destruct (lookup_lt_is_Some_2 items s) as [st Hst]; [lia |].
        exact (Hitems s st Hst). }
      assert (Hlong : forall {A : Type} (l : list A),
                (forall s, s < length (ResNeXt3D.num_blocks kw) -> is_Some (l !! s)) ->
                length (ResNeXt3D.num_blocks kw) <= length l).
      { intros A l Hl. destruct (length (ResNeXt3D.num_blocks kw)) as [|k]; [lia |].
        destruct (Hl k) as [a Ha]; [lia |]. apply lookup_lt_Some in Ha. lia. }
      unfold constructible. split; [| split; [| split; [| split]]].
      * apply Hlong. intros s Hs.
        destruct (Hall s Hs) as (b & _ & _ & _ & _ & Hb & _). by exists b.
      * apply Hlong. intros s Hs.
        destruct (Hall s Hs) as (_ & c & _ & _ & _ & _ & Hc & _). by exists c.
      * apply Hlong. intros s Hs.
        destruct (Hall s Hs) as (_ & _ & t & _ & _ & _ & _ & Ht & _). by exists t.
      * apply Hlong. intros s Hs.
        destruct (Hall s Hs) as (_ & _ & _ & t & _ & _ & _ & _ & Ht & _). by exists t.
      * intros s nb basis Hnb Hnb1 Hbasis.
        destruct (Hall s) as (b & _ & _ & _ & n & Hb & _ & _ & _ & Hn & Hcond).
        { by apply lookup_lt_Some in Hnb. }
        rewrite Hnb in Hn. injection Hn as <-.
        rewrite Hbasis in Hb. injection Hb as <-.
        by apply Hcond.
    + intros s acc tr0 acc' tr0' Hbody.
      apply stage_body_Ok in Hbody
        as (s_in & s_out & s_inner & s_basis & s_c1 & s_ts & s_ss & s_nb & st & tr4
            & _ & _ & _ & Hs_basis & Hs_c1 & Hs_ts & Hs_ss & Hs_nb & Hst & ->).
      exists st. split; [done |].
      exists s_basis, s_c1, s_ts, s_ss, s_nb. repeat (split; [done |]).
      intros Hnb.
      apply ResStage_init_Ok_buildable in Hst as [_ Hbuild].
      destruct (Hbuild 0 s_nb eq_refl Hnb)
        as (basis & g & d_inner & [= <-] & Hne & [= <-] & _ & Hg & _).
      done.
  - intros Hok. unfold ResNeXt3D.init.
    apply returns_bind; [apply returns_alloc | intros _].
    apply returns_bind; [apply ResNeXt3DStem_returns | intros stem].
    apply returns_bind.
    { apply returns_for_loop. intros s stages Hs. apply stage_body_returns; [done | lia]. }
    intros stages.
    apply returns_bind; [apply returns_alloc | intros _].
    apply returns_bind; [apply FullyConvolutionalLinearHead_returns | intros hd].
    apply returns_mret.
Qed.

Lemma ResNeXt3D_init_returns_iff_witness :
  (exists m tr', resnext3d_preact_i3d50 None [] = (Ok m, tr')) /\
  (forall m tr', ResNeXt3D.init short_stride_kwargs [] <> (Ok m, tr')).
Proof.
  split.
  - unfold resnext3d_preact_i3d50.
    apply (proj2 (ResNeXt3D_init_returns_iff _ [])).
    unfold constructible. cbn [ResNeXt3D.num_blocks ResNeXt3D.stage_temporal_kernel_basis
      ResNeXt3D.temporal_conv_1x1 ResNeXt3D.stage_temporal_stride
      ResNeXt3D.stage_spatial_stride ResNeXt3D.num_groups length].
    do 4 (split; [lia |]).
    intros s nb basis _ _ Hbasis. split; [| lia].
    destruct s as [|[|[|[|s]]]]; cbn in Hbasis; try discriminate;
      injection Hbasis as <-; discriminate.
  - intros m tr' Hrun.
    assert (Hok : constructible short_stride_kwargs).
    { apply (proj1 (ResNeXt3D_init_returns_iff short_stride_kwargs [])).
      by exists m, tr'. }
    destruct Hok as (_ & _ & _ & Hlen & _). simpl in Hlen. lia.
Defined.

(** ** What the constructor of the model can raise *)

Lemma returns_raises_only {A : Type} (P : exn -> Prop) (c : Build A) :
  returns c -> raises_only P c.
Proof.
  intros Hc tr e tr' Hrun. destruct (Hc tr) as (a & tr1 & Ha).
  rewrite Ha in Hrun. discriminate.
Qed.

Lemma raises_only_index_bind {A B : Type} (P : exn -> Prop) (l : list A) (i : nat)
    (f : A -> Build B) :
  P IndexError -> (forall a, l !! i = Some a -> raises_only P (f a)) ->
  raises_only P (index l i ≫= f).
Proof.
  intros HP Hf tr e tr'. rewrite Build_bind_run. unfold index, lift, getitem.
  destruct (l !! i) as [a|] eqn:Ha.
  - intros Hrun. exact (Hf a eq_refl _ _ _ Hrun).
  - by intros [= <- _].
Qed.

Lemma ResStage_init_raises_index (stage_idx : nat) (dim_in dim_out dim_inner : list nat)
    (tkb : list (list nat)) (c1 : list bool) (ts ss nb grp : list nat)
    (sk : skip_class) (rs : residual_class) (ir : bool) (e m : Q)
    (disable final : bool) :
  stage_lengths_equal dim_in dim_out dim_inner tkb c1 ts ss nb grp ->
  (forall p g d, grp !! p = Some g -> dim_inner !! p = Some d -> g <> 0 /\ d mod g = 0) ->
  raises_only is_IndexError
    (ResStage.init stage_idx dim_in dim_out dim_inner tkb c1 ts ss nb grp sk rs ir
       e m disable final).
Proof.
  intros Hlen Hgroups. unfold ResStage.init.
  apply raises_only_bind; [apply raises_only_alloc | intros _].
  rewrite (proj2 (unequal_lengths_false _ _ _ _ _ _ _ _ _) Hlen).
  apply raises_only_bind.
  { unfold ResStage.make_temporal_kernel_sizes. apply raises_only_for_loop.
    intros i acc. repeat (apply raises_only_index_bind; [done | intros ? _]).
    apply raises_only_mret. }
  intros tks. apply raises_only_bind; [| intros ?; apply raises_only_mret].
  apply raises_only_for_loop. intros p pws. unfold ResStage.pathway_body.
  apply raises_only_index_bind; [done | intros n _].
  apply raises_only_bind.
  2:{ intros blocks. rewrite final_activation_run.
      apply raises_only_bind; [apply raises_only_mret | intros ?].
      apply raises_only_bind; [apply raises_only_alloc | intros ?].
      apply raises_only_mret. }
  apply raises_only_for_loop. intros i blocks. unfold ResStage.block_body.
  apply raises_only_index_bind; [done | intros d_in _].
  apply raises_only_index_bind; [done | intros d_out _].
  apply raises_only_index_bind; [done | intros d_inner Hd_inner].
  apply raises_only_index_bind; [done | intros sizes _].
  apply raises_only_index_bind; [done | intros k _].
  apply raises_only_index_bind; [done | intros c _].
  apply raises_only_bind.
  { destruct (i =? 0); [by apply raises_only_index | apply raises_only_mret]. }
  intros ts'. apply raises_only_bind.
  { destruct (i =? 0); [by apply raises_only_index | apply raises_only_mret]. }
  intros ss'. apply raises_only_index_bind; [done | intros g Hg].
  destruct (Hgroups p g d_inner Hg Hd_inner) as [Hg0 Hmod].
  apply raises_only_bind; [| intros ?; apply raises_only_mret].
  apply returns_raises_only. by apply ResBlock_init_returns.
Qed.

Lemma ResNeXt3DStem_raises (P : exn -> Prop) (kt ks input_planes stem_planes : nat)
    (maxpool : bool) :
  raises_only P (ResNeXt3DStem.init kt ks input_planes stem_planes maxpool).
Proof. apply returns_raises_only, ResNeXt3DStem_returns. Qed.

Lemma stage_body_raises (kw : ResNeXt3D.kwargs) (s : nat) (stages : list ResStage.t) :
  raises_only (fun e => layer_error e /\
                        (ResNeXt3D.num_groups kw <> 0 -> e = IndexError))
    (ResNeXt3D.stage_body kw s stages).
Proof.
  intros tr e tr' Hrun. split.
  - revert tr e tr' Hrun.
    change (raises_only layer_error (ResNeXt3D.stage_body kw s stages)).
    unfold ResNeXt3D.stage_body.
    repeat (raises_step; try (apply raises_only_index; constructor)).
    eapply raises_only_weaken; [| apply ResStage_init_raises].
    intros e [He | [_ Hne]]; [done |]. exfalso. apply Hne. by repeat split.
  - intros Hg. revert tr e tr' Hrun.
    change (raises_only is_IndexError (ResNeXt3D.stage_body kw s stages)).
    unfold ResNeXt3D.stage_body.
    apply raises_only_index_bind; [done | intros s_in _].
    apply raises_only_index_bind; [done | intros s_out _].
    apply raises_only_index_bind; [done | intros s_inner Hs_inner].
    apply raises_only_index_bind; [done | intros s_basis _].
    apply raises_only_index_bind; [done | intros s_c1 _].
    apply raises_only_index_bind; [done | intros s_ts _].
    apply raises_only_index_bind; [done | intros s_ss _].
    apply raises_only_index_bind; [done | intros s_nb _].
    apply raises_only_bind; [| intros ?; apply raises_only_mret].
    apply ResStage_init_raises_index; [by repeat split |].
    intros [|p] g d Hgp Hdp; [| done]. injection Hgp as <-. injection Hdp as <-.
    split; [done |].
    apply inner_planes_lookup in Hs_inner as ->. by apply inner_planes_divisible.
Qed.

(** X12.  Whatever the constructor of the model raises is the [IndexError]
    of a per-stage list that is too short or one of the three
    [ValueError]s of [nn.Conv3d] on its groups, never an assertion error
    and never the unequal-length error of a stage or of the stem; with a
    group count other than 0 it is the [IndexError]. *)
Theorem ResNeXt3D_init_raises (kw : ResNeXt3D.kwargs) (tr : trace) (e : exn) :
  fst (ResNeXt3D.init kw tr) = Raise e ->
  layer_error e /\ (ResNeXt3D.num_groups kw <> 0 -> e = IndexError).
Proof.
  apply (raises_only_fst
           (fun e => layer_error e /\ (ResNeXt3D.num_groups kw <> 0 -> e = IndexError))).
  unfold ResNeXt3D.init.
  apply raises_only_bind; [apply raises_only_alloc | intros _].
  apply raises_only_bind; [apply ResNeXt3DStem_raises | intros stem].
  apply raises_only_bind.
  { apply raises_only_for_loop. intros s stages. apply stage_body_raises. }
  intros stages.
  apply raises_only_bind; [apply raises_only_alloc | intros _].
  apply raises_only_bind; [| intros ?; apply raises_only_mret].
  apply returns_raises_only, FullyConvolutionalLinearHead_returns.
Qed.

Lemma ResNeXt3D_init_raises_witness :
  exists e, fst (ResNeXt3D.init short_stride_kwargs []) = Raise e /\ e = IndexError.
Proof.
  destruct (fst (ResNeXt3D.init short_stride_kwargs [])) as [m|e] eqn:Hfst.
  - exfalso. vm_compute in Hfst. discriminate.
  - exists e. split; [done |].
    apply (ResNeXt3D_init_raises short_stride_kwargs [] e Hfst). simpl. lia.
Defined.

(** ** The initialisation policy on the blocks *)

Lemma PostactivatedShortcutTransformation_init_Ok (dim_in dim_out ts ss : nat)
    (e m : Q) (tr tr' : trace) (pm : PostactivatedShortcutTransformation.t) :
  PostactivatedShortcutTransformation.init dim_in dim_out ts ss e m tr = (Ok pm, tr') ->
  pm = PostactivatedShortcutTransformation.mk
         (mkConv3d dim_in dim_out (1, 1, 1) (ts, ss, ss) (0, 0, 0) 1 default_init None
            false)
         (mkBatchNorm3d dim_out e m true default_init default_init false).
Proof.
  unfold PostactivatedShortcutTransformation.init. intros Hrun.
  apply Build_bind_Ok in Hrun as (u & tr0 & _ & Hrun).
  apply Build_bind_Ok in Hrun as (u' & tr1 & _ & Hrun).
  apply Build_bind_Ok in Hrun as (b1 & tr2 & ->%nn_Conv3d_Ok & Hrun).
  apply Build_bind_Ok in Hrun as (b1_bn & tr3 & ->%nn_BatchNorm3d_Ok & Hrun).
  by apply mret_run in Hrun as [<- _].
Qed.

Lemma PreactivatedShortcutTransformation_init_Ok (dim_in dim_out ts ss : nat)
    (ir : bool) (e m : Q) (disable : bool) (tr tr' : trace)
    (pm : PreactivatedShortcutTransformation.t) :
  PreactivatedShortcutTransformation.init dim_in dim_out ts ss ir e m disable tr
    = (Ok pm, tr') ->
  pm = PreactivatedShortcutTransformation.mk
         (if disable then None
          else Some (mkBatchNorm3d dim_in e m true default_init default_init false))
         (if disable then None else Some (L_ReLU ir))
         (mkConv3d dim_in dim_out (1, 1, 1) (ts, ss, ss) (0, 0, 0) 1 default_init None
            false)
         (ts, ss, ss).
Proof.
  unfold PreactivatedShortcutTransformation.init. intros Hrun.
  apply Build_bind_Ok in Hrun as (u & tr0 & _ & Hrun).
  apply Build_bind_Ok in Hrun as (u' & tr1 & _ & Hrun).
  apply Build_bind_Ok in Hrun as (b1_bn & tr2 & Hb1_bn & Hrun).
  apply Build_bind_Ok in Hrun as (b1_relu & tr3 & Hb1_relu & Hrun).
  apply Build_bind_Ok in Hrun as (b1 & tr4 & ->%nn_Conv3d_Ok & Hrun).
  apply mret_run in Hrun as [<- _].
  destruct disable; cbn [negb] in Hb1_bn, Hb1_relu.
  - apply mret_run in Hb1_bn as [<- _]. by apply mret_run in Hb1_relu as [<- _].
  - apply Build_fmap_Ok in Hb1_bn as (bn & ->%nn_BatchNorm3d_Ok & ->).
    by apply Build_fmap_Ok in Hb1_relu as (act & ->%nn_ReLU_Ok & ->).
Qed.

(** A block that was built, after [_init_parameter] has walked over it. *)
Lemma ResBlock_init_initialised (dim_in dim_out dim_inner k : nat) (c1 : bool)
    (ts ss : nat) (sk : skip_class) (rs : residual_class) (grp : nat) (ir : bool)
    (e m : Q) (disable : bool) (tr tr' : trace) (blk : ResBlock.t) (zero : bool) :
  ResBlock.init dim_in dim_out dim_inner k c1 ts ss sk rs grp ir e m disable tr
    = (Ok blk, tr') ->
  let v := mkVisitor (ResNeXt3D.init_conv zero) (ResNeXt3D.init_bn zero)
             ResNeXt3D.init_linear in
  residual_initialised zero (ResBlock.residual (ResBlock.visit v blk)) /\
  skip_initialised (ResBlock.skip (ResBlock.visit v blk)).
Proof.
  intros Hrun v.
  apply ResBlock_init_Ok in Hrun as (tr1 & tr2 & tr3 & Hskip & Hres & _).
  split.
  - destruct rs, Hres as (rm & Hrm & Heq); cbn [ResBlock.visit ResBlock.residual];
      rewrite Heq.
    + apply PostactivatedBottleneckTransformation_init_Ok in Hrm as ->.
      cbn. by destruct zero.
    + apply PreactivatedBottleneckTransformation_init_Ok in Hrm as ->.
      cbn. destruct zero, disable; cbn; repeat (split; [done |]).
      all: try done.
      all: by intros b [= <-].
  - cbn [ResBlock.visit ResBlock.skip].
    destruct (projection_needed dim_in dim_out ts ss).
    + destruct sk, Hskip as (pm & Hpm & ->).
      * apply PostactivatedShortcutTransformation_init_Ok in Hpm as ->. by cbn.
      * apply PreactivatedShortcutTransformation_init_Ok in Hpm as ->.
        cbn. split; [done |]. destruct disable; cbn; [done |]. by intros b [= <-].
    + by rewrite Hskip.
Qed.

(** X13.  In every model that was built, every module of every pathway of
    every stage is a residual block on which [_init_parameter] has left
    its policy: Kaiming-normal (fan-out, ReLU) weights on the convolutions,
    weight 1 and bias 0 on the batch normalisations and, under
    [zero_init_residual_transform], weight 0 on the final transform of the
    residual branch: the last batch normalisation of a post-activated
    branch, the last convolution of a pre-activated one. *)
Theorem init_parameter_reaches_every_block (kw : ResNeXt3D.kwargs) (tr tr' : trace)
    (m : ResNeXt3D.t) (st : ResStage.t) (key : string)
    (items : list ResStage.seq_item) (item : ResStage.seq_item) :
  ResNeXt3D.init kw tr = (Ok m, tr') ->
  st ∈ ResNeXt3D.stages m ->
  ResStage.pathways st !! key = Some items ->
  item ∈ items ->
  exists b,
    item = ResStage.Seq_ResBlock b /\
    residual_initialised (ResNeXt3D.zero_init_residual_transform kw)
      (ResBlock.residual b) /\
    skip_initialised (ResBlock.skip b).
Proof.
  intros Hrun Hst Hitems Hitem.
  apply ResNeXt3D_init_Ok in Hrun
    as (stem & stages & hd & tr1 & tr2 & tr3 & _ & Hstages & _ & ->).
  cbn [ResNeXt3D.set_head ResNeXt3D._init_parameter ResNeXt3D.stages] in Hst.
  apply list_elem_of_fmap in Hst as (st0 & -> & Hst0).
  apply list_elem_of_lookup_1 in Hst0 as [s Hs].
  apply (for_loop_append
           (fun s (st0 : ResStage.t) =>
              exists s_in s_out s_inner s_basis s_c1 s_ts s_ss s_nb tr1 tr2,
                ResStage.init (s + 1) [s_in] [s_out] [s_inner] [s_basis] [s_c1] [s_ts]
                  [s_ss] [s_nb] [ResNeXt3D.num_groups kw]
                  (ResNeXt3D.skip_transformation kw)
                  (ResNeXt3D.residual_transformation kw) true default_bn_eps
                  default_bn_mmt (s =? 0)
                  (s =? length (ResNeXt3D.num_blocks kw) - 1) tr1 = (Ok st0, tr2)))
    in Hstages as (stages0 & -> & _ & Hbuilt).
  2:{ intros i acc tr0 acc' tr0' Hbody.
      apply stage_body_Ok in Hbody
        as (s_in & s_out & s_inner & s_basis & s_c1 & s_ts & s_ss & s_nb & st1 & tr4
            & _ & _ & _ & _ & _ & _ & _ & _ & Hst1 & ->).
      exists st1. split; [done |].
      by exists s_in, s_out, s_inner, s_basis, s_c1, s_ts, s_ss, s_nb, tr4, tr0'. }
  cbn [app] in Hs.
  destruct (Hbuilt s st0 Hs)
    as (s_in & s_out & s_inner & s_basis & s_c1 & s_ts & s_ss & s_nb & tr4 & tr5 & Hinit).
  cbn [ResStage.visit ResStage.pathways] in Hitems.
  rewrite lookup_fmap in Hitems.
  destruct (ResStage.pathways st0 !! key) as [items0|] eqn:Hitems0; [| done].
  cbn in Hitems. injection Hitems as <-.
  apply list_elem_of_fmap in Hitem as (item0 & -> & Hitem0).
  apply list_elem_of_lookup_1 in Hitem0 as [i Hi].
  pose proof Hinit as Hkeys.
  apply ResStage_init_built in Hkeys as (_ & _ & _ & _ & Honly).
  destruct (Honly _ _ Hitems0) as (p & _ & -> & _).
  destruct (ResStage_init_item _ _ _ _ _ _ _ _ _ _ _ _ _ _ _ _ _ _ _ _ _ _ _ _
              Hinit Hitems0 Hi)
    as (_ & _ & _ & b0 & d_in & d_out & d_inner & sizes & k & c1 & ts & ss & g
        & tr6 & tr7 & -> & _ & _ & _ & _ & _ & _ & _ & _ & _ & Hblk).
  eexists. split; [reflexivity |].
  by apply (ResBlock_init_initialised _ _ _ _ _ _ _ _ _ _ _ _ _ _ _ _ _
              (ResNeXt3D.zero_init_residual_transform kw)) in Hblk.
Qed.

Lemma init_parameter_reaches_every_block_witness :
  exists m st items b,
    construct (resnext3d_preact_i3d50 None) = Ok m /\
    ResNeXt3D.stages m !! 0 = Some st /\
    ResStage.pathways st !! ResStage._pathway_name 0 = Some items /\
    items !! 2 = Some (ResStage.Seq_ResBlock b) /\
    residual_initialised true (ResBlock.residual b).
Proof.
  destruct (resnext3d_preact_i3d50 None []) as [[m|e] tr'] eqn:Hrun;
    [| exfalso; vm_compute in Hrun; discriminate].
  destruct (ResNeXt3D.stages m !! 0) as [st|] eqn:Hst;
    [| exfalso; vm_compute in Hrun; injection Hrun as <- _; vm_compute in Hst;
       discriminate].
  destruct (ResStage.pathways st !! ResStage._pathway_name 0) as [items|] eqn:Hitems;
    [| exfalso; vm_compute in Hrun; injection Hrun as <- _; vm_compute in Hst;
       injection Hst as <-; vm_compute in Hitems; discriminate].
  destruct (items !! 2) as [item|] eqn:Hitem;
    [| exfalso; vm_compute in Hrun; injection Hrun as <- _; vm_compute in Hst;
       injection Hst as <-; vm_compute in Hitems; injection Hitems as <-;
       vm_compute in Hitem; discriminate].
  assert (Hm : construct (resnext3d_preact_i3d50 None) = Ok m)
    by (unfold construct; by rewrite Hrun).
  unfold resnext3d_preact_i3d50 in Hrun.
  destruct (init_parameter_reaches_every_block _ _ _ _ st _ items item Hrun
              (list_elem_of_lookup_2 _ _ _ Hst) Hitems
              (list_elem_of_lookup_2 _ _ _ Hitem))
    as (b & -> & Hres & _).
  exists m, st, items, b. by repeat split.
Defined.

(** ** Initialisation leaves the shapes alone *)

Lemma for_loop_result_ext {St : Type} (body1 body2 : nat -> St -> result St) :
  (forall i s, body1 i s = body2 i s) ->
  forall n start s, for_loop body1 start n s = for_loop body2 start n s.
Proof.
  intros Hbody n. induction n as [|n IH]; intros start s; [done |].
  cbn [for_loop]. rewrite Hbody. destruct (body2 start s); [apply IH | done].
Qed.

Lemma for_loop_Mut_ext {T St : Type} (body1 body2 : nat -> St -> Mut T St) :
  (forall i s h, body1 i s h = body2 i s h) ->
  forall n start s h, for_loop body1 start n s h = for_loop body2 start n s h.
Proof.
  intros Hbody n. induction n as [|n IH]; intros start s h; [done |].
  cbn [for_loop]. rewrite !Mut_bind_run, Hbody.
  destruct (body2 start s h) as [[s'|e] h']; [apply IH | done].
Qed.

Section InitShapes.

Context (zero : bool).

Let v := mkVisitor (ResNeXt3D.init_conv zero) (ResNeXt3D.init_bn zero)
  ResNeXt3D.init_linear.

Let Hv : shape_preserving v := init_visitor_shape_preserving zero.

Lemma ResStage_forward_init (st : ResStage.t) (training : bool)
    (inputs : list (list nat)) :
  ResStage.forward (ResStage.visit v st) training inputs
  = ResStage.forward st training inputs.
Proof.
  unfold ResStage.forward. cbn [ResStage.visit ResStage.num_pathways ResStage.pathways].
  apply for_loop_result_ext. intros p out.
  destruct (getitem inputs p) as [x|e]; [| done]. cbn [mbind result_bind].
  unfold dict_getitem. rewrite lookup_fmap.
  destruct (ResStage.pathways st !! ResStage._pathway_name p) as [ms|]; [| done].
  cbn [fmap option_fmap option_map mbind result_bind].
  by rewrite (Sequential_forward_visit v Hv).
Qed.

Lemma stages_forward_init (stages : list ResStage.t) (training : bool)
    (inputs : list (list nat)) :
  ResNeXt3D.stages_forward (map (ResStage.visit v) stages) training inputs
  = ResNeXt3D.stages_forward stages training inputs.
Proof.
  revert inputs. induction stages as [|st stages IH]; intros inputs; [done |].
  cbn [map ResNeXt3D.stages_forward]. rewrite ResStage_forward_init.
  destruct (ResStage.forward st training inputs); [apply IH | done].
Qed.

Lemma ResNeXt3DStem_forward_init (stem : ResNeXt3DStem.t) (training : bool) (x : ref)
    (h : gmap ref (list (list nat))) :
  ResNeXt3DStem.forward (ResNeXt3DStem.visit v stem) training x h
  = ResNeXt3DStem.forward stem training x h.
Proof.
  unfold ResNeXt3DStem.forward, ResNeXt3DStem.visit. cbn [ResNeXt3DStem.stem].
  unfold ResNeXt3DStemMultiPathway.forward.
  rewrite !Mut_bind_run. destruct (list_len x h) as [[n|e] h1]; [| done].
  rewrite !Mut_bind_run.
  rewrite (for_loop_Mut_ext
             (ResNeXt3DStemMultiPathway.forward_body
                (ResNeXt3DStemMultiPathway.visit v (ResNeXt3DStem.stem stem)) training x)
             (ResNeXt3DStemMultiPathway.forward_body (ResNeXt3DStem.stem stem)
                training x)); [done |].
  intros p u h2. unfold ResNeXt3DStemMultiPathway.forward_body.
  rewrite !Mut_bind_run. unfold pure_ at 1 3, dict_getitem.
  cbn [ResNeXt3DStemMultiPathway.visit ResNeXt3DStemMultiPathway.blocks].
  rewrite lookup_fmap.
  destruct (ResNeXt3DStemMultiPathway.blocks (ResNeXt3DStem.stem stem) !! _)
    as [sb|]; [| done].
  cbn [fmap option_fmap option_map]. rewrite !Mut_bind_run.
  destruct (list_load x p h2) as [[xp|e] h3]; [| done].
  rewrite !Mut_bind_run. unfold pure_.
  by rewrite (ResNeXt3DStemSinglePathway_forward_visit v Hv).
Qed.

Lemma FullyConvolutionalLinearHead_forward_init (hd : FullyConvolutionalLinearHead.t)
    (training : bool) (x : list nat) :
  FullyConvolutionalLinearHead.forward (FullyConvolutionalLinearHead.visit v hd)
    training x
  = FullyConvolutionalLinearHead.forward hd training x.
Proof. reflexivity. Qed.

(** X14.  [_init_parameter] changes no shape: on every model object,
    built or not, the forward pass on shapes has the same outcome before
    and after the call, in both modes. *)
Theorem init_parameter_keeps_shapes (self : ResNeXt3D.t) (training : bool)
    (x : list nat) :
  ResNeXt3D.forward (ResNeXt3D._init_parameter self zero) training x
  = ResNeXt3D.forward self training x.
Proof.
  unfold ResNeXt3D.forward, ResNeXt3D._init_parameter.
  cbn [ResNeXt3D.stem ResNeXt3D.stages ResNeXt3D.head]. fold v.
  rewrite ResNeXt3DStem_forward_init.
  destruct (ResNeXt3DStem.forward _ _ _ _) as [[r|e] h]; [| reflexivity].
  cbn [mbind result_bind].
  destruct (h !! r) as [l|]; [| reflexivity]. cbn [mbind result_bind].
  rewrite stages_forward_init.
  destruct (ResNeXt3D.stages_forward (ResNeXt3D.stages self) training l) as [out|e];
    [| reflexivity].
  cbn [mbind result_bind].
  destruct (ResNeXt3D.head self) as [hd|]; [| reflexivity].
  cbn [fmap option_fmap option_map mbind result_bind].
  destruct (getitem out 0) as [out0|e]; [| reflexivity]. cbn [mbind result_bind].
  apply FullyConvolutionalLinearHead_forward_init.
Qed.

End InitShapes.

(** ** Shapes through a block, whatever the skip strategy *)




(** ** The stem and the stages of a model that was built *)

Lemma ResNeXt3D_init_stages (kw : ResNeXt3D.kwargs) (tr tr' : trace) (m : ResNeXt3D.t) :
  ResNeXt3D.init kw tr = (Ok m, tr') ->
  exists stages0,
    length stages0 = length (ResNeXt3D.num_blocks kw) /\
    (forall s st0, stages0 !! s = Some st0 -> stage_built kw s st0) /\
    ResNeXt3D.stages m
    = map (ResStage.visit
             (mkVisitor
                (ResNeXt3D.init_conv (ResNeXt3D.zero_init_residual_transform kw))
                (ResNeXt3D.init_bn (ResNeXt3D.zero_init_residual_transform kw))
                ResNeXt3D.init_linear)) stages0.
Proof.
  intros Hrun.
  apply ResNeXt3D_init_Ok in Hrun
    as (stem & stages & hd & tr1 & tr2 & tr3 & _ & Hstages & _ & ->).
  apply (for_loop_append _ _ (stage_body_built kw)) in Hstages
    as (items & -> & Hlen & Hitems).
  exists items. split; [done |]. split; [exact Hitems | done].
Qed.





(** ** The whole forward pass, in both modes *)


Lemma FullyConvolutionalLinearHead_forward_modes (num_classes in_plane : nat)
    (pool_size : option triple) (use_dropout : option bool) (ratio : Q)
    (tr tr' : trace) (hd : FullyConvolutionalLinearHead.t) (training : bool)
    (n c t h w : nat) :
  FullyConvolutionalLinearHead.init num_classes in_plane pool_size use_dropout ratio tr
    = (Ok hd, tr') ->
  pool_in_range pool_size (t, h, w) ->
  1 <= c -> 1 <= t -> 1 <= h -> 1 <= w ->
  FullyConvolutionalLinearHead.forward hd training [n; c; t; h; w]
  = if c =? in_plane
    then Ok [n; if training
                then pooled_positions pool_size (t, h, w) * num_classes
                else num_classes]
    else Raise (RuntimeError "mat1 and mat2 shapes cannot be multiplied").
Proof.
  intros Hrun Hpool Hc Ht Hh Hw.
  apply FullyConvolutionalLinearHead_init_Ok in Hrun as (Hfcl & Havg & Hdrop).
  unfold FullyConvolutionalLinearHead.forward. rewrite Hfcl, Havg.
  assert (Hdropout : forall y : list nat,
            match FullyConvolutionalLinearHead.dropout_layer hd with
            | Some p => dropout p training y
            | None => y
            end = y).
  { intros y. by destruct (FullyConvolutionalLinearHead.dropout_layer hd). }
  assert (Hfwd : forall a b d : nat,
            FullyConvolutionalLinear.forward
              (FullyConvolutionalLinear.mk
                 (mkLinear in_plane num_classes default_init default_init) 4)
              training [n; c; a; b; d]
            = if c =? in_plane
              then Ok [n; if training then a * (b * d) * num_classes else num_classes]
              else Raise (RuntimeError "mat1 and mat2 shapes cannot be multiplied")).
  { intros a b d. destruct (Nat.eqb_spec c in_plane) as [->|Hne].
    - rewrite FullyConvolutionalLinear_forward_shape.
      destruct training; do 3 f_equal; lia.
    - unfold FullyConvolutionalLinear.forward.
      cbn [permute linear Shape.head_ops FullyConvolutionalLinear.projection].
      rewrite Shape_permute_02341. cbn [mbind result_bind].
      unfold Shape.linear. cbn [rev app in_features].
      by destruct (Nat.eqb_spec c in_plane). }
  destruct pool_size as [[[kt kh] kw]|]; cbn [pool_in_range pooled_positions] in *.
  - destruct Hpool as (Hkt & Hkh & Hkw).
    cbn [avg_pool3d Shape.backbone_ops].
    rewrite Shape_avg_pool3d_fits by done.
    cbn [mbind result_bind]. rewrite Hdropout. apply Hfwd.
  - cbn [adaptive_avg_pool3d Shape.backbone_ops].
    rewrite Shape_adaptive_avg_pool3d_run by done. cbn [mbind result_bind].
    rewrite Hdropout, Hfwd.
    destruct (c =? in_plane); [| done]. destruct training; do 3 f_equal; lia.
Qed.

Section BackboneShapes.

Context (kw : ResNeXt3D.kwargs) (Hvalid : valid_backbone kw).
Context (v : visitor) (Hv : shape_preserving v).
Context (training : bool) (n : nat) (Hn : 1 <= n).

Lemma stages_forward_shape_backbone (items : list ResStage.t) :
  forall start t h w t' h' w',
    (forall j st, items !! j = Some st -> stage_built kw (start + j) st) ->
    1 <= t -> 1 <= h -> 1 <= w ->
    extent_after_stages (ResNeXt3D.stage_temporal_stride kw)
      (ResNeXt3D.stage_spatial_stride kw) start (length items) t h w = (t', h', w') ->
    bn_ok training n t' h' w' ->
    ResNeXt3D.stages_forward (map (ResStage.visit v) items) training
      [[n; planes_at kw start; t; h; w]]
    = Ok [[n; planes_at kw (start + length items); t'; h'; w']].
Proof.
  induction items as [|st items IH];
    intros start t h w t' h' w' Hitems Ht Hh Hw Hext Hbn.
  - cbn in Hext. injection Hext as <- <- <-. cbn. by rewrite Nat.add_0_r.
  - destruct (Hitems 0 st eq_refl)
      as (s_in & s_out & s_inner & s_basis & s_c1 & s_ts & s_ss & s_nb & tr & tr'
          & Hs_in & Hs_out & Hs_inner & Hs_basis & Hs_ts & Hs_ss & Hs_nb & Hst).
    rewrite Nat.add_0_r in *.
    apply in_planes_lookup in Hs_in as ->. apply out_planes_lookup in Hs_out as ->.
    apply inner_planes_lookup in Hs_inner as ->.
    rewrite (backbone_skip kw Hvalid) in Hst.
    pose proof (inner_planes_pos _ _ start (backbone_groups kw Hvalid)
                  (backbone_width kw Hvalid)) as Hinner.
    pose proof (planes_at_pos kw (S start) (backbone_stem_planes kw Hvalid)
                  (backbone_stage_planes kw Hvalid)) as Hout.
    cbn [length extent_after_stages] in Hext. rewrite Hs_ts, Hs_ss in Hext.
    pose proof (proj1 (Forall_lookup _ _) (backbone_temporal_stride kw Hvalid)
                  _ _ Hs_ts) as Hts1.
    pose proof (proj1 (Forall_lookup _ _) (backbone_spatial_stride kw Hvalid)
                  _ _ Hs_ss) as Hss1.
    pose proof (proj1 (Forall_lookup _ _) (backbone_blocks kw Hvalid) _ _ Hs_nb)
      as Hnb1.
    pose proof (proj1 (Forall_lookup _ _) (backbone_basis kw Hvalid) _ _ Hs_basis)
      as Hodd.
    cbn beta in Hts1, Hss1, Hnb1, Hodd.
    pose proof (extent_after_stages_bounds _ _ _ _ _ _ _ _ _ _
                  (shrink_pos t s_ts) (shrink_pos h s_ss) (shrink_pos w s_ss) Hext)
      as (Ht' & Hh' & Hw').
    assert (Hbn1 : bn_ok training n (shrink t s_ts) (shrink h s_ss) (shrink w s_ss)).
    { apply (bn_ok_mono training n t' h' w'); (done || lia). }
    cbn [map ResNeXt3D.stages_forward].
    rewrite (ResStage_forward_shape training n t h w Hn Ht Hh Hw s_ts s_ss Hts1 Hss1
               Hbn1 _ _ _ _ _ _ _ _ _ _ _ _ _ _ _ _ _ v Hst Hv Hnb1 Hodd Hinner Hout).
    cbn [mbind result_bind].
    rewrite (IH (S start) _ _ _ t' h' w'); auto using shrink_pos.
    + cbn [length]. by rewrite Nat.add_succ_r.
    + intros j st' Hj. replace (S start + j) with (start + S j) by lia.
      by apply Hitems.
Qed.

End BackboneShapes.

(** The stem and the stages hand the head a feature map of the final
    width and extents, all positive. *)
Lemma forward_reaches_head (kw : ResNeXt3D.kwargs) (training : bool)
    (n t h w t' h' w' : nat) (tr tr' : trace) (m : ResNeXt3D.t) :
  ResNeXt3D.init kw tr = (Ok m, tr') ->
  valid_backbone kw ->
  1 <= n -> 1 <= t -> 1 <= h -> 1 <= w ->
  out_extent kw t h w = (t', h', w') ->
  bn_ok training n t' h' w' ->
  (1 <= planes_at kw (length (ResNeXt3D.num_blocks kw)) /\
   1 <= t' /\ 1 <= h' /\ 1 <= w') /\
  exists hd tr1 tr2,
    FullyConvolutionalLinearHead.init (ResNeXt3D.num_classes kw) 2048
      (ResNeXt3D.head_pool_size kw) (Some true) (1 # 2) tr1 = (Ok hd, tr2) /\
    ResNeXt3D.forward m training [n; ResNeXt3D.input_planes kw; t; h; w]
    = FullyConvolutionalLinearHead.forward hd training
        [n; planes_at kw (length (ResNeXt3D.num_blocks kw)); t'; h'; w'].
Proof.
  intros Hrun Hvalid Hn Ht Hh Hw Hext Hbn.
  apply ResNeXt3D_init_Ok in Hrun
    as (stem & stages & hd & tr1 & tr2 & tr3 & Hstem & Hstages & Hhead & ->).
  apply (for_loop_append _ _ (stage_body_built kw)) in Hstages
    as (items & -> & Hlen & Hitems).
  cbn [app] in *.
  pose proof (init_visitor_shape_preserving (ResNeXt3D.zero_init_residual_transform kw))
    as Hv.
  unfold out_extent, stem_extent in Hext. rewrite <- Hlen in Hext.
  pose proof (extent_after_stages_bounds _ _ _ _ _ _ _ _ _ _ Ht
                (shrink_pos (shrink h 2) 2) (shrink_pos (shrink w 2) 2) Hext)
    as (Ht' & Hh' & Hw').
  assert (Hbn0 : bn_ok training n t (shrink h 2) (shrink w 2)).
  { pose proof (shrink_le (shrink h 2) 2 (shrink_pos h 2)).
    pose proof (shrink_le (shrink w 2) 2 (shrink_pos w 2)).
    apply (bn_ok_mono training n t' h' w'); (done || lia). }
  split.
  { split; [| lia].
    apply planes_at_pos;
      [apply (backbone_stem_planes kw Hvalid) | apply (backbone_stage_planes kw Hvalid)]. }
  exists hd, tr3, tr'. split; [exact Hhead |].
  unfold ResNeXt3D.forward, ResNeXt3D.set_head, ResNeXt3D._init_parameter.
  cbn [ResNeXt3D.stem ResNeXt3D.stages ResNeXt3D.head].
  rewrite (ResNeXt3DStem_forward_shape _ _ _ _ _ _ _ _ _ training n t h w 0 Hstem Hv
             (backbone_stem_temporal_kernel kw Hvalid)
             (backbone_stem_spatial_kernel kw Hvalid) (backbone_stem_planes kw Hvalid)
             Ht Hh Hw Hbn0).
  cbn [mbind result_bind]. rewrite lookup_insert_eq. cbn [mbind result_bind].
  pose proof (stages_forward_shape_backbone kw Hvalid _ Hv training n Hn items 0 _ _ _
                t' h' w' Hitems Ht (shrink_pos _ _) (shrink_pos _ _) Hext Hbn) as Hfwd.
  cbn [planes_at Nat.add] in Hfwd. rewrite Hfwd. cbn [mbind result_bind].
  by rewrite Hlen.
Qed.





(** ** The pre-activated reference model on clips of any size *)

Lemma shrink_lower (d s k : nat) : 1 <= s -> (k - 1) * s + 1 <= d -> k <= shrink d s.
Proof.
  intros Hs Hd. unfold shrink.
  assert (k - 1 <= (d - 1) / s); [| lia].
  apply Nat.div_le_lower_bound; lia.
Qed.

(** X20.  In inference mode the pre-activated reference model returns
    shape (n, num_classes) on every clip of at least 7 frames of at least
    193 x 193 pixels: inference is fully convolutional. *)
Theorem preact_i3d50_fully_convolutional_inference (num_classes : option nat)
    (n t h w : nat) :
  1 <= n -> 7 <= t -> 193 <= h -> 193 <= w ->
  forward_shape (resnext3d_preact_i3d50 num_classes) false [n; 3; t; h; w]
  = Ok [n; default 400 num_classes].
Proof.
  intros Hn Ht Hh Hw. unfold forward_shape, construct.
  destruct (resnext3d_preact_i3d50 num_classes []) as [[m|e] tr'] eqn:Hrun;
    [| exfalso; vm_compute in Hrun; discriminate].
  cbn [fst mbind result_bind]. unfold resnext3d_preact_i3d50 in Hrun.
  set (kw := ResNeXt3D.mkKwargs _ _ _ _ _ _ _ _ _ _ _ _ _ _ _ _ _ _ _ _) in Hrun.
  assert (Hvalid : valid_backbone kw) by (split; first [reflexivity | repeat constructor]).
  pose (t' := shrink (shrink (shrink (shrink t 1) 2) 1) 1).
  pose (h' := shrink (shrink (shrink (shrink (shrink (shrink h 2) 2) 1) 2) 2) 2).
  pose (w' := shrink (shrink (shrink (shrink (shrink (shrink w 2) 2) 1) 2) 2) 2).
  destruct (forward_reaches_head kw false n t h w t' h' w' [] tr' m Hrun Hvalid)
    as ((Hc & Ht' & Hh' & Hw') & hd & tr1 & tr2 & Hhead & Hfwd);
    [lia | lia | lia | lia | done | done |].
  change (ResNeXt3D.input_planes kw) with 3 in Hfwd. rewrite Hfwd.
  rewrite (FullyConvolutionalLinearHead_forward_modes _ _ _ _ _ _ _ _ false n _
             t' h' w' Hhead); [done | | done | done | done | done].
  - cbn [pool_in_range ResNeXt3D.head_pool_size kw].
    assert (4 <= t').
    { unfold t'. repeat (apply shrink_lower; [lia |]; cbn [Nat.sub Nat.mul Nat.add]).
      lia. }
    assert (7 <= h').
    { unfold h'. repeat (apply shrink_lower; [lia |]; cbn [Nat.sub Nat.mul Nat.add]).
      lia. }
    assert (7 <= w').
    { unfold w'. repeat (apply shrink_lower; [lia |]; cbn [Nat.sub Nat.mul Nat.add]).
      lia. }
    lia.
Qed.

Lemma preact_i3d50_fully_convolutional_inference_witness :
  forward_shape (resnext3d_preact_i3d50 (Some 174)) false [2; 3; 32; 256; 320]
  = Ok [2; 174].
Proof.
  apply (preact_i3d50_fully_convolutional_inference (Some 174) 2 32 256 320); lia.
Defined.

(** ** Models built with the post-activated skip strategy *)

Lemma visit_keeps_postactivated_skip (v : visitor) (b : ResBlock.t)
    (pm : PostactivatedShortcutTransformation.t) :
  ResBlock.skip b = ResBlock.Skip_Postactivated pm ->
  ResBlock.skip (ResBlock.visit v b)
  = ResBlock.Skip_Postactivated (PostactivatedShortcutTransformation.visit v pm).
Proof. intros Hskip. cbn [ResBlock.visit ResBlock.skip]. by rewrite Hskip. Qed.

(** X21.  No model built with the post-activated skip strategy whose first
    stage has a block that projects (a stem width other than the stage
    width, or a first-stage stride other than 1) ever returns from its
    forward pass, whatever the tensor primitives, the mode and the
    input. *)
Theorem postactivated_model_never_returns {T : Type} `{BackboneOps T} `{HeadOps T}
    (kw : ResNeXt3D.kwargs) (tr tr' : trace) (m : ResNeXt3D.t) (nb : nat) :
  ResNeXt3D.init kw tr = (Ok m, tr') ->
  ResNeXt3D.skip_transformation kw = PostactivatedShortcutTransformation_cls ->
  ResNeXt3D.num_blocks kw !! 0 = Some nb ->
  1 <= nb ->
  ResNeXt3D.stem_planes kw <> ResNeXt3D.stage_planes kw \/
  ResNeXt3D.stage_temporal_stride kw !! 0 <> Some 1 \/
  ResNeXt3D.stage_spatial_stride kw !! 0 <> Some 1 ->
  forall (training : bool) (x y : T), ResNeXt3D.forward m training x <> Ok y.
Proof.
  intros Hrun Hskip Hnb Hnb1 Hdiff training x y Hfwd.
  apply ResNeXt3D_init_stages in Hrun as (stages0 & Hlen & Hbuilt & Hstages).
  destruct stages0 as [|st0 rest].
  { apply lookup_lt_Some in Hnb. simpl in Hlen. lia. }
  destruct (Hbuilt 0 st0 eq_refl)
    as (s_in & s_out & s_inner & s_basis & s_c1 & s_ts & s_ss & s_nb & tr1 & tr2
        & Hs_in & Hs_out & _ & _ & Hs_ts & Hs_ss & Hs_nb & Hinit).
  apply in_planes_lookup in Hs_in as ->. apply out_planes_lookup in Hs_out as ->.
  cbn [planes_at] in Hinit. rewrite Nat.pow_0_r, Nat.mul_1_r, Hskip in Hinit.
  rewrite Hnb in Hs_nb. injection Hs_nb as <-.
  (* the first block of the first stage projects *)
  pose proof Hinit as Hpw.
  apply ResStage_init_built in Hpw as (_ & Hnp & _ & Hall & _).
  destruct (Hall 0) as (blocks & Hblocks & n' & [= <-] & Hblen & _); [simpl; lia |].
  destruct blocks as [|a blocks]; [simpl in Hblen; lia |].
  destruct (ResStage_init_item _ _ _ _ _ _ _ _ _ _ _ _ _ _ _ _ _ _ _ _ 0 0 _ a
              Hinit Hblocks eq_refl)
    as (_ & _ & _ & b0 & d_in & d_out & d_inner & sizes & k & c1 & ts & ss & g
        & tr3 & tr4 & -> & [= <-] & [= <-] & _ & _ & _ & _ & [= <-] & [= <-] & _
        & Hblk).
  apply ResBlock_init_Ok in Hblk as (tr5 & tr6 & tr7 & Hsk & _ & _).
  assert (Hneed : projection_needed (ResNeXt3D.stem_planes kw)
                    (ResNeXt3D.stage_planes kw) s_ts s_ss = true).
  { destruct (projection_needed _ _ _ _) eqn:Hp; [done |].
    apply projection_needed_false in Hp as (Hp1 & -> & ->).
    destruct Hdiff as [Hd | [Hd | Hd]]; done. }
  rewrite Hneed in Hsk. destruct Hsk as (pm & _ & Hsk).
  (* so the forward pass of the first stage never returns *)
  unfold ResNeXt3D.forward in Hfwd. rewrite Hstages in Hfwd.
  destruct (ResNeXt3DStem.forward _ _ _ _) as [[r|e] h]; [| done].
  cbn [mbind result_bind] in Hfwd.
  destruct (h !! r) as [l|]; [| done]. cbn [mbind result_bind] in Hfwd.
  cbn [map ResNeXt3D.stages_forward] in Hfwd.
  destruct (ResStage.forward _ training l) as [out|e] eqn:Hstage; [| done].
  apply ResStage_forward_Ok_iff in Hstage as (_ & Hpaths).
  destruct (Hpaths 0) as (x0 & ms & y0 & _ & Hms & Hseq & _).
  { cbn [ResStage.visit ResStage.num_pathways]. rewrite Hnp. simpl. lia. }
  cbn [ResStage.visit ResStage.pathways] in Hms.
  rewrite lookup_fmap, Hblocks in Hms. cbn in Hms. injection Hms as <-.
  cbn [ResStage.Sequential_forward ResStage.seq_item_visit
       ResStage.seq_item_forward] in Hseq.
  destruct (ResBlock.forward _ training x0) as [z|e] eqn:Hblock; [| done].
  revert Hblock.
  eapply postactivated_skip_never_Ok. by apply visit_keeps_postactivated_skip.
Qed.

Lemma postactivated_model_never_returns_witness :
  exists m,
    construct (resnext3d_postact_i3d50 None) = Ok m /\
    forall (training : bool) (x y : list nat), ResNeXt3D.forward m training x <> Ok y.
Proof.
  destruct (resnext3d_postact_i3d50 None []) as [[m|e] tr'] eqn:Hrun;
    [| exfalso; vm_compute in Hrun; discriminate].
  exists m. split; [unfold construct; by rewrite Hrun |].
  unfold resnext3d_postact_i3d50 in Hrun.
  apply (postactivated_model_never_returns _ _ _ _ 3 Hrun);
    [reflexivity | reflexivity | lia |].
  left. cbn. lia.
Defined.

(** ** Clips too small for the head's pooling window *)

Lemma shrink_upper (d s k : nat) : 1 <= s -> 1 <= d -> d <= k * s -> shrink d s <= k.
Proof.
  intros Hs Hd Hk. unfold shrink.
  assert ((d - 1) / s < k); [| lia].
  apply Nat.Div0.div_lt_upper_bound. nia.
Qed.

(** Average pooling with a window larger than the input. *)
Lemma Shape_avg_pool3d_too_small (kt kh kw n c t h w : nat) :
  1 <= kt -> 1 <= kh -> 1 <= kw ->
  1 <= c -> 1 <= t -> 1 <= h -> 1 <= w ->
  t < kt \/ h < kh \/ w < kw ->
  Shape.avg_pool3d (kt, kh, kw) (_triple 1) [n; c; t; h; w]
  = Raise (RuntimeError "input image smaller than kernel size").
Proof.
  intros Hkt Hkh Hkw Hc Ht Hh Hw Hsmall.
  unfold Shape.avg_pool3d, Shape.pool3d, Shape.pool3d_extents, _triple.
  cbn [Nat.eqb orb]. rewrite !ltb_zero. cbn [orb].
  rewrite !positive_nonzero by done. cbn [orb andb].
  assert (Hlt : (t <? kt) || (h <? kh) || (w <? kw) = true).
  { rewrite !orb_true_iff, !Nat.ltb_lt. tauto. }
  by rewrite Hlt.
Qed.

Lemma FullyConvolutionalLinearHead_forward_too_small (num_classes in_plane : nat)
    (kt kh kw : nat) (use_dropout : option bool) (ratio : Q)
    (tr tr' : trace) (hd : FullyConvolutionalLinearHead.t) (training : bool)
    (n c t h w : nat) :
  FullyConvolutionalLinearHead.init num_classes in_plane (Some (kt, kh, kw))
    use_dropout ratio tr = (Ok hd, tr') ->
  1 <= kt -> 1 <= kh -> 1 <= kw ->
  1 <= c -> 1 <= t -> 1 <= h -> 1 <= w ->
  t < kt \/ h < kh \/ w < kw ->
  FullyConvolutionalLinearHead.forward hd training [n; c; t; h; w]
  = Raise (RuntimeError "input image smaller than kernel size").
Proof.
  intros Hrun Hkt Hkh Hkw Hc Ht Hh Hw Hsmall.
  apply FullyConvolutionalLinearHead_init_Ok in Hrun as (_ & Havg & _).
  unfold FullyConvolutionalLinearHead.forward. rewrite Havg.
  cbn [avg_pool3d Shape.backbone_ops].
  by rewrite Shape_avg_pool3d_too_small.
Qed.

(** X22.  On a clip of fewer than 7 frames, or less than 193 pixels high
    or wide, the forward pass of the pre-activated reference model raises
    in the average pooling of the head, whose window is larger than the
    feature map: in inference mode, and in training mode with a batch of
    at least 2. *)
Theorem preact_i3d50_rejects_small_clips (num_classes : option nat) (training : bool)
    (n t h w : nat) :
  1 <= n -> 1 <= t -> 1 <= h -> 1 <= w ->
  (training = true -> 2 <= n) ->
  t <= 6 \/ h <= 192 \/ w <= 192 ->
  forward_shape (resnext3d_preact_i3d50 num_classes) training [n; 3; t; h; w]
  = Raise (RuntimeError "input image smaller than kernel size").
Proof.
  intros Hn Ht Hh Hw Hbatch Hsmall.
  assert (Hbn : bn_ok training n 1 1 1).
  { intros Htr. specialize (Hbatch Htr). lia. }
  unfold forward_shape, construct.
  destruct (resnext3d_preact_i3d50 num_classes []) as [[m|e] tr'] eqn:Hrun;
    [| exfalso; vm_compute in Hrun; discriminate].
  cbn [fst mbind result_bind]. unfold resnext3d_preact_i3d50 in Hrun.
  set (kw := ResNeXt3D.mkKwargs _ _ _ _ _ _ _ _ _ _ _ _ _ _ _ _ _ _ _ _) in Hrun.
  assert (Hvalid : valid_backbone kw) by (split; first [reflexivity | repeat constructor]).
  pose (t' := shrink (shrink (shrink (shrink t 1) 2) 1) 1).
  pose (h' := shrink (shrink (shrink (shrink (shrink (shrink h 2) 2) 1) 2) 2) 2).
  pose (w' := shrink (shrink (shrink (shrink (shrink (shrink w 2) 2) 1) 2) 2) 2).
  assert (Hbn' : bn_ok training n t' h' w').
  { unfold t', h', w'. apply (bn_ok_mono training n 1 1 1); auto using shrink_pos. }
  destruct (forward_reaches_head kw training n t h w t' h' w' [] tr' m Hrun Hvalid)
    as ((Hc & Ht' & Hh' & Hw') & hd & tr1 & tr2 & Hhead & Hfwd);
    [lia | lia | lia | lia | done | done |].
  change (ResNeXt3D.input_planes kw) with 3 in Hfwd. rewrite Hfwd.
  apply (FullyConvolutionalLinearHead_forward_too_small _ _ _ _ _ _ _ _ _ _ training
           n _ t' h' w' Hhead); [lia | lia | lia | done | done | done | done |].
  destruct Hsmall as [Hs | [Hs | Hs]]; [left | right; left | right; right].
  - assert (t' <= 3); [| lia]. unfold t'.
    rewrite !shrink_1 by auto using shrink_pos.
    apply shrink_upper; lia.
  - assert (h' <= 6); [| lia]. unfold h'.
    rewrite !shrink_1 by auto using shrink_pos.
    repeat (apply shrink_upper; [lia | auto using shrink_pos |]).
    cbn [Nat.mul Nat.add]. lia.
  - assert (w' <= 6); [| lia]. unfold w'.
    rewrite !shrink_1 by auto using shrink_pos.
    repeat (apply shrink_upper; [lia | auto using shrink_pos |]).
    cbn [Nat.mul Nat.add]. lia.
Qed.

Lemma preact_i3d50_rejects_small_clips_witness :
  forward_shape (resnext3d_preact_i3d50 None) false [1; 3; 4; 224; 224]
  = Raise (RuntimeError "input image smaller than kernel size").
Proof.
  apply (preact_i3d50_rejects_small_clips None false 1 4 224 224);
    [lia | lia | lia | lia | discriminate | left; lia].
Defined.

(** ** The initialisation policy on the stem *)

(** X23.  The stem of every model that was built has exactly one
    single-pathway stem, under the name [stem-path0]; after
    [_init_parameter] its convolution has no bias and a Kaiming-normal
    weight and its batch normalisation weight 1 and bias 0; and it has the
    max-pooling layer, whatever [stem_maxpool]. *)
Theorem init_parameter_reaches_stem (kw : ResNeXt3D.kwargs) (tr tr' : trace)
    (m : ResNeXt3D.t) :
  ResNeXt3D.init kw tr = (Ok m, tr') ->
  exists sp,
    ResNeXt3DStemMultiPathway.blocks (ResNeXt3DStem.stem (ResNeXt3D.stem m))
    = {[ResNeXt3DStemMultiPathway._stem_name 0 := sp]} /\
    conv_weight (ResNeXt3DStemSinglePathway.conv sp) = kaiming /\
    conv_bias (ResNeXt3DStemSinglePathway.conv sp) = None /\
    bn_weight (ResNeXt3DStemSinglePathway.bn sp) = constant_ (1 # 1) /\
    bn_bias (ResNeXt3DStemSinglePathway.bn sp) = constant_ (0 # 1) /\
    ResNeXt3DStemSinglePathway.pool_layer sp
    = Some (mkMaxPool3d (1, 3, 3) (1, 2, 2) (0, 1, 1)).
Proof.
  intros Hrun.
  apply ResNeXt3D_init_Ok in Hrun
    as (stem & stages & hd & tr1 & tr2 & tr3 & Hstem & _ & _ & ->).
  unfold ResNeXt3DStem.init in Hstem.
  apply Build_bind_Ok in Hstem as (u & tr0 & _ & Hstem).
  apply Build_bind_Ok in Hstem as (st & tr4 & Hst & Hstem).
  apply mret_run in Hstem as [<- _].
  unfold ResNeXt3DStemMultiPathway.init in Hst.
  apply Build_bind_Ok in Hst as (u' & tr5 & _ & Hst).
  cbn [ResNeXt3DStemMultiPathway.unequal_lengths length Nat.eqb negb orb] in Hst.
  apply Build_bind_Ok in Hst as (blocks & tr6 & Hblocks & Hst).
  apply mret_run in Hst as [<- _].
  cbn [for_loop] in Hblocks.
  apply Build_bind_Ok in Hblocks as (blocks1 & tr7 & Hbody & Hret).
  apply mret_run in Hret as [<- _].
  unfold ResNeXt3DStemMultiPathway.stem_body in Hbody.
  apply Build_bind_Ok in Hbody as (d_in & tr8 & [= <-]%index_Ok & Hbody).
  apply Build_bind_Ok in Hbody as (d_out & tr9 & [= <-]%index_Ok & Hbody).
  apply Build_bind_Ok in Hbody as (k & tr10 & [= <-]%index_Ok & Hbody).
  apply Build_bind_Ok in Hbody as (sd & tr11 & [= <-]%index_Ok & Hbody).
  apply Build_bind_Ok in Hbody as (pad & tr12 & [= <-]%index_Ok & Hbody).
  apply Build_bind_Ok in Hbody as (stem0 & tr13 & Hstem0 & Hbody).
  apply mret_run in Hbody as [<- _].
  unfold ResNeXt3DStemSinglePathway.init in Hstem0.
  apply Build_bind_Ok in Hstem0 as (u0 & tr14 & _ & Hstem0).
  apply Build_bind_Ok in Hstem0 as (cv & tr15 & ->%nn_Conv3d_Ok & Hstem0).
  apply Build_bind_Ok in Hstem0 as (b & tr16 & ->%nn_BatchNorm3d_Ok & Hstem0).
  apply Build_bind_Ok in Hstem0 as (act & tr17 & ->%nn_ReLU_Ok & Hstem0).
  apply Build_bind_Ok in Hstem0 as (pool & tr18 & Hpool & Hstem0).
  apply mret_run in Hstem0 as [<- _].
  rewrite Build_bind_run in Hpool. unfold alloc in Hpool. injection Hpool as <- _.
  eexists. split.
  - cbn [ResNeXt3D.set_head ResNeXt3D._init_parameter ResNeXt3D.stem
         ResNeXt3DStem.visit ResNeXt3DStem.stem ResNeXt3DStemMultiPathway.visit
         ResNeXt3DStemMultiPathway.blocks].
    rewrite fmap_insert, fmap_empty. reflexivity.
  - by cbn.
Qed.

Lemma init_parameter_reaches_stem_witness :
  exists m sp,
    construct (ResNeXt3D.init half_width_kwargs) = Ok m /\
    ResNeXt3DStemMultiPathway.blocks (ResNeXt3DStem.stem (ResNeXt3D.stem m))
    = {[ResNeXt3DStemMultiPathway._stem_name 0 := sp]} /\
    conv_weight (ResNeXt3DStemSinglePathway.conv sp) = kaiming /\
    bn_weight (ResNeXt3DStemSinglePathway.bn sp) = constant_ (1 # 1).
Proof.
  destruct (ResNeXt3D.init half_width_kwargs []) as [[m|e] tr'] eqn:Hrun;
    [| exfalso; vm_compute in Hrun; discriminate].
  destruct (init_parameter_reaches_stem _ _ _ _ Hrun)
    as (sp & Hblocks & Hconv & _ & Hbn & _).
  exists m, sp. split; [unfold construct; by rewrite Hrun |]. by repeat split.
Defined.

(** ** Sequences compose *)

(** X24.  Running a sequence of modules that is a concatenation is
    running its first part and then its second part on the result, an
    exception of the first part being the outcome of the whole; the same
    holds of the loop over the stages of a model. *)
Theorem forward_of_appended_modules {T : Type} `{BackboneOps T} (training : bool) :
  (forall (ms1 ms2 : list ResStage.seq_item) (x : T),
     ResStage.Sequential_forward (ms1 ++ ms2) training x
     = (y ← ResStage.Sequential_forward ms1 training x;
        ResStage.Sequential_forward ms2 training y)) /\
  (forall (stages1 stages2 : list ResStage.t) (out : list T),
     ResNeXt3D.stages_forward (stages1 ++ stages2) training out
     = (mid ← ResNeXt3D.stages_forward stages1 training out;
        ResNeXt3D.stages_forward stages2 training mid)).
Proof.
  split.
  - intros ms1 ms2. induction ms1 as [|m ms1 IH]; intros x; [done |].
    cbn [app ResStage.Sequential_forward].
    destruct (ResStage.seq_item_forward m training x) as [y|e]; [apply IH | done].
  - intros stages1 stages2. induction stages1 as [|st stages1 IH]; intros out; [done |].
    cbn [app ResNeXt3D.stages_forward].
    destruct (ResStage.forward st training out) as [mid|e]; [apply IH | done].
Qed.

(** ** A pathway without blocks *)



(** ** A stem without output channels *)

(** A convolution with fewer output channels than groups raises on every
    input, once its strides are positive. *)
Lemma Shape_conv3d_no_weight (c : Conv3d) (sd sh sw : nat) (x : list nat) :
  conv_stride c = (sd, sh, sw) -> 1 <= sd -> 1 <= sh -> 1 <= sw ->
  out_channels c < groups c ->
  exists msg, Shape.conv3d c x = Raise (RuntimeError msg).
Proof.
  intros Hst Hsd Hsh Hsw Hout.
  assert (Hext : forall ch d h w,
            Shape.conv3d_extents c ch d h w
            = Raise (RuntimeError "expected weight to be at least groups at dimension 0")).
  { intros ch d h w. unfold Shape.conv3d_extents. rewrite Hst.
    destruct (kernel_size c) as [[kd kh] kw], (conv_padding c) as [[pd ph] pw].
    rewrite !positive_nonzero by done. cbn [orb].
    by rewrite (proj2 (Nat.ltb_lt _ _) Hout). }
  unfold Shape.conv3d.
  destruct x as [|a [|b [|c0 [|d [|e [|f l]]]]]]; try (eexists; reflexivity).
  - rewrite Hext. eexists; reflexivity.
  - rewrite Hext. eexists; reflexivity.
Qed.

(** The only single-pathway stem of a model that was built, and its
    convolution. *)
Lemma ResNeXt3D_init_stem_conv (kw : ResNeXt3D.kwargs) (tr tr' : trace)
    (m : ResNeXt3D.t) :
  ResNeXt3D.init kw tr = (Ok m, tr') ->
  exists sp,
    ResNeXt3DStemMultiPathway.blocks (ResNeXt3DStem.stem (ResNeXt3D.stem m))
    = {[ResNeXt3DStemMultiPathway._stem_name 0 := sp]} /\
    out_channels (ResNeXt3DStemSinglePathway.conv sp) = ResNeXt3D.stem_planes kw /\
    groups (ResNeXt3DStemSinglePathway.conv sp) = 1 /\
    conv_stride (ResNeXt3DStemSinglePathway.conv sp) = (1, 2, 2).
Proof.
  intros Hrun.
  apply ResNeXt3D_init_Ok in Hrun
    as (stem & stages & hd & tr1 & tr2 & tr3 & Hstem & _ & _ & ->).
  unfold ResNeXt3DStem.init in Hstem.
  apply Build_bind_Ok in Hstem as (u & tr0 & _ & Hstem).
  apply Build_bind_Ok in Hstem as (st & tr4 & Hst & Hstem).
  apply mret_run in Hstem as [<- _].
  unfold ResNeXt3DStemMultiPathway.init in Hst.
  apply Build_bind_Ok in Hst as (u' & tr5 & _ & Hst).
  cbn [ResNeXt3DStemMultiPathway.unequal_lengths length Nat.eqb negb orb] in Hst.
  apply Build_bind_Ok in Hst as (blocks & tr6 & Hblocks & Hst).
  apply mret_run in Hst as [<- _].
  cbn [for_loop] in Hblocks.
  apply Build_bind_Ok in Hblocks as (blocks1 & tr7 & Hbody & Hret).
  apply mret_run in Hret as [<- _].
  unfold ResNeXt3DStemMultiPathway.stem_body in Hbody.
  apply Build_bind_Ok in Hbody as (d_in & tr8 & [= <-]%index_Ok & Hbody).
  apply Build_bind_Ok in Hbody as (d_out & tr9 & [= <-]%index_Ok & Hbody).
  apply Build_bind_Ok in Hbody as (k & tr10 & [= <-]%index_Ok & Hbody).
  apply Build_bind_Ok in Hbody as (sd & tr11 & [= <-]%index_Ok & Hbody).
  apply Build_bind_Ok in Hbody as (pad & tr12 & [= <-]%index_Ok & Hbody).
  apply Build_bind_Ok in Hbody as (stem0 & tr13 & Hstem0 & Hbody).
  apply mret_run in Hbody as [<- _].
  unfold ResNeXt3DStemSinglePathway.init in Hstem0.
  apply Build_bind_Ok in Hstem0 as (u0 & tr14 & _ & Hstem0).
  apply Build_bind_Ok in Hstem0 as (cv & tr15 & ->%nn_Conv3d_Ok & Hstem0).
  apply Build_bind_Ok in Hstem0 as (b & tr16 & _ & Hstem0).
  apply Build_bind_Ok in Hstem0 as (act & tr17 & _ & Hstem0).
  apply Build_bind_Ok in Hstem0 as (pool & tr18 & _ & Hstem0).
  apply mret_run in Hstem0 as [<- _].
  eexists. split.
  - cbn [ResNeXt3D.set_head ResNeXt3D._init_parameter ResNeXt3D.stem
         ResNeXt3DStem.visit ResNeXt3DStem.stem ResNeXt3DStemMultiPathway.visit
         ResNeXt3DStemMultiPathway.blocks].
    rewrite fmap_insert, fmap_empty. reflexivity.
  - by cbn.
Qed.

(** X26.  The constructors accept [stem_planes = 0], but the model they
    return cannot run: its forward pass raises [RuntimeError] in the
    convolution of the stem, which has no output channels, on every input
    shape and in either mode. *)
Theorem stem_without_planes_never_runs (kw : ResNeXt3D.kwargs) (tr tr' : trace)
    (m : ResNeXt3D.t) (training : bool) (x : list nat) :
  ResNeXt3D.init kw tr = (Ok m, tr') ->
  ResNeXt3D.stem_planes kw = 0 ->
  exists msg, ResNeXt3D.forward m training x = Raise (RuntimeError msg).
Proof.
  intros Hrun Hplanes.
  destruct (ResNeXt3D_init_stem_conv kw tr tr' m Hrun)
    as (sp & Hblocks & Hout & Hgroups & Hstride).
  destruct (Shape_conv3d_no_weight (ResNeXt3DStemSinglePathway.conv sp) 1 2 2 x Hstride)
    as [msg Hconv]; [lia | lia | lia | rewrite Hout, Hgroups, Hplanes; lia |].
  exists msg. unfold ResNeXt3D.forward, ResNeXt3DStem.forward,
    ResNeXt3DStemMultiPathway.forward.
  rewrite Mut_bind_run. unfold list_len. rewrite lookup_singleton_eq.
  rewrite Mut_bind_run. cbn [length for_loop]. rewrite Mut_bind_run.
  unfold ResNeXt3DStemMultiPathway.forward_body at 1.
  rewrite Mut_bind_run. unfold pure_ at 1, dict_getitem.
  rewrite Hblocks, lookup_singleton_eq.
  rewrite Mut_bind_run. unfold list_load, getitem. rewrite lookup_singleton_eq.
  cbn [lookup list_lookup].
  rewrite Mut_bind_run. unfold pure_, ResNeXt3DStemSinglePathway.forward.
  cbn [conv3d Shape.backbone_ops]. by rewrite Hconv.
Qed.

Lemma stem_without_planes_never_runs_witness :
  exists m,
    construct (ResNeXt3D.init no_stem_planes_kwargs) = Ok m /\
    exists msg, ResNeXt3D.forward m false [1; 3; 8; 224; 224] = Raise (RuntimeError msg).
Proof.
  destruct (ResNeXt3D.init no_stem_planes_kwargs []) as [[m|e] tr'] eqn:Hrun;
    [| exfalso; vm_compute in Hrun; discriminate].
  exists m. split; [unfold construct; by rewrite Hrun |].
  by apply (stem_without_planes_never_runs no_stem_planes_kwargs [] tr' m false _ Hrun).
Defined.
